(** * Account-session and account-mismatch detection of the Picsart/Dropbox plugin

    A shallow embedding of the session code of the repository: the server
    middleware [ensureValidToken] (server/src/middleware/auth.ts), the
    client token bookkeeping of [authApi], the account validators, the
    fetch interceptor, the start-up session restore and the recovery
    handlers of [Layout] and [useAuth]; further, the
    validation helpers of the controllers, the stored sessions of
    [UserService], the axios interceptors, the quick validators, the
    second fetch wrapper and the upscale limits.

    Conventions.
    - JavaScript numbers that hold millisecond timestamps and second
      counts are integers far below 2^53, where double arithmetic is
      exact: they are modelled by [Z].
    - [localStorage] and [sessionStorage] are finite maps from strings to
      strings; [getItem] is the lookup, [null] is [None].
    - A remote call is an oracle that returns a value or throws; the calls
      a function performs, and the events it dispatches, are recorded in
      the order the source performs them.
    - An [async] function runs to its end: no other handler runs between
      two of its [await]s.
    - An event listener installed by a React effect reads the values of
      the render that installed it; its setters write to the store as it
      is when the event arrives. *)

From Stdlib Require Import ZArith Lia Bool List Ascii String.
From Stdlib Require Import Decimal DecimalString DecimalPos.
From stdpp Require Import base option list gmap strings.

Local Open Scope string_scope.
Local Open Scope Z_scope.
Local Open Scope list_scope.

(** ** JavaScript values and string primitives *)

Module Js.

(** [!s] for a value that is a string or [null]: [null] and the empty
    string are falsy. *)
Definition truthy (o : option string) : bool :=
  match o with
  | Some s => negb (String.eqb s "")
  | None => false
  end.

Definition is_digit (c : ascii) : bool :=
  let n := N_of_ascii c in ((48 <=? n) && (n <=? 57))%N.

Definition digit_val (c : ascii) : Z := Z.of_N (N_of_ascii c) - 48.

(** The characters [parseInt] strips in front of the number. *)
Definition is_space (c : ascii) : bool :=
  let n := N_of_ascii c in
  ((n =? 32) || ((9 <=? n) && (n <=? 13)))%N.

Fixpoint skip_ws (s : string) : string :=
  match s with
  | String c r => if is_space c then skip_ws r else s
  | EmptyString => s
  end.

(** The longest prefix of decimal digits, read left to right. *)
Fixpoint parse_digits (acc : Z) (s : string) : Z :=
  match s with
  | String c r => if is_digit c then parse_digits (10 * acc + digit_val c) r else acc
  | EmptyString => acc
  end.

Definition starts_with_digit (s : string) : bool :=
  match s with
  | String c _ => is_digit c
  | EmptyString => false
  end.

Definition strip_sign (s : string) : bool * string :=
  match s with
  | String "-" r => (true, r)
  | String "+" r => (false, r)
  | _ => (false, s)
  end.

(** [parseInt(s, 10)]; [None] is [NaN]. *)
Definition parseInt10 (s : string) : option Z :=
  let '(neg, body) := strip_sign (skip_ws s) in
  if starts_with_digit body
  then Some (if neg then - parse_digits 0 body else parse_digits 0 body)
  else None.

Definition hex_val (c : ascii) : option Z :=
  let n := N_of_ascii c in
  if ((48 <=? n) && (n <=? 57))%N then Some (Z.of_N n - 48)
  else if ((97 <=? n) && (n <=? 102))%N then Some (Z.of_N n - 87)
  else if ((65 <=? n) && (n <=? 70))%N then Some (Z.of_N n - 55)
  else None.

Fixpoint parse_hex (acc : Z) (s : string) : Z :=
  match s with
  | String c r =>
      match hex_val c with
      | Some d => parse_hex (16 * acc + d) r
      | None => acc
      end
  | EmptyString => acc
  end.

Definition starts_with_hex (s : string) : bool :=
  match s with
  | String c _ => match hex_val c with Some _ => true | None => false end
  | EmptyString => false
  end.

(** [parseInt(s)] without a radix: a [0x] or [0X] prefix selects base 16. *)
Definition parseInt (s : string) : option Z :=
  let '(neg, body) := strip_sign (skip_ws s) in
  let signed (v : Z) := if neg then - v else v in
  match body with
  | String "0" (String x r) =>
      if (Ascii.eqb x "x" || Ascii.eqb x "X")%bool
      then (if starts_with_hex r then Some (signed (parse_hex 0 r)) else None)
      else Some (signed (parse_digits 0 body))
  | _ =>
      if starts_with_digit body then Some (signed (parse_digits 0 body)) else None
  end.

(** [n.toString()] for an integer. *)
Definition toString (z : Z) : string :=
  match z with
  | Z0 => "0"
  | Zpos p => NilEmpty.string_of_uint (Pos.to_uint p)
  | Zneg p => String "-" (NilEmpty.string_of_uint (Pos.to_uint p))
  end.

(** [s.includes(needle)]. *)
Fixpoint includes (needle s : string) : bool :=
  String.prefix needle s ||
  match s with
  | String _ r => includes needle r
  | EmptyString => false
  end.

(** [s.split(sep)] for a non-empty separator.  [skip] counts the
    characters of a matched separator still to be dropped, [cur] is the
    piece being read, reversed. *)
Fixpoint rev_string (acc : string) (s : string) : string :=
  match s with
  | String c r => rev_string (String c acc) r
  | EmptyString => acc
  end.

Fixpoint split_go (sep : string) (skip : nat) (cur : string) (s : string) : list string :=
  match s with
  | EmptyString => [rev_string "" cur]
  | String c r =>
      match skip with
      | S k => split_go sep k cur r
      | O =>
          if String.prefix sep s
          then rev_string "" cur :: split_go sep (Nat.pred (String.length sep)) "" r
          else split_go sep O (String c cur) r
      end
  end.

Definition split (sep s : string) : list string := split_go sep O "" s.

Fixpoint drop (n : nat) (s : string) : string :=
  match n, s with
  | S k, String _ r => drop k r
  | _, _ => s
  end.

(** [s.replace(pat, '')] for a string pattern: the first occurrence of
    [pat] is removed. *)
Fixpoint remove_first (pat s : string) : string :=
  if String.prefix pat s then drop (String.length pat) s
  else match s with
       | String c r => String c (remove_first pat r)
       | EmptyString => EmptyString
       end.

(** The character [c] does not occur in [s]. *)
Fixpoint no_char (c : ascii) (s : string) : bool :=
  match s with
  | String x r => negb (Ascii.eqb x c) && no_char c r
  | EmptyString => true
  end.

(** [a || b] on values that are a string or [null]. *)
Definition or_else (a b : option string) : option string :=
  if truthy a then a else b.

(** The value of a decimal numeral read left to right, as [parse_digits]
    reads its characters. *)
Fixpoint uint_value (acc : Z) (u : uint) : Z :=
  match u with
  | Nil => acc
  | D0 r => uint_value (10 * acc + 0) r
  | D1 r => uint_value (10 * acc + 1) r
  | D2 r => uint_value (10 * acc + 2) r
  | D3 r => uint_value (10 * acc + 3) r
  | D4 r => uint_value (10 * acc + 4) r
  | D5 r => uint_value (10 * acc + 5) r
  | D6 r => uint_value (10 * acc + 6) r
  | D7 r => uint_value (10 * acc + 7) r
  | D8 r => uint_value (10 * acc + 8) r
  | D9 r => uint_value (10 * acc + 9) r
  end.

End Js.

(** ** Server: the auth middleware (server/src/middleware/auth.ts) and the
    account validation helpers (utils/accountValidation) *)

Module Server.
Import Js.

(** What a rejected promise or a [throw] carries: an [Error] with its
    message, or some other value. *)
Inductive Thrown : Type :=
| JsError (message : string)
| OtherValue.

Inductive Result (A : Type) : Type :=
| Ok (a : A)
| Throw (e : Thrown).
Arguments Ok {A} a.
Arguments Throw {A} e.

Definition thrown_message (e : Thrown) : option string :=
  match e with
  | JsError m => Some m
  | OtherValue => None
  end.

(** The fields of [usersGetCurrentAccount().result] the code reads. *)
Record Account : Type := mkAccount {
  account_id : string;
  email : string;
  display_name : string
}.

(** The stored session record ([IUser]) as far as the middleware reads it. *)
Record UserSession : Type := mkUserSession {
  userId : string;
  refreshToken : option string
}.

Record RefreshResult : Type := mkRefreshResult {
  newAccessToken : string;
  newRefreshToken : option string
}.

Record Request : Type := mkRequest {
  authorization : option string;
  x_user_id : option string;
  path : string;
  user_agent : option string
}.

(** The JSON body of an error response; absent fields are [None]. *)
Record Body : Type := mkBody {
  error : option string;
  message : option string;
  shouldReauth : option bool;
  blockExecution : option bool;
  reason : option string
}.

Record Response : Type := mkResponse {
  status : Z;
  body : Body
}.

(** The calls a middleware run performs, in order. *)
Inductive Call : Type :=
| ProbeAccount (accessToken : string)
| GetUserSession (user : string)
| RefreshAccessToken (refresh : string)
| UpdateTokens (user access : string) (refresh : option string) (expiresIn : Z)
| SetHeader (name value : string)
| Next.

(** The result of running a middleware on a request: the response it
    sent (if any), whether it handed over to the route handler, what it
    attached to the request, and its calls. *)
Record Outcome : Type := mkOutcome {
  response : option Response;
  nextCalled : bool;
  req_accessToken : option string;
  req_currentAccountId : option string;
  calls : list Call
}.

Definition reject (st : Z) (b : Body) (cs : list Call) : Outcome :=
  {| response := Some {| status := st; body := b |};
     nextCalled := false;
     req_accessToken := None;
     req_currentAccountId := None;
     calls := cs |}.

Definition is_probe (c : Call) : bool :=
  match c with
  | ProbeAccount _ => true
  | _ => false
  end.

Definition probes (cs : list Call) : list Call := List.filter is_probe cs.

Section Middleware.

(** The provider and the credential store, as the middleware sees them. *)
Variable usersGetCurrentAccount : string -> Result Account.
Variable getUserSession : string -> option UserSession.
Variable refreshAccessTokenIfNeeded : string -> Result RefreshResult.
Variable updateTokens : string -> string -> option string -> Z -> Result unit.

(** [authHeader?.split(' ')[1]] *)
Definition bearer_token (authHeader : option string) : option string :=
  match authHeader with
  | Some h => nth_error (split " " h) 1
  | None => None
  end.

(** The messages that mark an expired refresh token. *)
Definition refresh_token_error (m : string) : bool :=
  includes "invalid_grant" m || includes "refresh_token" m ||
  includes "expired" m || includes "invalid_token" m.

Definition refresh_failure_body (e : Thrown) : Body :=
  match e with
  | JsError m =>
      if refresh_token_error m
      then {| error := Some "Refresh token expired";
              message := Some "Please log in again";
              shouldReauth := Some true;
              blockExecution := None;
              reason := Some "refresh_token_expired" |}
      else {| error := Some "Authentication failed";
              message := Some m;
              shouldReauth := Some true;
              blockExecution := None;
              reason := None |}
  | OtherValue =>
      {| error := Some "Authentication failed";
         message := Some "Token refresh failed";
         shouldReauth := Some true;
         blockExecution := None;
         reason := None |}
  end.

(** The [catch] branch of the probe: one refresh with the stored refresh
    token of the claimed user. *)
Definition refresh_path (user : string) (done : list Call) : Outcome :=
  let cs1 := done ++ [GetUserSession user] in
  match getUserSession user with
  | None =>
      reject 401 {| error := Some "Token expired and no refresh token available";
                    message := None; shouldReauth := Some true;
                    blockExecution := None; reason := None |} cs1
  | Some session =>
      match refreshToken session with
      | Some rt =>
          if negb (String.eqb rt "") then
            let cs2 := cs1 ++ [RefreshAccessToken rt] in
            match refreshAccessTokenIfNeeded rt with
            | Throw e => reject 401 (refresh_failure_body e) cs2
            | Ok r =>
                let cs3 := cs2 ++ [UpdateTokens user (newAccessToken r) (newRefreshToken r) 14400] in
                match updateTokens user (newAccessToken r) (newRefreshToken r) 14400 with
                | Throw e => reject 401 (refresh_failure_body e) cs3
                | Ok _ =>
                    {| response := None;
                       nextCalled := true;
                       req_accessToken := Some (newAccessToken r);
                       req_currentAccountId := Some user;
                       calls := cs3 ++ [SetHeader "X-New-Access-Token" (newAccessToken r); Next] |}
                end
            end
          else
            reject 401 {| error := Some "Token expired and no refresh token available";
                          message := None; shouldReauth := Some true;
                          blockExecution := None; reason := None |} cs1
      | None =>
          reject 401 {| error := Some "Token expired and no refresh token available";
                        message := None; shouldReauth := Some true;
                        blockExecution := None; reason := None |} cs1
      end
  end.

Definition no_field_body (e : string) : Body :=
  {| error := Some e; message := None; shouldReauth := None;
     blockExecution := None; reason := None |}.

(** [ensureValidToken(req, res, next)], also exported as
    [strictAuthMiddleware] and [authMiddleware]. *)
Definition ensureValidToken (req : Request) : Outcome :=
  let accessToken := bearer_token (authorization req) in
  let user := x_user_id req in
  match accessToken, user with
  | Some tok, Some uid =>
      if negb (String.eqb tok "") then
        if negb (String.eqb uid "") then
          match usersGetCurrentAccount tok with
          | Ok currentAccount =>
              let currentAccountId := account_id currentAccount in
              if negb (String.eqb currentAccountId uid) then
                reject 403 {| error := Some "Account mismatch detected";
                              message := Some "Token does not belong to the specified user";
                              shouldReauth := Some true;
                              blockExecution := None; reason := None |}
                       [ProbeAccount tok]
              else
                {| response := None;
                   nextCalled := true;
                   req_accessToken := Some tok;
                   req_currentAccountId := Some currentAccountId;
                   calls := [ProbeAccount tok; Next] |}
          | Throw _ => refresh_path uid [ProbeAccount tok]
          end
        else reject 401 (no_field_body "No user ID provided") []
      else reject 401 (no_field_body "No access token provided") []
  | Some tok, None =>
      if negb (String.eqb tok "")
      then reject 401 (no_field_body "No user ID provided") []
      else reject 401 (no_field_body "No access token provided") []
  | None, _ => reject 401 (no_field_body "No access token provided") []
  end.

(** [validateAccountTokenMatchDetailed(accessToken, claimedUserId)] of
    utils/accountValidation. *)
Record ServerValidationResult : Type := mkServerValidationResult {
  isValid : bool;
  accountId : option string;
  accountEmail : option string;
  accountName : option string;
  v_error : option string;
  v_shouldReauth : option bool;
  v_blockExecution : option bool
}.

Definition validateAccountTokenMatchDetailed (accessToken claimedUserId : string)
  : ServerValidationResult * list Call :=
  if String.eqb accessToken "" || String.eqb claimedUserId "" then
    ({| isValid := false; accountId := None; accountEmail := None; accountName := None;
        v_error := Some "Missing token or user ID";
        v_shouldReauth := Some true; v_blockExecution := Some true |}, [])
  else
    match usersGetCurrentAccount accessToken with
    | Ok a =>
        if negb (String.eqb (account_id a) claimedUserId) then
          ({| isValid := false;
              accountId := Some (account_id a);
              accountEmail := Some (email a);
              accountName := Some (display_name a);
              v_error := Some "Account mismatch detected";
              v_shouldReauth := Some true; v_blockExecution := Some true |},
           [ProbeAccount accessToken])
        else
          ({| isValid := true;
              accountId := Some (account_id a);
              accountEmail := Some (email a);
              accountName := Some (display_name a);
              v_error := None;
              v_shouldReauth := None; v_blockExecution := Some false |},
           [ProbeAccount accessToken])
    | Throw e =>
        ({| isValid := false; accountId := None; accountEmail := None; accountName := None;
            v_error := thrown_message e;
            v_shouldReauth := Some true; v_blockExecution := Some true |},
         [ProbeAccount accessToken])
    end.

(** [validateAccountMiddleware(req, res, next)] of utils/accountValidation. *)
Definition validateAccountMiddleware (req : Request) : Outcome :=
  match authorization req with
  | None =>
      reject 401 {| error := Some "No authorization header"; message := None;
                    shouldReauth := Some true; blockExecution := Some true;
                    reason := None |} []
  | Some authHeader =>
      if String.eqb authHeader "" then
        reject 401 {| error := Some "No authorization header"; message := None;
                      shouldReauth := Some true; blockExecution := Some true;
                      reason := None |} []
      else if negb (truthy (x_user_id req)) then
        reject 401 {| error := Some "No user ID header"; message := None;
                      shouldReauth := Some true; blockExecution := Some true;
                      reason := None |} []
      else
        let uid := default "" (x_user_id req) in
        let accessToken := remove_first "Bearer " authHeader in
        let '(validation, cs) := validateAccountTokenMatchDetailed accessToken uid in
        if negb (isValid validation) then
          reject (if default false (v_shouldReauth validation) then 401 else 403)
                 {| error := Some (default "Account validation failed"
                                     (or_else (v_error validation) None));
                    message :=
                      Some (if bool_decide (v_error validation = Some "Account mismatch detected")
                            then "Token belongs to " +:+ default "undefined" (accountEmail validation)
                                 +:+ " but request claims " +:+ uid
                            else "Authentication validation failed");
                    shouldReauth := v_shouldReauth validation;
                    blockExecution := v_blockExecution validation;
                    reason := None |}
                 cs
        else
          {| response := None;
             nextCalled := true;
             req_accessToken := None;
             req_currentAccountId := accountId validation;
             calls := cs ++ [Next] |}
  end.

End Middleware.

(** The number of refresh calls in a log. *)
Definition refreshCalls (cs : list Call) : nat :=
  length (List.filter (fun c => match c with RefreshAccessToken _ => true | _ => false end) cs).

End Server.

(** ** Client: the application store (store/index.ts) and browser storage *)

Module Client.
Import Js.

(** What a rejected promise or a [throw] carries on the client: whether
    it is an [Error], its [message] and the provider's
    [error.error_summary], when present. *)
Record Thrown : Type := mkThrown {
  isError : bool;
  message : option string;
  error_summary : option string
}.

Inductive Result (A : Type) : Type :=
| Ok (a : A)
| Throw (e : Thrown).
Arguments Ok {A} a.
Arguments Throw {A} e.

(** [fetch] cannot reach the host: a [TypeError]. *)
Definition networkError : Thrown :=
  {| isError := true; message := Some "Failed to fetch"; error_summary := None |}.

Record User : Type := mkUser {
  userId : string;
  email : string;
  name : string
}.

Record ImageFile : Type := mkImageFile {
  id : string;
  file_name : string
}.

Inductive Action : Type := processing | selection.

(** [savedIntent] of the store. *)
Record Intent : Type := mkIntent {
  route : option string;
  fileId : option string;
  action : option Action
}.

Record MismatchInfo : Type := mkMismatchInfo {
  currentAccount : option string;
  storedAccount : option string;
  info_error : option string
}.

Inductive Step : Type := StepSelection | StepProcessing | StepResults.

(** The fields of the zustand store that the session code reads or
    writes.  The login progress texts, the upload and processing gauges
    and the processing options play no part in it and are left out. *)
Record Store : Type := mkStore {
  isAuthenticated : bool;
  userInfo : option User;
  accessToken : option string;
  isCheckingAuth : bool;
  status : string;
  recentlyReauthorized : bool;
  lastReauthorizationTime : Z;
  images : list ImageFile;
  selectedImage : option ImageFile;
  selectedImageThumbnail : option string;
  processingResult : option string;
  currentStep : Step;
  directFileId : option string;
  showAccountSwitchBanner : bool;
  showAccountMismatchBanner : bool;
  accountMismatchInfo : MismatchInfo;
  savedIntent : option Intent
}.

Definition initialStore : Store :=
  {| isAuthenticated := false;
     userInfo := None;
     accessToken := None;
     isCheckingAuth := true;
     status := "";
     recentlyReauthorized := false;
     lastReauthorizationTime := 0;
     images := [];
     selectedImage := None;
     selectedImageThumbnail := None;
     processingResult := None;
     currentStep := StepSelection;
     directFileId := None;
     showAccountSwitchBanner := false;
     showAccountMismatchBanner := false;
     accountMismatchInfo := {| currentAccount := None; storedAccount := None; info_error := None |};
     savedIntent := None |}.

Definition setIsAuthenticated (v : bool) (s : Store) : Store :=
  {| isAuthenticated := v; userInfo := userInfo s; accessToken := accessToken s;
     isCheckingAuth := isCheckingAuth s; status := status s; recentlyReauthorized :=
     recentlyReauthorized s; lastReauthorizationTime := lastReauthorizationTime s;
     images := images s; selectedImage := selectedImage s; selectedImageThumbnail :=
     selectedImageThumbnail s; processingResult := processingResult s; currentStep :=
     currentStep s; directFileId := directFileId s; showAccountSwitchBanner :=
     showAccountSwitchBanner s; showAccountMismatchBanner := showAccountMismatchBanner
     s; accountMismatchInfo := accountMismatchInfo s; savedIntent := savedIntent s |}.

Definition setUserInfo (v : option User) (s : Store) : Store :=
  {| isAuthenticated := isAuthenticated s; userInfo := v; accessToken := accessToken
     s; isCheckingAuth := isCheckingAuth s; status := status s; recentlyReauthorized
     := recentlyReauthorized s; lastReauthorizationTime := lastReauthorizationTime s;
     images := images s; selectedImage := selectedImage s; selectedImageThumbnail :=
     selectedImageThumbnail s; processingResult := processingResult s; currentStep :=
     currentStep s; directFileId := directFileId s; showAccountSwitchBanner :=
     showAccountSwitchBanner s; showAccountMismatchBanner := showAccountMismatchBanner
     s; accountMismatchInfo := accountMismatchInfo s; savedIntent := savedIntent s |}.

Definition setAccessToken (v : option string) (s : Store) : Store :=
  {| isAuthenticated := isAuthenticated s; userInfo := userInfo s; accessToken := v;
     isCheckingAuth := isCheckingAuth s; status := status s; recentlyReauthorized :=
     recentlyReauthorized s; lastReauthorizationTime := lastReauthorizationTime s;
     images := images s; selectedImage := selectedImage s; selectedImageThumbnail :=
     selectedImageThumbnail s; processingResult := processingResult s; currentStep :=
     currentStep s; directFileId := directFileId s; showAccountSwitchBanner :=
     showAccountSwitchBanner s; showAccountMismatchBanner := showAccountMismatchBanner
     s; accountMismatchInfo := accountMismatchInfo s; savedIntent := savedIntent s |}.

Definition setIsCheckingAuth (v : bool) (s : Store) : Store :=
  {| isAuthenticated := isAuthenticated s; userInfo := userInfo s; accessToken :=
     accessToken s; isCheckingAuth := v; status := status s; recentlyReauthorized :=
     recentlyReauthorized s; lastReauthorizationTime := lastReauthorizationTime s;
     images := images s; selectedImage := selectedImage s; selectedImageThumbnail :=
     selectedImageThumbnail s; processingResult := processingResult s; currentStep :=
     currentStep s; directFileId := directFileId s; showAccountSwitchBanner :=
     showAccountSwitchBanner s; showAccountMismatchBanner := showAccountMismatchBanner
     s; accountMismatchInfo := accountMismatchInfo s; savedIntent := savedIntent s |}.

Definition setStatus (v : string) (s : Store) : Store :=
  {| isAuthenticated := isAuthenticated s; userInfo := userInfo s; accessToken :=
     accessToken s; isCheckingAuth := isCheckingAuth s; status := v;
     recentlyReauthorized := recentlyReauthorized s; lastReauthorizationTime :=
     lastReauthorizationTime s; images := images s; selectedImage := selectedImage s;
     selectedImageThumbnail := selectedImageThumbnail s; processingResult :=
     processingResult s; currentStep := currentStep s; directFileId := directFileId s;
     showAccountSwitchBanner := showAccountSwitchBanner s; showAccountMismatchBanner
     := showAccountMismatchBanner s; accountMismatchInfo := accountMismatchInfo s;
     savedIntent := savedIntent s |}.

Definition setRecentlyReauthorized (v : bool) (s : Store) : Store :=
  {| isAuthenticated := isAuthenticated s; userInfo := userInfo s; accessToken :=
     accessToken s; isCheckingAuth := isCheckingAuth s; status := status s;
     recentlyReauthorized := v; lastReauthorizationTime := lastReauthorizationTime s;
     images := images s; selectedImage := selectedImage s; selectedImageThumbnail :=
     selectedImageThumbnail s; processingResult := processingResult s; currentStep :=
     currentStep s; directFileId := directFileId s; showAccountSwitchBanner :=
     showAccountSwitchBanner s; showAccountMismatchBanner := showAccountMismatchBanner
     s; accountMismatchInfo := accountMismatchInfo s; savedIntent := savedIntent s |}.

Definition setLastReauthorizationTime (v : Z) (s : Store) : Store :=
  {| isAuthenticated := isAuthenticated s; userInfo := userInfo s; accessToken :=
     accessToken s; isCheckingAuth := isCheckingAuth s; status := status s;
     recentlyReauthorized := recentlyReauthorized s; lastReauthorizationTime := v;
     images := images s; selectedImage := selectedImage s; selectedImageThumbnail :=
     selectedImageThumbnail s; processingResult := processingResult s; currentStep :=
     currentStep s; directFileId := directFileId s; showAccountSwitchBanner :=
     showAccountSwitchBanner s; showAccountMismatchBanner := showAccountMismatchBanner
     s; accountMismatchInfo := accountMismatchInfo s; savedIntent := savedIntent s |}.

Definition setImages (v : list ImageFile) (s : Store) : Store :=
  {| isAuthenticated := isAuthenticated s; userInfo := userInfo s; accessToken :=
     accessToken s; isCheckingAuth := isCheckingAuth s; status := status s;
     recentlyReauthorized := recentlyReauthorized s; lastReauthorizationTime :=
     lastReauthorizationTime s; images := v; selectedImage := selectedImage s;
     selectedImageThumbnail := selectedImageThumbnail s; processingResult :=
     processingResult s; currentStep := currentStep s; directFileId := directFileId s;
     showAccountSwitchBanner := showAccountSwitchBanner s; showAccountMismatchBanner
     := showAccountMismatchBanner s; accountMismatchInfo := accountMismatchInfo s;
     savedIntent := savedIntent s |}.

Definition setSelectedImage (v : option ImageFile) (s : Store) : Store :=
  {| isAuthenticated := isAuthenticated s; userInfo := userInfo s; accessToken :=
     accessToken s; isCheckingAuth := isCheckingAuth s; status := status s;
     recentlyReauthorized := recentlyReauthorized s; lastReauthorizationTime :=
     lastReauthorizationTime s; images := images s; selectedImage := v;
     selectedImageThumbnail := selectedImageThumbnail s; processingResult :=
     processingResult s; currentStep := currentStep s; directFileId := directFileId s;
     showAccountSwitchBanner := showAccountSwitchBanner s; showAccountMismatchBanner
     := showAccountMismatchBanner s; accountMismatchInfo := accountMismatchInfo s;
     savedIntent := savedIntent s |}.

Definition setSelectedImageThumbnail (v : option string) (s : Store) : Store :=
  {| isAuthenticated := isAuthenticated s; userInfo := userInfo s; accessToken :=
     accessToken s; isCheckingAuth := isCheckingAuth s; status := status s;
     recentlyReauthorized := recentlyReauthorized s; lastReauthorizationTime :=
     lastReauthorizationTime s; images := images s; selectedImage := selectedImage s;
     selectedImageThumbnail := v; processingResult := processingResult s; currentStep
     := currentStep s; directFileId := directFileId s; showAccountSwitchBanner :=
     showAccountSwitchBanner s; showAccountMismatchBanner := showAccountMismatchBanner
     s; accountMismatchInfo := accountMismatchInfo s; savedIntent := savedIntent s |}.

Definition setProcessingResult (v : option string) (s : Store) : Store :=
  {| isAuthenticated := isAuthenticated s; userInfo := userInfo s; accessToken :=
     accessToken s; isCheckingAuth := isCheckingAuth s; status := status s;
     recentlyReauthorized := recentlyReauthorized s; lastReauthorizationTime :=
     lastReauthorizationTime s; images := images s; selectedImage := selectedImage s;
     selectedImageThumbnail := selectedImageThumbnail s; processingResult := v;
     currentStep := currentStep s; directFileId := directFileId s;
     showAccountSwitchBanner := showAccountSwitchBanner s; showAccountMismatchBanner
     := showAccountMismatchBanner s; accountMismatchInfo := accountMismatchInfo s;
     savedIntent := savedIntent s |}.

Definition setCurrentStep (v : Step) (s : Store) : Store :=
  {| isAuthenticated := isAuthenticated s; userInfo := userInfo s; accessToken :=
     accessToken s; isCheckingAuth := isCheckingAuth s; status := status s;
     recentlyReauthorized := recentlyReauthorized s; lastReauthorizationTime :=
     lastReauthorizationTime s; images := images s; selectedImage := selectedImage s;
     selectedImageThumbnail := selectedImageThumbnail s; processingResult :=
     processingResult s; currentStep := v; directFileId := directFileId s;
     showAccountSwitchBanner := showAccountSwitchBanner s; showAccountMismatchBanner
     := showAccountMismatchBanner s; accountMismatchInfo := accountMismatchInfo s;
     savedIntent := savedIntent s |}.

Definition setDirectFileId (v : option string) (s : Store) : Store :=
  {| isAuthenticated := isAuthenticated s; userInfo := userInfo s; accessToken :=
     accessToken s; isCheckingAuth := isCheckingAuth s; status := status s;
     recentlyReauthorized := recentlyReauthorized s; lastReauthorizationTime :=
     lastReauthorizationTime s; images := images s; selectedImage := selectedImage s;
     selectedImageThumbnail := selectedImageThumbnail s; processingResult :=
     processingResult s; currentStep := currentStep s; directFileId := v;
     showAccountSwitchBanner := showAccountSwitchBanner s; showAccountMismatchBanner
     := showAccountMismatchBanner s; accountMismatchInfo := accountMismatchInfo s;
     savedIntent := savedIntent s |}.

Definition setShowAccountSwitchBanner (v : bool) (s : Store) : Store :=
  {| isAuthenticated := isAuthenticated s; userInfo := userInfo s; accessToken :=
     accessToken s; isCheckingAuth := isCheckingAuth s; status := status s;
     recentlyReauthorized := recentlyReauthorized s; lastReauthorizationTime :=
     lastReauthorizationTime s; images := images s; selectedImage := selectedImage s;
     selectedImageThumbnail := selectedImageThumbnail s; processingResult :=
     processingResult s; currentStep := currentStep s; directFileId := directFileId s;
     showAccountSwitchBanner := v; showAccountMismatchBanner :=
     showAccountMismatchBanner s; accountMismatchInfo := accountMismatchInfo s;
     savedIntent := savedIntent s |}.

Definition setShowAccountMismatchBanner (v : bool) (s : Store) : Store :=
  {| isAuthenticated := isAuthenticated s; userInfo := userInfo s; accessToken :=
     accessToken s; isCheckingAuth := isCheckingAuth s; status := status s;
     recentlyReauthorized := recentlyReauthorized s; lastReauthorizationTime :=
     lastReauthorizationTime s; images := images s; selectedImage := selectedImage s;
     selectedImageThumbnail := selectedImageThumbnail s; processingResult :=
     processingResult s; currentStep := currentStep s; directFileId := directFileId s;
     showAccountSwitchBanner := showAccountSwitchBanner s; showAccountMismatchBanner
     := v; accountMismatchInfo := accountMismatchInfo s; savedIntent := savedIntent s |}.

Definition setAccountMismatchInfo (v : MismatchInfo) (s : Store) : Store :=
  {| isAuthenticated := isAuthenticated s; userInfo := userInfo s; accessToken :=
     accessToken s; isCheckingAuth := isCheckingAuth s; status := status s;
     recentlyReauthorized := recentlyReauthorized s; lastReauthorizationTime :=
     lastReauthorizationTime s; images := images s; selectedImage := selectedImage s;
     selectedImageThumbnail := selectedImageThumbnail s; processingResult :=
     processingResult s; currentStep := currentStep s; directFileId := directFileId s;
     showAccountSwitchBanner := showAccountSwitchBanner s; showAccountMismatchBanner
     := showAccountMismatchBanner s; accountMismatchInfo := v; savedIntent :=
     savedIntent s |}.

Definition setSavedIntent (v : option Intent) (s : Store) : Store :=
  {| isAuthenticated := isAuthenticated s; userInfo := userInfo s; accessToken :=
     accessToken s; isCheckingAuth := isCheckingAuth s; status := status s;
     recentlyReauthorized := recentlyReauthorized s; lastReauthorizationTime :=
     lastReauthorizationTime s; images := images s; selectedImage := selectedImage s;
     selectedImageThumbnail := selectedImageThumbnail s; processingResult :=
     processingResult s; currentStep := currentStep s; directFileId := directFileId s;
     showAccountSwitchBanner := showAccountSwitchBanner s; showAccountMismatchBanner
     := showAccountMismatchBanner s; accountMismatchInfo := accountMismatchInfo s;
     savedIntent := v |}.

(** [localStorage.removeItem] for several keys. *)
Definition removeItems (keys : list string) (ls : gmap string string) : gmap string string :=
  fold_right (fun k m => delete k m) ls keys.

Definition auth_keys : list string :=
  ["access_token"; "refresh_token"; "user_id"; "user_info";
   "token_expires_at"; "code_verifier"; "post_login_redirect"].

(** [clearAuth()] *)
Definition clearAuth (s : Store) (ls : gmap string string) : Store * gmap string string :=
  (setIsCheckingAuth false (setUserInfo None (setIsAuthenticated false (setAccessToken None s))),
   removeItems auth_keys ls).

(** [clearAllUserData()]; [savedIntent] is not touched. *)
Definition clearAllUserData (s : Store) (ls : gmap string string) : Store * gmap string string :=
  ({| isAuthenticated := false;
      userInfo := None;
      accessToken := None;
      isCheckingAuth := isCheckingAuth s;
      status := status s;
      recentlyReauthorized := false;
      lastReauthorizationTime := 0;
      images := [];
      selectedImage := None;
      selectedImageThumbnail := None;
      processingResult := None;
      currentStep := StepSelection;
      directFileId := directFileId s;
      showAccountSwitchBanner := false;
      showAccountMismatchBanner := showAccountMismatchBanner s;
      accountMismatchInfo := accountMismatchInfo s;
      savedIntent := savedIntent s |},
   removeItems (auth_keys ++ ["recentlyReauthorized"; "lastReauthorizationTime"]) ls).

(** The application between two events: the store, the two browser
    storages and the current route. *)
Record App : Type := mkApp {
  store : Store;
  localStorage : gmap string string;
  sessionStorage : gmap string string;
  pathname : string
}.

(** A full page load ([window.location.href = ...] or the return from the
    provider).  The store is wrapped by the devtools middleware only and
    is not persisted: it is created anew, while the browser storages
    stay. *)
Definition pageLoad (target : string) (a : App) : App :=
  {| store := initialStore;
     localStorage := localStorage a;
     sessionStorage := sessionStorage a;
     pathname := target |}.

(** The fields of [usersGetCurrentAccount().result] the client reads. *)
Record Account : Type := mkAccount {
  account_id : string;
  account_email : string;
  display_name : string
}.

(** The [detail] of an [accountMismatch] event. *)
Record MismatchDetail : Type := mkMismatchDetail {
  accountEmail : option string;
  accountId : option string;
  accountName : option string;
  storedEmail : option string;
  storedId : option string;
  detail_error : option string;
  source : string;
  confirmed : bool
}.

Record SwitchDetail : Type := mkSwitchDetail {
  switch_source : string;
  errorCount : option Z;
  switch_error : option string
}.

(** The events dispatched on [window]. *)
Inductive WindowEvent : Type :=
| accountMismatch (detail : MismatchDetail)
| accountSwitchDetected (detail : SwitchDetail).

End Client.

(** ** authApi (client/src/api/authApi.ts) *)

Module AuthApi.
Import Js Client.

(** [storeTokenWithExpiration(accessToken, expiresIn = 14400)] at time [now]. *)
Definition storeTokenWithExpiration (now : Z) (accessToken : string) (expiresIn : option Z)
    (ls : gmap string string) : gmap string string :=
  let expiresIn := default 14400 expiresIn in
  let expirationTime := now + ((expiresIn - 300) * 1000) in
  <["token_expires_at" := toString expirationTime]> (<["access_token" := accessToken]> ls).

(** [isTokenExpiredOrExpiring()] at time [now]; a comparison with [NaN]
    is false. *)
Definition isTokenExpiredOrExpiring (now : Z) (ls : gmap string string) : bool :=
  let tokenExpiresAt := ls !! "token_expires_at" in
  if negb (truthy tokenExpiresAt) then false
  else
    match parseInt10 (default "" tokenExpiresAt) with
    | Some expirationTime =>
        let fiveMinutesFromNow := now + (5 * 60 * 1000) in
        expirationTime <=? fiveMinutesFromNow
    | None => false
    end.

(** What [fetch('/api/auth/refresh-token')] and [response.json()] yield. *)
Inductive RefreshFetch : Type :=
| FetchThrows (message : string)
| HttpError (status : Z) (statusText : string)
| JsonFailure (message : option string)
| JsonSuccess (accessToken : string) (refreshToken : option string) (expiresIn : option Z).

Record Tokens : Type := mkTokens {
  tok_accessToken : string;
  tok_refreshToken : option string
}.

(** [refreshToken()]: the tokens or [null], the storage afterwards, and
    whether the request was sent, which it is only when a refresh token
    and a user id are stored.  Every failure ends in [null]. *)
Definition refreshToken (now : Z) (server : RefreshFetch) (ls : gmap string string)
  : option Tokens * gmap string string * bool :=
  if negb (truthy (ls !! "refresh_token")) || negb (truthy (ls !! "user_id")) then
    (None, ls, false)
  else
    match server with
    | FetchThrows _ => (None, ls, true)
    | HttpError _ _ => (None, ls, true)
    | JsonFailure _ => (None, ls, true)
    | JsonSuccess newAccessToken newRefreshToken expiresIn =>
        let expiresIn :=
          match expiresIn with
          | Some e => if e =? 0 then 14400 else e
          | None => 14400
          end in
        let expirationTime := now + ((expiresIn - 300) * 1000) in
        let ls1 := <["token_expires_at" := toString expirationTime]>
                     (<["access_token" := newAccessToken]> ls) in
        let ls2 := if truthy newRefreshToken
                   then <["refresh_token" := default "" newRefreshToken]> ls1
                   else ls1 in
        (Some {| tok_accessToken := newAccessToken; tok_refreshToken := newRefreshToken |},
         ls2, true)
    end.

End AuthApi.

(** ** useAccountValidation (client/src/hooks/useAccountValidation) *)

Module AccountValidationHook.
Import Js Client.

Record StoredAccount : Type := mkStoredAccount {
  sa_userId : string;
  sa_email : string;
  sa_name : string
}.

Record AccountValidationResult : Type := mkAccountValidationResult {
  isValid : bool;
  currentAccount : option Account;
  storedAccount : option StoredAccount;
  error : option string
}.

Inductive OperationType : Type := STARTUP | ERROR_409 | USER_OPERATION.

(** The network calls a validation performs. *)
Inductive Probe : Type :=
| usersGetCurrentAccountCall (accessToken : string).

Section Hook.

Variable usersGetCurrentAccount : string -> Result Account.

(** [validateCurrentAccount()] of the hook, on the token and user of the store. *)
Definition validateCurrentAccount (s : Store) : AccountValidationResult * list Probe :=
  match accessToken s, userInfo s with
  | Some tok, Some user =>
      if String.eqb tok "" then
        ({| isValid := false; currentAccount := None; storedAccount := None;
            error := Some "No authentication credentials" |}, [])
      else
        match usersGetCurrentAccount tok with
        | Ok currentAcc =>
            if negb (String.eqb (account_id currentAcc) (userId user)) then
              ({| isValid := false;
                  currentAccount := Some currentAcc;
                  storedAccount := Some {| sa_userId := userId user;
                                           sa_email := email user;
                                           sa_name := name user |};
                  error := Some "Account ID mismatch detected" |},
               [usersGetCurrentAccountCall tok])
            else
              ({| isValid := true; currentAccount := None; storedAccount := None;
                  error := None |},
               [usersGetCurrentAccountCall tok])
        | Throw e =>
            ({| isValid := false; currentAccount := None; storedAccount := None;
                error := Some (default "Unknown validation error" (or_else (message e) None)) |},
             [usersGetCurrentAccountCall tok])
        end
  | _, _ =>
      ({| isValid := false; currentAccount := None; storedAccount := None;
          error := Some "No authentication credentials" |}, [])
  end.

(** [showAccountMismatch(result)] *)
Definition showAccountMismatch (result : AccountValidationResult) (s : Store) : Store :=
  let current :=
    match currentAccount result with
    | Some a => or_else (Some (account_email a)) (Some (account_id a))
    | None => None
    end in
  let stored :=
    match storedAccount result with
    | Some a => or_else (Some (sa_email a)) (Some (sa_userId a))
    | None => None
    end in
  setShowAccountMismatchBanner true
    (setAccountMismatchInfo
       {| Client.currentAccount := Some (default "Unknown" (or_else current None));
          Client.storedAccount := Some (default "Unknown" (or_else stored None));
          info_error := Some (default "Account mismatch detected" (or_else (error result) None)) |}
       s).

Definition GRACE_PERIOD : Z := 5 * 60 * 1000.

(** [validateBeforeOperation(operationType)] at time [now]: the verdict,
    the store afterwards and the network calls made. *)
Definition validateBeforeOperation (operationType : OperationType) (now : Z) (s : Store)
  : bool * Store * list Probe :=
  let run (s1 : Store) :=
    let '(validation, probes) := validateCurrentAccount s1 in
    if negb (isValid validation)
    then (false, showAccountMismatch validation s1, probes)
    else (true, s1, probes) in
  match operationType with
  | USER_OPERATION =>
      if recentlyReauthorized s && negb (lastReauthorizationTime s =? 0) then
        let timeSinceReauth := now - lastReauthorizationTime s in
        if timeSinceReauth <? GRACE_PERIOD
        then (true, s, [])
        else run (setRecentlyReauthorized false s)
      else run s
  | _ => run s
  end.

End Hook.

End AccountValidationHook.

(** ** Client validators (client/src/utils/accountValidation) *)

Module AccountValidation.
Import Js Client.

Record ValidationResult : Type := mkValidationResult {
  isValid : bool;
  reason : option string;
  error : option string;
  shouldShowBanner : option bool;
  shouldReauth : option bool;
  sessionMismatch : option bool;
  accountId : option string;
  accountEmail : option string;
  accountName : option string
}.

(** The provider calls a validator performs. *)
Inductive ApiCall : Type :=
| usersGetCurrentAccountCall (accessToken : string)
| filesListFolderCall (accessToken : string)
| usersGetSpaceUsageCall (accessToken : string).

Section Validators.

Variable usersGetCurrentAccount : string -> Result Account.
Variable filesListFolder : string -> Result unit.
Variable usersGetSpaceUsage : string -> Result unit.

(** [validateCurrentAccount()] on the stored credentials. *)
Definition validateCurrentAccount (ls : gmap string string) : ValidationResult * list ApiCall :=
  let accessToken := ls !! "access_token" in
  let storedUserId := ls !! "user_id" in
  if negb (truthy accessToken) || negb (truthy storedUserId) then
    ({| isValid := false;
        reason := Some "Missing stored credentials";
        error := Some "Missing stored credentials";
        shouldShowBanner := None; shouldReauth := None; sessionMismatch := None;
        accountId := None; accountEmail := None; accountName := None |}, [])
  else
    let tok := default "" accessToken in
    let uid := default "" storedUserId in
    match usersGetCurrentAccount tok with
    | Ok a =>
        if negb (String.eqb (account_id a) uid) then
          ({| isValid := false;
              reason := Some "Account mismatch detected";
              error := Some "Account mismatch detected";
              shouldShowBanner := Some true;
              shouldReauth := Some true;
              sessionMismatch := Some true;
              accountId := Some (account_id a);
              accountEmail := Some (account_email a);
              accountName := Some (display_name a) |},
           [usersGetCurrentAccountCall tok])
        else
          ({| isValid := true;
              reason := None; error := None;
              shouldShowBanner := None; shouldReauth := None; sessionMismatch := None;
              accountId := Some (account_id a);
              accountEmail := Some (account_email a);
              accountName := Some (display_name a) |},
           [usersGetCurrentAccountCall tok])
    | Throw e =>
        ({| isValid := false;
            reason := Some "Token validation failed";
            error := message e;
            shouldShowBanner := None;
            shouldReauth := Some true;
            sessionMismatch := None;
            accountId := None; accountEmail := None; accountName := None |},
         [usersGetCurrentAccountCall tok])
    end.

Definition functional_failure (reason_ error_ : string) (basic : ValidationResult)
  : ValidationResult :=
  {| isValid := false;
     reason := Some reason_;
     error := Some error_;
     shouldShowBanner := Some true;
     shouldReauth := None;
     sessionMismatch := Some true;
     accountId := accountId basic;
     accountEmail := accountEmail basic;
     accountName := accountName basic |}.

(** [validateSessionConsistency()]: the identity check, then a folder
    listing, then the space usage. *)
Definition validateSessionConsistency (ls : gmap string string) : ValidationResult * list ApiCall :=
  let accessToken := ls !! "access_token" in
  let storedUserId := ls !! "user_id" in
  if negb (truthy accessToken) || negb (truthy storedUserId) then
    ({| isValid := false;
        reason := Some "Missing credentials";
        error := Some "Missing credentials";
        shouldShowBanner := None; shouldReauth := None; sessionMismatch := None;
        accountId := None; accountEmail := None; accountName := None |}, [])
  else
    let tok := default "" accessToken in
    let '(basicValidation, cs0) := validateCurrentAccount ls in
    if negb (isValid basicValidation) then (basicValidation, cs0)
    else
      let cs1 := cs0 ++ [filesListFolderCall tok] in
      match filesListFolder tok with
      | Throw listError =>
          if isError listError && includes "401" (default "" (message listError)) then
            (functional_failure "Session mismatch detected via API test"
               "API access failed - session mismatch" basicValidation, cs1)
          else
            (functional_failure "API access failed"
               "API calls failing - possible session mismatch" basicValidation, cs1)
      | Ok _ =>
          let cs2 := cs1 ++ [usersGetSpaceUsageCall tok] in
          match usersGetSpaceUsage tok with
          | Throw _ =>
              (functional_failure "Session mismatch detected via space usage test"
                 "Space usage API failed - session mismatch" basicValidation, cs2)
          | Ok _ =>
              ({| isValid := true;
                  reason := None; error := None;
                  shouldShowBanner := None; shouldReauth := None; sessionMismatch := None;
                  accountId := accountId basicValidation;
                  accountEmail := accountEmail basicValidation;
                  accountName := accountName basicValidation |}, cs2)
          end
      end.

End Validators.

End AccountValidation.

(** ** Immediate validation (client/src/utils/immediateValidation.ts) *)

Module ImmediateValidation.
Import Js Client.

Section Immediate.

Variable usersGetCurrentAccount : string -> Result Account.
(** [JSON.parse] of the stored user info; [None] when it throws. *)
Variable parseUserInfo : string -> option User.

Definition GRACE_PERIOD : Z := 5 * 60 * 1000.

(** The outcome of the grace-period test at the head of the function:
    [Some ls'] when validation goes on (with the flags possibly removed),
    [None] when the call returns [true] at once. *)
Definition graceCheck (now : Z) (ls : gmap string string) : option (gmap string string) :=
  let lastReauthTime := ls !! "lastReauthorizationTime" in
  let recently := ls !! "recentlyReauthorized" in
  if bool_decide (recently = Some "true") && truthy lastReauthTime then
    let within :=
      match parseInt (default "" lastReauthTime) with
      | Some t => now - t <? GRACE_PERIOD
      | None => false
      end in
    if within then None
    else Some (delete "lastReauthorizationTime" (delete "recentlyReauthorized" ls))
  else Some ls.

Definition storedEmailOf (storedUserInfo : option string) : string :=
  if truthy storedUserInfo then
    match parseUserInfo (default "" storedUserInfo) with
    | Some u => if String.eqb (email u) "" then "unknown" else email u
    | None => "unknown"
    end
  else "unknown".

(** [triggerImmediateAccountValidation(ignoreGracePeriod)] at time
    [now]: the returned value ([None] is [undefined]), the storage
    afterwards, the events dispatched and whether the provider was
    asked. *)
Definition triggerImmediateAccountValidation (ignoreGracePeriod : bool) (now : Z)
    (ls : gmap string string)
  : option bool * gmap string string * list WindowEvent * list string :=
  match (if ignoreGracePeriod then Some ls else graceCheck now ls) with
  | None => (Some true, ls, [], [])
  | Some ls1 =>
      let accessToken := ls1 !! "access_token" in
      let storedUserId := ls1 !! "user_id" in
      let storedUserInfo := ls1 !! "user_info" in
      if negb (truthy accessToken) || negb (truthy storedUserId) then
        (None, ls1,
         [accountMismatch
            {| accountEmail := Some "Missing credentials";
               accountId := Some "unknown";
               accountName := None; storedEmail := None; storedId := None;
               detail_error := Some "Missing authentication credentials";
               source := "immediate-validation";
               confirmed := false |}], [])
      else
        let tok := default "" accessToken in
        let uid := default "" storedUserId in
        match usersGetCurrentAccount tok with
        | Ok a =>
            let storedEmail_ := storedEmailOf storedUserInfo in
            if negb (String.eqb (account_id a) uid) then
              (Some false, ls1,
               [accountMismatch
                  {| accountEmail := Some (account_email a);
                     accountId := Some (account_id a);
                     accountName := Some (display_name a);
                     storedEmail := Some storedEmail_;
                     storedId := Some uid;
                     detail_error := Some "Account mismatch detected during immediate validation";
                     source := "immediate-validation";
                     confirmed := true |}], [tok])
            else (Some true, ls1, [], [tok])
        | Throw e =>
            (Some false, ls1,
             [accountMismatch
                {| accountEmail := Some "Validation failed";
                   accountId := Some "unknown";
                   accountName := None; storedEmail := None; storedId := None;
                   detail_error :=
                     Some (default "Immediate validation failed" (or_else (message e) None));
                   source := "immediate-validation-error";
                   confirmed := false |}], [tok])
        end
  end.

End Immediate.

End ImmediateValidation.

(** ** Comprehensive check (client/src/utils/comprehensiveAccountCheck.ts) *)

Module ComprehensiveCheck.
Import Js Client.

Record StoredAccount : Type := mkStoredAccount {
  stored_id : string;
  stored_email : string
}.

Record CheckResult : Type := mkCheckResult {
  isValid : bool;
  issues : list string;
  currentAccount : option Account;
  storedAccount : option StoredAccount
}.

Section Comprehensive.

Variable usersGetCurrentAccount : string -> Result Account.
Variable parseUserInfo : string -> option User.

(** [performComprehensiveAccountCheck()]: the result and the tokens the
    provider was asked about. *)
Definition performComprehensiveAccountCheck (ls : gmap string string)
  : CheckResult * list string :=
  let accessToken := ls !! "access_token" in
  let storedUserId := ls !! "user_id" in
  let storedUserInfo := ls !! "user_info" in
  let issues0 :=
    (if negb (truthy accessToken) then ["Missing access token"] else []) ++
    (if negb (truthy storedUserId) then ["Missing stored user ID"] else []) ++
    (if negb (truthy storedUserInfo) then ["Missing stored user info"] else []) in
  match issues0 with
  | _ :: _ =>
      ({| isValid := false; issues := issues0;
          currentAccount := None; storedAccount := None |}, [])
  | [] =>
      let tok := default "" accessToken in
      let uid := default "" storedUserId in
      let '(storedUserEmail, issues1) :=
        match parseUserInfo (default "" storedUserInfo) with
        | Some u => (if String.eqb (email u) "" then "unknown" else email u, [])
        | None => ("unknown", ["Could not parse stored user info"])
        end in
      match usersGetCurrentAccount tok with
      | Throw e =>
          let why := default "undefined" (or_else (error_summary e) (message e)) in
          ({| isValid := false;
              issues := issues1 ++ ["Account info fetch failed: " +:+ why];
              currentAccount := None; storedAccount := None |}, [tok])
      | Ok a =>
          if negb (String.eqb (account_id a) uid) then
            ({| isValid := false;
                issues := issues1 ++ ["Account ID mismatch detected"];
                currentAccount := Some a;
                storedAccount := Some {| stored_id := uid; stored_email := storedUserEmail |} |},
             [tok])
          else
            ({| isValid := true;
                issues := [];
                currentAccount := Some a;
                storedAccount := Some {| stored_id := uid; stored_email := storedUserEmail |} |},
             [tok])
      end
  end.

Definition orUnknown (o : option string) : option string :=
  Some (default "Unknown" (or_else o None)).

(** [triggerComprehensiveAccountCheck()] *)
Definition triggerComprehensiveAccountCheck (ls : gmap string string)
  : bool * list WindowEvent * list string :=
  let '(result, asked) := performComprehensiveAccountCheck ls in
  if negb (isValid result) then
    (false,
     [accountMismatch
        {| accountEmail := orUnknown (account_email <$> currentAccount result);
           accountId := orUnknown (account_id <$> currentAccount result);
           accountName := orUnknown (display_name <$> currentAccount result);
           storedEmail := orUnknown (stored_email <$> storedAccount result);
           storedId := orUnknown (stored_id <$> storedAccount result);
           detail_error := Some (String.concat "; " (issues result));
           source := "comprehensive-check";
           confirmed := true |}],
     asked)
  else (true, [], asked).

End Comprehensive.

End ComprehensiveCheck.

(** ** Fetch interception (client/src/utils/accountSwitchDetection.ts) *)

Module AccountSwitchDetection.
Import Js Client.

(** What [response.clone().json()] gives: it throws, or the parsed data
    with its [error.error_summary] when it has one. *)
Inductive JsonBody : Type :=
| Unparsable
| Parsed (error_summary : option string).

Record FetchResponse : Type := mkFetchResponse {
  status : Z;
  json : JsonBody
}.

(** [response.ok] *)
Definition ok (r : FetchResponse) : bool := (200 <=? status r) && (status r <=? 299).

Definition crossAccount (r : FetchResponse) : bool :=
  match json r with
  | Parsed (Some summary) => includes "path/not_found" summary
  | _ => false
  end.

(** The [then] handler of the overridden [window.fetch], on the module
    variable [consecutiveErrors]: the counter afterwards and the events
    dispatched. *)
Definition onResponse (consecutiveErrors : Z) (r : FetchResponse) : Z * list WindowEvent :=
  if status r =? 409 then
    if crossAccount r then
      let n := consecutiveErrors + 1 in
      if 2 <=? n then
        (0, [accountSwitchDetected
               {| switch_source := "fetch-interceptor";
                  errorCount := Some n;
                  switch_error := Some "Multiple cross-account 409 errors detected" |}])
      else (n, [])
    else (consecutiveErrors, [])
  else if ok r then (0, [])
  else (consecutiveErrors, []).

(** A run of responses, in the order they arrive. *)
Fixpoint onResponses (consecutiveErrors : Z) (rs : list FetchResponse) : Z * list WindowEvent :=
  match rs with
  | [] => (consecutiveErrors, [])
  | r :: rest =>
      let '(c1, ev1) := onResponse consecutiveErrors r in
      let '(c2, ev2) := onResponses c1 rest in
      (c2, ev1 ++ ev2)
  end.

(** A 4xx response that does not carry the resource-not-found signature
    of a cross-account access. *)
Definition ambiguous4xx (r : FetchResponse) : bool :=
  (400 <=? status r) && (status r <=? 499) &&
  negb ((status r =? 409) && crossAccount r).

End AccountSwitchDetection.

(** ** useAuth (client/src/hooks/useAuth.ts): session restore, login and
    the OAuth callback *)

Module UseAuth.
Import Js Client.

(** One pass of the retry loop races [authApi.refreshToken()] against a
    10 s timer: the call resolves first, or the timer rejects. *)
Inductive Attempt : Type :=
| Resolved (server : AuthApi.RefreshFetch)
| TimedOut.

(** The authenticated [fetch('/api/auth/status')] under its 5 s abort. *)
Inductive Health : Type := HealthOk | HealthNotOk | HealthThrows.

(** What the restore does, in order. *)
Inductive InitStep : Type :=
| RefreshAttempt (n : nat)
| Wait (ms : Z)
| HealthCheck
| ValidateToken
| ReachabilityCheck
| ClearAuth.

(** How the retry loop is left: with tokens, without, by the early
    [return] that keeps the credentials, or by a [JSON.parse] that throws
    on the way to that [return]. *)
Inductive LoopExit : Type :=
| Refreshed (t : AuthApi.Tokens)
| Exhausted
| KeepCredentials
| ParseThrew.

Definition maxAttempts : nat := 3.

Section Restore.

Variable attempt : nat -> Attempt.
Variable clock : nat -> Z.
Variable health : Health.
Variable validateToken : string -> bool.
Variable serverReachable : bool.
(** [JSON.parse] of the stored user info, whose result is handed to
    [setUserInfo] as it is: [None] when it throws, [Some None] when it
    gives [null] (or another falsy value), [Some (Some u)] for a value
    whose fields are read as those of a user, empty for absent ones. *)
Variable parseUserInfo : string -> option (option User).

(** The [while (refreshAttempts < maxAttempts && !refreshResult)] loop;
    [remaining] is [maxAttempts - refreshAttempts]. *)
Fixpoint refreshLoop (remaining refreshAttempts : nat) (storedUserInfo : option string)
    (ls : gmap string string) (trace : list InitStep)
  : LoopExit * gmap string string * list InitStep :=
  match remaining with
  | O => (Exhausted, ls, trace)
  | S k =>
      let n := S refreshAttempts in
      match attempt n with
      | Resolved server =>
          let '(result, ls1, _) := AuthApi.refreshToken (clock n) server ls in
          match result with
          | Some t => (Refreshed t, ls1, trace ++ [RefreshAttempt n])
          | None => refreshLoop k n storedUserInfo ls1 (trace ++ [RefreshAttempt n])
          end
      | TimedOut =>
          if Nat.eqb n maxAttempts then
            let trace1 := trace ++ [RefreshAttempt n; HealthCheck] in
            match health with
            | HealthOk => (Exhausted, ls, trace1)
            | HealthNotOk => refreshLoop k n storedUserInfo ls trace1
            | HealthThrows =>
                if truthy storedUserInfo then
                  match parseUserInfo (default "" storedUserInfo) with
                  | Some _ => (KeepCredentials, ls, trace1)
                  | None => (ParseThrew, ls, trace1)
                  end
                else refreshLoop k n storedUserInfo ls trace1
            end
          else
            refreshLoop k n storedUserInfo ls
              (trace ++ [RefreshAttempt n; Wait (1000 * Z.of_nat n)])
      end
  end.

Definition restored (tok : string) (u : option User) (msg : string) (s : Store) : Store :=
  setStatus msg (setIsAuthenticated true (setUserInfo u (setAccessToken (Some tok) s))).

Definition limited (u : option User) (msg : string) (s : Store) : Store :=
  setStatus msg (setIsAuthenticated false (setUserInfo u s)).

(** [initializeFromStorage()] at time [now]. *)
Definition initializeFromStorage (now : Z) (s : Store) (ls : gmap string string)
  : Store * gmap string string * list InitStep :=
  let storedToken := ls !! "access_token" in
  let storedUserId := ls !! "user_id" in
  let storedUserInfo := ls !! "user_info" in
  if truthy storedToken && truthy storedUserId then
    let tok := default "" storedToken in
    let cleared (ls1 : gmap string string) (trace : list InitStep) :=
      let '(s1, ls2) := clearAuth s ls1 in
      (setIsCheckingAuth false s1, ls2, trace ++ [ClearAuth]) in
    if AuthApi.isTokenExpiredOrExpiring now ls then
      let '(exit, ls1, trace) := refreshLoop maxAttempts O storedUserInfo ls [] in
      match exit with
      | Refreshed t =>
          if negb (String.eqb (AuthApi.tok_accessToken t) "") && truthy storedUserInfo then
            match parseUserInfo (default "" storedUserInfo) with
            | Some u =>
                (setIsCheckingAuth false
                   (restored (AuthApi.tok_accessToken t) u
                      "✅ Authentication restored with refreshed token" s),
                 ls1, trace)
            | None => cleared ls1 trace
            end
          else cleared ls1 trace
      | Exhausted => cleared ls1 trace
      | KeepCredentials =>
          match parseUserInfo (default "" storedUserInfo) with
          | Some u =>
              (setIsCheckingAuth false
                 (limited u "⚠️ Connection issues - trying to restore session..." s),
               ls1, trace)
          | None => cleared ls1 trace
          end
      | ParseThrew => cleared ls1 trace
      end
    else
      let isValid := validateToken tok in
      if isValid && truthy storedUserInfo then
        match parseUserInfo (default "" storedUserInfo) with
        | Some u =>
            (setIsCheckingAuth false
               (restored tok u "✅ Authentication restored from storage" s),
             ls, [ValidateToken])
        | None => cleared ls [ValidateToken]
        end
      else if serverReachable then cleared ls [ValidateToken; ReachabilityCheck]
      else if truthy storedUserInfo then
        match parseUserInfo (default "" storedUserInfo) with
        | Some u =>
            (setIsCheckingAuth false
               (limited u "⚠️ Network issues - please check connection" s),
             ls, [ValidateToken; ReachabilityCheck])
        | None => cleared ls [ValidateToken; ReachabilityCheck]
        end
      else (setIsCheckingAuth false s, ls, [ValidateToken; ReachabilityCheck])
  else (setIsCheckingAuth false s, ls, []).

End Restore.

Definition refreshAttempts (trace : list InitStep) : nat :=
  length (List.filter (fun e => match e with RefreshAttempt _ => true | _ => false end) trace).

Definition waits (trace : list InitStep) : list Z :=
  omap (fun e => match e with Wait ms => Some ms | _ => None end) trace.

Definition sessionCleared (trace : list InitStep) : bool :=
  existsb (fun e => match e with ClearAuth => true | _ => false end) trace.

(** A refresh round trip that brings no tokens. *)
Definition failed (server : AuthApi.RefreshFetch) : bool :=
  match server with
  | AuthApi.JsonSuccess _ _ _ => false
  | _ => true
  end.

(** After three timeouts the credentials stay only when the health probe
    throws and the stored user info can be read. *)
Definition keepsSession (health : Health) (parseUserInfo : string -> option (option User))
    (storedUserInfo : option string) : bool :=
  match health with
  | HealthThrows =>
      truthy storedUserInfo &&
      match parseUserInfo (default "" storedUserInfo) with
      | Some _ => true
      | None => false
      end
  | _ => false
  end.

(** PKCE parameters in [sessionStorage] (utils/pkce). *)
Definition storePKCEParams (codeVerifier state : string) (ss : gmap string string)
  : gmap string string :=
  <["pkce_state" := state]> (<["pkce_code_verifier" := codeVerifier]> ss).

Definition retrievePKCEParams (ss : gmap string string) : option (string * string) :=
  if negb (truthy (ss !! "pkce_code_verifier")) || negb (truthy (ss !! "pkce_state"))
  then None
  else Some (default "" (ss !! "pkce_code_verifier"), default "" (ss !! "pkce_state")).

Definition clearPKCEParams (ss : gmap string string) : gmap string string :=
  delete "pkce_state" (delete "pkce_code_verifier" ss).

(** [handleLogin()] up to the redirect to the provider. *)
Definition handleLogin (codeVerifier state : string) (a : App) : App :=
  {| store := store a;
     localStorage :=
       if truthy (directFileId (store a))
       then <["direct_file_id_oauth" := default "" (directFileId (store a))]> (localStorage a)
       else localStorage a;
     sessionStorage := storePKCEParams codeVerifier state (sessionStorage a);
     pathname := pathname a |}.

Record Exchange : Type := mkExchange {
  ex_user : User;
  ex_accessToken : string;
  ex_refreshToken : option string
}.

Section Callback.

(** [JSON.stringify] of the user record. *)
Variable stringifyUser : User -> string.
(** [authApi.exchangeToken(code, state, codeVerifier)] *)
Variable exchangeToken : string -> string -> string -> Result Exchange.

Definition callbackFailed (why : string) (a : App) : App :=
  let '(s1, ls1) := clearAuth (setStatus ("❌ Authentication failed: " +:+ why) (store a))
                      (localStorage a) in
  {| store := setIsCheckingAuth false s1;
     localStorage := ls1;
     sessionStorage := clearPKCEParams (sessionStorage a);
     pathname := "/login" |}.

(** [handleOAuthCallback(code, state)]; [now1] and [now2] are the two
    readings of the clock. *)
Definition handleOAuthCallback (code state : string) (now1 now2 : Z) (a : App) : App :=
  match retrievePKCEParams (sessionStorage a) with
  | None => callbackFailed "PKCE parameters not found" a
  | Some (codeVerifier, pkceState) =>
      if negb (String.eqb state pkceState) then callbackFailed "Invalid state parameter" a
      else
        match exchangeToken code state codeVerifier with
        | Throw e =>
            callbackFailed (if isError e then default "undefined" (message e)
                            else "Unknown error") a
        | Ok ex =>
            let user := ex_user ex in
            let ls1 := AuthApi.storeTokenWithExpiration now1 (ex_accessToken ex) (Some 14400)
                         (localStorage a) in
            let ls2 := <["user_info" := stringifyUser user]> (<["user_id" := userId user]> ls1) in
            let ls3 := if truthy (ex_refreshToken ex)
                       then <["refresh_token" := default "" (ex_refreshToken ex)]> ls2
                       else ls2 in
            let s1 := setStatus "✅ Authentication successful"
                        (setIsAuthenticated true
                           (setUserInfo (Some user)
                              (setAccessToken (Some (ex_accessToken ex)) (store a)))) in
            let s2 := setLastReauthorizationTime now2 (setRecentlyReauthorized true s1) in
            let ls4 := <["lastReauthorizationTime" := toString now2]>
                         (<["recentlyReauthorized" := "true"]> ls3) in
            let pendingFileId := ls4 !! "pending_file_id" in
            let oauthDirectFileId := ls4 !! "direct_file_id_oauth" in
            let '(s3, ls5, target) :=
              if truthy pendingFileId then
                (setDirectFileId pendingFileId s2,
                 delete "pending_file_id" ls4,
                 "/process/" +:+ default "" pendingFileId)
              else if truthy oauthDirectFileId then
                (setDirectFileId oauthDirectFileId s2,
                 delete "direct_file_id_oauth" ls4,
                 "/process/" +:+ default "" oauthDirectFileId)
              else (s2, ls4, "/select") in
            {| store := setIsCheckingAuth false s3;
               localStorage := ls5;
               sessionStorage := clearPKCEParams (sessionStorage a);
               pathname := target |}
        end
  end.

End Callback.

End UseAuth.

(** ** Layout (client/src/Layout.tsx) *)

Module Layout.
Import Js Client.

(** [directFileId || (pathname.includes('/process/') ? pathname.split('/process/')[1] : null)] *)
Definition currentFileIdOf (directFileId_ : option string) (pathname_ : string) : option string :=
  or_else directFileId_
    (if includes "/process/" pathname_
     then nth_error (split "/process/" pathname_) 1
     else None).

(** [selectedImage && selectedImage.id !== 'unknown'] *)
Definition hasSelectedImageOf (selectedImage_ : option ImageFile) : bool :=
  match selectedImage_ with
  | Some img => negb (String.eqb (id img) "unknown")
  | None => false
  end.

Definition clearUserData (msg : string) (s : Store) : Store :=
  setStatus msg
    (setProcessingResult None
       (setSelectedImageThumbnail None
          (setSelectedImage None (setImages [] s)))).

(** What the [accountMismatch] listener closes over.  The effect that
    installs it lists [directFileId], [selectedImage], [userInfo] and
    [location.pathname] among its dependencies: the listener in place at
    an event is the one built by the last render, and it reads these
    four values as they were at that render. *)
Record Rendered : Type := mkRendered {
  r_directFileId : option string;
  r_selectedImage : option ImageFile;
  r_userInfo : option User;
  r_pathname : string
}.

(** The render of the application in state [a]. *)
Definition render (a : App) : Rendered :=
  {| r_directFileId := directFileId (store a);
     r_selectedImage := selectedImage (store a);
     r_userInfo := userInfo (store a);
     r_pathname := pathname a |}.

(** The [accountMismatch] listener installed by the render [r], run on
    the state [a]: it reads the closed-over values of [r], while its
    setters and [localStorage.setItem] write to the state as it is. *)
Definition handleAccountMismatchIn (r : Rendered) (d : MismatchDetail) (a : App) : App :=
  let s := store a in
  let currentRoute := r_pathname r in
  let currentFileId := currentFileIdOf (r_directFileId r) (r_pathname r) in
  let hasSelectedImage := hasSelectedImageOf (r_selectedImage r) in
  let '(s1, ls1) :=
    if truthy currentFileId || hasSelectedImage then
      let fileIdToSave := or_else currentFileId (id <$> r_selectedImage r) in
      (setSavedIntent
         (Some {| route := Some currentRoute; fileId := fileIdToSave;
                  action := Some processing |}) s,
       if truthy fileIdToSave
       then <["pending_file_id" := default "" fileIdToSave]> (localStorage a)
       else localStorage a)
    else
      (setSavedIntent (Some {| route := None; fileId := None; action := Some selection |}) s,
       localStorage a) in
  let s2 := clearUserData "🚨 Account mismatch detected - previous data cleared" s1 in
  let s3 :=
    setAccountMismatchInfo
      {| currentAccount :=
           Some (default "Unknown Account"
                   (or_else (or_else (accountEmail d) (accountId d)) None));
         storedAccount :=
           Some (default "unknown" (or_else (email <$> r_userInfo r) None));
         info_error :=
           Some (default "Account mismatch detected" (or_else (detail_error d) None)) |}
      s2 in
  {| store := setShowAccountMismatchBanner true s3;
     localStorage := ls1;
     sessionStorage := sessionStorage a;
     pathname := pathname a |}.

(** An [accountMismatch] event that arrives after the state [a] has been
    rendered: the listener in place is the one of that render. *)
Definition handleAccountMismatch (d : MismatchDetail) (a : App) : App :=
  handleAccountMismatchIn (render a) d a.

(** Two [accountMismatch] events.  In one task no render takes place
    between them and both run the listener of the render before the
    first; otherwise the second runs the listener of the render that
    followed the first. *)
Definition twoMismatchEvents (renderBetween : bool) (d1 d2 : MismatchDetail) (a : App) : App :=
  let r := render a in
  let a1 := handleAccountMismatchIn r d1 a in
  handleAccountMismatchIn (if renderBetween then render a1 else r) d2 a1.

(** The [accountSwitchDetected] listeners. *)
Definition handleAccountSwitchDetected (d : SwitchDetail) (a : App) : App :=
  {| store := setShowAccountSwitchBanner true
                (clearUserData "🚨 Account switch detected - previous data cleared" (store a));
     localStorage := localStorage a;
     sessionStorage := sessionStorage a;
     pathname := pathname a |}.

(** [handleFixAccountMismatch()], the action of the mismatch banner, up
    to the point where the page is left for [/login]; [now1] and [now2]
    are the two readings of the clock.  It is the click handler of the
    banner, which is on the screen only once the state has been
    rendered: it reads the store and the route of [a]. *)
Definition handleFixAccountMismatch (now1 now2 : Z) (a : App) : App :=
  let s := store a in
  let s1 := setLastReauthorizationTime now1
              (setRecentlyReauthorized true
                 (setShowAccountSwitchBanner false
                    (setShowAccountMismatchBanner false s))) in
  let ls1 := <["lastReauthorizationTime" := toString now2]>
               (<["recentlyReauthorized" := "true"]> (localStorage a)) in
  let currentFileId := currentFileIdOf (directFileId s) (pathname a) in
  let ls2 :=
    if truthy currentFileId || hasSelectedImageOf (selectedImage s) then
      let fileIdToPreserve := or_else currentFileId (id <$> selectedImage s) in
      <["pending_file_id" := default "undefined" fileIdToPreserve]> ls1
    else ls1 in
  let ls3 := removeItems
               ["access_token"; "refresh_token"; "user_id"; "user_info";
                "token_expires_at"; "direct_file_id_oauth"; "selected_image_oauth"] ls2 in
  {| store := clearUserData "" s1;
     localStorage := ls3;
     sessionStorage := ∅;
     pathname := pathname a |}.

End Layout.

(** ** The recovery flow end to end *)

Module Recovery.
Import Js Client.

Section Flow.

Variable stringifyUser : User -> string.
Variable exchangeToken : string -> string -> string -> Result UseAuth.Exchange.

(** A mismatch event, the banner's fix action that leaves for [/login],
    the login that leaves for the provider, and the callback on the
    return to [/auth].  [t1] to [t4] are the clock readings on the way. *)
Definition reauthenticate (d : MismatchDetail) (t1 t2 t3 t4 : Z)
    (codeVerifier state code : string) (a : App) : App :=
  let a1 := Layout.handleAccountMismatch d a in
  let a2 := pageLoad "/login" (Layout.handleFixAccountMismatch t1 t2 a1) in
  let a3 := pageLoad "/auth" (UseAuth.handleLogin codeVerifier state a2) in
  UseAuth.handleOAuthCallback stringifyUser exchangeToken code state t3 t4 a3.

End Flow.

End Recovery.

(** ** Scenarios

    Concrete requests, sessions and environments on which the results
    below are instantiated. *)

Module ServerScenarios.
Import Js Server.

Definition accountA : Account :=
  {| account_id := "dbid:A"; email := "a@example.com"; display_name := "A" |}.

(** A spoofed request: a valid token of account [dbid:A] under the
    claimed id [dbid:B]. *)
Definition spoofed : Request :=
  {| authorization := Some "Bearer tokenA"; x_user_id := Some "dbid:B";
     path := "/process-image"; user_agent := None |}.

Definition probeA (tok : string) : Result Account :=
  if String.eqb tok "tokenA" then Ok accountA else Throw (JsError "invalid_access_token").

Definition noSession (_ : string) : option UserSession := None.

Definition noRefresh (_ : string) : Result RefreshResult := Throw OtherValue.

Definition storeOk (_ _ : string) (_ : option string) (_ : Z) : Result unit := Ok tt.

(** An expired token of the claimed user [dbid:B], whose stored refresh
    token is good. *)
Definition expired : Request :=
  {| authorization := Some "Bearer stale"; x_user_id := Some "dbid:B";
     path := "/list-images-with-ids"; user_agent := None |}.

Definition probeExpired (_ : string) : Result Account := Throw (JsError "expired_access_token").

Definition sessionB (u : string) : option UserSession :=
  if String.eqb u "dbid:B" then Some {| userId := "dbid:B"; refreshToken := Some "rtB" |} else None.

Definition refreshOk (_ : string) : Result RefreshResult :=
  Ok {| newAccessToken := "fresh"; newRefreshToken := Some "rtB" |}.

End ServerScenarios.

Module ClientScenarios.
Import Js Client.

(** A session re-authenticated at [t = 1700000000000]. *)
Definition reauthenticated : Store :=
  setLastReauthorizationTime 1700000000000
    (setRecentlyReauthorized true
       (setUserInfo (Some {| userId := "dbid:A"; email := "a@example.com"; name := "A" |})
          (setAccessToken (Some "tokenA") initialStore))).

Definition probeOwnA (_ : string) : Result Account :=
  Ok {| account_id := "dbid:A"; account_email := "a@example.com"; display_name := "A" |}.

(** Stored credentials of account [dbid:A]; the identity probe passes and
    the folder listing is refused. *)
Definition credentialsA : gmap string string :=
  <["user_id" := "dbid:A"]> (<["access_token" := "tokenA"]> ∅).

Definition identityA (_ : string) : Result Account :=
  Ok {| account_id := "dbid:A"; account_email := "a@example.com"; display_name := "A" |}.

Definition listingRefused (_ : string) : Result unit :=
  Throw {| isError := true; message := Some "Response failed with a 401 code";
           error_summary := None |}.

Definition usageOk (_ : string) : Result unit := Ok tt.

Import AccountSwitchDetection.

(** A 409 response with the [path/not_found] summary, a success and a
    plain 400. *)
Definition crossAccount409 : FetchResponse :=
  {| status := 409; json := Parsed (Some "path/not_found/..") |}.

Definition success200 : FetchResponse := {| status := 200; json := Parsed None |}.

Definition badRequest400 : FetchResponse := {| status := 400; json := Parsed None |}.

(** The provider cannot be reached while the credentials of account
    [dbid:A] are stored. *)
Definition storedA : gmap string string :=
  <["user_info" := "{}"]> (<["user_id" := "dbid:A"]> (<["access_token" := "tokenA"]> ∅)).

Definition unreachable (_ : string) : Result Account := Throw networkError.

Definition parseNothing (_ : string) : option User := None.

Import UseAuth.

(** The user works on file [id:F] at [/process/id:F]. *)
Definition fileF : ImageFile := {| id := "id:F"; file_name := "photo.png" |}.

Definition userA : User := {| userId := "dbid:A"; email := "a@example.com"; name := "A" |}.

Definition processingF : App :=
  {| store := setSelectedImage (Some fileF)
                (setIsAuthenticated true
                   (setUserInfo (Some userA) (setAccessToken (Some "tokenA") initialStore)));
     localStorage := <["user_id" := "dbid:A"]> (<["access_token" := "tokenA"]> ∅);
     sessionStorage := ∅;
     pathname := "/process/id:F" |}.

Definition confirmedMismatch : MismatchDetail :=
  {| accountEmail := Some "b@example.com"; accountId := Some "dbid:B";
     accountName := Some "B"; storedEmail := Some "a@example.com";
     storedId := Some "dbid:A";
     detail_error := Some "Account mismatch detected during immediate validation";
     source := "immediate-validation"; confirmed := true |}.

Definition stringifyA (_ : User) : string := "{}".

Definition exchangeB (_ _ _ : string) : Result Exchange :=
  Ok {| ex_user := {| userId := "dbid:B"; email := "b@example.com"; name := "B" |};
        ex_accessToken := "tokenB"; ex_refreshToken := Some "refreshB" |}.

(** The image [id:F] is selected and shown at [/process]. *)
Definition selectedF : App :=
  {| store := setSelectedImage (Some fileF)
                (setIsAuthenticated true
                   (setUserInfo (Some userA) (setAccessToken (Some "tokenA") initialStore)));
     localStorage := <["user_id" := "dbid:A"]> (<["access_token" := "tokenA"]> ∅);
     sessionStorage := ∅;
     pathname := "/process" |}.

(** The event of the immediate validation when no credentials are
    stored, dispatched before its first [await]. *)
Definition missingCredentials : MismatchDetail :=
  {| accountEmail := Some "Missing credentials"; accountId := Some "unknown";
     accountName := None; storedEmail := None; storedId := None;
     detail_error := Some "Missing authentication credentials";
     source := "immediate-validation"; confirmed := false |}.

Definition interceptedMismatch : MismatchDetail :=
  {| accountEmail := Some "Unknown account"; accountId := Some "Unknown ID";
     accountName := Some "Unknown name"; storedEmail := None; storedId := None;
     detail_error := Some "Cross-account access detected (409)";
     source := "axios-interceptor"; confirmed := false |}.

(** A stored session of account [dbid:A] whose token expired long ago. *)
Definition staleA : gmap string string :=
  <["token_expires_at" := "1000"]>
    (<["user_info" := "{}"]>
       (<["refresh_token" := "refreshA"]>
          (<["user_id" := "dbid:A"]> (<["access_token" := "tokenA"]> ∅)))).

(** The refresh endpoint answers an expired refresh token ([invalid_grant])
    with status 401 and the reason [refresh_token_expired]. *)
Definition invalidGrant (_ : nat) : Attempt :=
  Resolved (AuthApi.HttpError 401 "Unauthorized").

Definition alwaysTimedOut (_ : nat) : Attempt := TimedOut.

Definition wallClock (n : nat) : Z := 1700000000000 + 10000 * Z.of_nat n.

Definition parseA (_ : string) : option User :=
  Some {| userId := "dbid:A"; email := "a@example.com"; name := "A" |}.

(** [JSON.parse] at the session restore: the user record of [dbid:A],
    and the stored text [null]. *)
Definition jsonA (_ : string) : option (option User) :=
  Some (Some {| userId := "dbid:A"; email := "a@example.com"; name := "A" |}).

Definition jsonNull (_ : string) : option (option User) := Some None.

(** A stored session of account [dbid:A] whose token is good for a long
    time and whose user info is the text [null]. *)
Definition nullInfoA : gmap string string :=
  <["token_expires_at" := "1800000000000"]>
    (<["user_info" := "null"]>
       (<["user_id" := "dbid:A"]> (<["access_token" := "tokenA"]> ∅))).

End ClientScenarios.

(** ** Server: the other validation helpers (utils/accountValidation) and
    the guarded controllers *)

Module ServerOps.
Import Js Server.

(** The JSON body sent by the helpers below. *)
Record OpBody : Type := mkOpBody {
  op_error : option string;
  op_shouldReauth : option bool;
  op_blockExecution : option bool;
  operationBlocked : option string;
  op_context : option string
}.

(** What a pre-operation validation did: its verdict, the response it
    sent (if any) and its calls. *)
Record OpOutcome : Type := mkOpOutcome {
  allowed : bool;
  op_response : option (Z * OpBody);
  op_calls : list Call
}.

Section Ops.

Variable usersGetCurrentAccount : string -> Result Account.
Variable getUserSession : string -> option UserSession.
Variable refreshAccessTokenIfNeeded : string -> Result RefreshResult.
Variable updateTokens : string -> string -> option string -> Z -> Result unit.

(** [validateAccountTokenMatch(accessToken, claimedUserId)]: the boolean
    version. *)
Definition validateAccountTokenMatch (accessToken claimedUserId : string)
  : bool * list Call :=
  if String.eqb accessToken "" || String.eqb claimedUserId "" then (false, [])
  else
    match usersGetCurrentAccount accessToken with
    | Ok a =>
        if negb (String.eqb (account_id a) claimedUserId)
        then (false, [ProbeAccount accessToken])
        else (true, [ProbeAccount accessToken])
    | Throw _ => (false, [ProbeAccount accessToken])
    end.

(** [handleValidationFailure(res, validation, context)]: the response. *)
Definition handleValidationFailure (validation : ServerValidationResult) (context : string)
  : Z * OpBody :=
  (if default false (v_shouldReauth validation) then 401 else 403,
   {| op_error := Some (default "Account validation failed" (or_else (v_error validation) None));
      op_shouldReauth := v_shouldReauth validation;
      op_blockExecution := v_blockExecution validation;
      operationBlocked := None;
      op_context := Some context |}).

(** [validateBeforeOperation(req, res, operationName)] of the server. *)
Definition validateBeforeOperation (req : Request) (operationName : string) : OpOutcome :=
  if negb (truthy (authorization req)) || negb (truthy (x_user_id req)) then
    {| allowed := false;
       op_response :=
         Some (401, {| op_error := Some "Missing authentication credentials";
                       op_shouldReauth := Some true;
                       op_blockExecution := Some true;
                       operationBlocked := None;
                       op_context := None |});
       op_calls := [] |}
  else
    let accessToken := remove_first "Bearer " (default "" (authorization req)) in
    let uid := default "" (x_user_id req) in
    let '(validation, cs) :=
      validateAccountTokenMatchDetailed usersGetCurrentAccount accessToken uid in
    if negb (isValid validation) then
      {| allowed := false;
         op_response :=
           Some (if default false (v_shouldReauth validation) then 401 else 403,
                 {| op_error := Some (default "Account validation failed"
                                        (or_else (v_error validation) None));
                    op_shouldReauth := v_shouldReauth validation;
                    op_blockExecution := v_blockExecution validation;
                    operationBlocked := Some operationName;
                    op_context := None |});
         op_calls := cs |}
    else {| allowed := true; op_response := None; op_calls := cs |}.

(** What the client receives from a guarded route. *)
Inductive Served : Type :=
| RejectedByMiddleware (r : Response)
| RejectedByController (status : Z) (b : OpBody)
| ReachedOperation.

(** The head of [processImage] and [listImagesWithIds] behind
    [strictAuthMiddleware]: the middleware, then
    [validateBeforeOperation] on the same request headers.  The work of
    the controller after that point is not part of the model. *)
Definition guardedOperation (req : Request) (operationName : string)
  : Served * list Call :=
  let out := ensureValidToken usersGetCurrentAccount getUserSession
               refreshAccessTokenIfNeeded updateTokens req in
  match response out with
  | Some r => (RejectedByMiddleware r, calls out)
  | None =>
      let op := validateBeforeOperation req operationName in
      match op_response op with
      | Some (st, b) => (RejectedByController st b, calls out ++ op_calls op)
      | None => (ReachedOperation, calls out ++ op_calls op)
      end
  end.

End Ops.

End ServerOps.

(** ** Server: the stored sessions (models/User.ts, services/UserService) *)

Module UserStore.
Import Js Server.

(** A [User] document.  Dates are milliseconds. *)
Record IUser : Type := mkIUser {
  u_userId : string;
  u_accessToken : string;
  u_refreshToken : option string;
  u_expiresAt : Z;
  u_dropboxUserId : string;
  u_email : string;
  u_name : string;
  u_lastRefresh : option Z
}.

(** [user.isTokenExpired()] at time [now]. *)
Definition isTokenExpired (now : Z) (u : IUser) : bool := u_expiresAt u <? now.

(** [user.updateTokens(accessToken, refreshToken, expiresIn = 14400)]:
    the document handed to [save]; [now1] and [now2] are the two readings
    of the clock. *)
Definition updateTokens (now1 now2 : Z) (accessToken : string) (refreshToken_ : option string)
    (expiresIn : option Z) (u : IUser) : IUser :=
  {| u_userId := u_userId u;
     u_accessToken := accessToken;
     u_refreshToken := if truthy refreshToken_ then refreshToken_ else u_refreshToken u;
     u_expiresAt := now1 + (default 14400 expiresIn * 1000);
     u_dropboxUserId := u_dropboxUserId u;
     u_email := u_email u;
     u_name := u_name u;
     u_lastRefresh := Some now2 |}.

(** The collection, keyed by the unique [userId], and whether the
    database answers. *)
Record Db : Type := mkDb {
  users : gmap string IUser;
  reachable : bool
}.

(** The schema's [required: true] on a text field: an empty text does
    not pass. *)
Definition required (t : string) : bool := negb (String.eqb t "").

Definition validates (u : IUser) : bool :=
  required (u_userId u) && required (u_accessToken u) &&
  required (u_dropboxUserId u) && required (u_email u) && required (u_name u).

(** [doc.save()] and [UserModel.create(doc)]: the document is validated
    against the schema and written under its [userId].  The validation
    error's message, which goes on to name the failing paths, is cut
    after its first words. *)
Definition save (db : Db) (u : IUser) : Result IUser * Db :=
  if validates u
  then (Ok u, {| users := <[u_userId u := u]> (users db); reachable := reachable db |})
  else (Throw (JsError "User validation failed"), db).

(** Every document is stored under its own [userId]. *)
Definition keyed (db : Db) : Prop :=
  forall k u, users db !! k = Some u -> u_userId u = k.

(** [UserModel.findActiveSessions()]: [expiresAt > now]. *)
Definition findActiveSessions (now : Z) (db : Db) : gmap string IUser :=
  filter (fun kv => now < u_expiresAt (snd kv)) (users db).

(** [UserModel.cleanupExpiredSessions()]: deletes [expiresAt < now]. *)
Definition cleanupExpiredSessions (now : Z) (db : Db) : Db :=
  {| users := filter (fun kv => ~ (u_expiresAt (snd kv) < now)) (users db);
     reachable := reachable db |}.

(** [userRepo.findByUserId(userId)] *)
Definition findByUserId (db : Db) (user : string) : Result (option IUser) :=
  if reachable db then Ok (users db !! user)
  else Throw (JsError "database unreachable").

(** [userService.getUserSession(userId)]: the user, expired or not, or
    [null]. *)
Definition getUserSession (db : Db) (user : string) : option IUser :=
  match findByUserId db user with
  | Ok u => u
  | Throw _ => None
  end.

(** [userService.isUserSessionValid(userId)] at time [now]. *)
Definition isUserSessionValid (now : Z) (db : Db) (user : string) : bool :=
  match findByUserId db user with
  | Ok (Some u) => negb (isTokenExpired now u)
  | _ => false
  end.

(** [userService.updateTokens(userId, accessToken, refreshToken, expiresIn)] *)
Definition serviceUpdateTokens (now1 now2 : Z) (db : Db) (user accessToken : string)
    (refreshToken_ : option string) (expiresIn : option Z) : Result IUser * Db :=
  match findByUserId db user with
  | Throw e => (Throw e, db)
  | Ok None => (Throw (JsError ("User " +:+ user +:+ " not found")), db)
  | Ok (Some u) => save db (updateTokens now1 now2 accessToken refreshToken_ expiresIn u)
  end.

Record SessionData : Type := mkSessionData {
  sd_accessToken : string;
  sd_refreshToken : option string;
  sd_expiresAt : Z;
  sd_dropboxUserId : string;
  sd_email : string;
  sd_name : string;
  sd_lastRefresh : option Z
}.

(** [userService.setUserSession(userId, sessionData)] at time [now]. *)
Definition setUserSession (now : Z) (db : Db) (user : string) (sd : SessionData)
  : Result IUser * Db :=
  match findByUserId db user with
  | Throw e => (Throw e, db)
  | Ok (Some existing) =>
      let u' :=
        {| u_userId := u_userId existing;
           u_accessToken := sd_accessToken sd;
           u_refreshToken := sd_refreshToken sd;
           u_expiresAt := sd_expiresAt sd;
           u_dropboxUserId := sd_dropboxUserId sd;
           u_email := sd_email sd;
           u_name := sd_name sd;
           u_lastRefresh :=
             match sd_lastRefresh sd with
             | Some t => Some t
             | None => Some now
             end |} in
      save db u'
  | Ok None =>
      let u' :=
        {| u_userId := user;
           u_accessToken := sd_accessToken sd;
           u_refreshToken := sd_refreshToken sd;
           u_expiresAt := sd_expiresAt sd;
           u_dropboxUserId := sd_dropboxUserId sd;
           u_email := sd_email sd;
           u_name := sd_name sd;
           u_lastRefresh := sd_lastRefresh sd |} in
      save db u'
  end.

(** [userService.performSessionMaintenance()]: [now1] is the clock at
    the first query, [now2] at the deletion.  The listing in between
    only logs; every error is caught. *)
Definition performSessionMaintenance (now1 now2 : Z) (db : Db) : Db :=
  if reachable db then
    if bool_decide (findActiveSessions now1 db = ∅) then db
    else cleanupExpiredSessions now2 db
  else db.

(** The session record as the middleware reads it. *)
Definition sessionOf (db : Db) (user : string) : option UserSession :=
  (fun u => {| userId := u_userId u; refreshToken := u_refreshToken u |})
    <$> getUserSession db user.

End UserStore.

(** ** Server: the auth middleware on the stored sessions *)

Module StoredAuth.
Import Js Server.

Section Backed.

Variable usersGetCurrentAccount : string -> Result Account.
Variable refreshAccessTokenIfNeeded : string -> Result RefreshResult.

(** [userService.updateTokens] as the middleware awaits it. *)
Definition updateTokensOn (now1 now2 : Z) (db : UserStore.Db)
    (user access : string) (refresh : option string) (expiresIn : Z) : Result unit :=
  match fst (UserStore.serviceUpdateTokens now1 now2 db user access refresh (Some expiresIn)) with
  | Ok _ => Ok tt
  | Throw e => Throw e
  end.

(** The database after the calls of a run. *)
Definition written (now1 now2 : Z) (cs : list Call) (db : UserStore.Db) : UserStore.Db :=
  fold_left
    (fun d c =>
       match c with
       | UpdateTokens user access refresh expiresIn =>
           snd (UserStore.serviceUpdateTokens now1 now2 d user access refresh (Some expiresIn))
       | _ => d
       end) cs db.

(** [ensureValidToken] with [userService] on the database [db]; [now1]
    and [now2] are the clock readings of [user.updateTokens]. *)
Definition ensureValidTokenOn (now1 now2 : Z) (db : UserStore.Db) (req : Request)
  : Outcome * UserStore.Db :=
  let out := ensureValidToken usersGetCurrentAccount (UserStore.sessionOf db)
               refreshAccessTokenIfNeeded (updateTokensOn now1 now2 db) req in
  (out, written now1 now2 (calls out) db).

End Backed.

End StoredAuth.

(** ** The axios client (client/src/api/axiosConfig) *)

Module AxiosConfig.
Import Js Client.

(** The [error] field of a response body: absent, a text, or an object
    that is no array and so has no [includes] method (the provider's
    error, with its [error_summary]). *)
Inductive ErrorField : Type :=
| ErrAbsent
| ErrText (text : string)
| ErrObject (summary : option string).

(** [error.response.data] as far as the interceptor reads it. *)
Record ResponseData : Type := mkResponseData {
  rd_shouldReauth : bool;
  rd_error : ErrorField;
  rd_message : option string;
  rd_error_summary : option string;
  rd_accountEmail : option string;
  rd_accountName : option string;
  rd_accountId : option string
}.

Section Interceptors.

Variable usersGetCurrentAccount : string -> Result Account.
Variable parseUserInfo : string -> option User.

(** The request interceptor: the [Authorization] and [X-User-ID] headers
    of the outgoing request, given the ones the caller set. *)
Definition onRequest (headers : option string * option string) (ls : gmap string string)
  : option string * option string :=
  let accessToken := ls !! "access_token" in
  let userInfo_ := ls !! "user_info" in
  let auth := if truthy accessToken
              then Some ("Bearer " +:+ default "" accessToken)
              else fst headers in
  let uid :=
    if truthy userInfo_ then
      match parseUserInfo (default "" userInfo_) with
      | Some user => if negb (String.eqb (userId user) "") then Some (userId user)
                     else snd headers
      | None => snd headers
      end
    else snd headers in
  (auth, uid).

(** The response interceptor on a fulfilled response, given its
    [x-new-access-token] header, at time [now]. *)
Definition onFulfilled (now : Z) (newToken : option string) (s : Store)
    (ls : gmap string string) : Store * gmap string string :=
  if truthy newToken then
    let expirationTime := now + ((14400 - 300) * 1000) in
    (setAccessToken newToken s,
     <["token_expires_at" := toString expirationTime]>
       (<["access_token" := default "" newToken]> ls))
  else (s, ls).

(** [x?.includes(needle)] on a text that may be absent. *)
Definition includesOpt (needle : string) (o : option string) : bool :=
  match o with
  | Some t => includes needle t
  | None => false
  end.

(** The [isAccountMismatch] disjunction, left to right; [None] when
    [.includes] is called on an [error] object and throws. *)
Definition isAccountMismatch (status : option Z) (data : option ResponseData) : option bool :=
  let shouldReauth_ := match data with Some d => rd_shouldReauth d | None => false end in
  let err := match data with Some d => rd_error d | None => ErrAbsent end in
  if bool_decide (status = Some 401) && shouldReauth_ then Some true
  else if bool_decide (status = Some 409) then Some true
  else
    match err with
    | ErrObject _ => None
    | ErrText t =>
        if bool_decide (status = Some 403) && includes "mismatch" t then Some true
        else if includes "Account mismatch" t then Some true
        else if includesOpt "mismatch" (data ≫= rd_message) then Some true
        else Some (includesOpt "path/not_found" (data ≫= rd_error_summary))
    | ErrAbsent =>
        if includesOpt "mismatch" (data ≫= rd_message) then Some true
        else Some (includesOpt "path/not_found" (data ≫= rd_error_summary))
    end.

(** What the rejected-response interceptor did before rejecting again. *)
Record Rejection : Type := mkRejection {
  threw : bool;
  events : list WindowEvent;
  asked : list string;
  rej_store : Store;
  rej_storage : gmap string string;
  redirectToLogin : bool
}.

Definition statusText (status : option Z) : string :=
  match status with
  | Some z => toString z
  | None => "undefined"
  end.

(** The text of the event's [error]: [accountInfo.error ||
    accountInfo.message || fallback].  An error object is carried as it
    is by the source; it is shown here by its summary. *)
Definition errorOrMessage (data : option ResponseData) (fallback : string) : option string :=
  match data with
  | Some d =>
      match rd_error d with
      | ErrText t => if String.eqb t "" then Some (default fallback (or_else (rd_message d) None))
                     else Some t
      | ErrObject o => Some (default "" o)
      | ErrAbsent => Some (default fallback (or_else (rd_message d) None))
      end
  | None => Some fallback
  end.

(** The response interceptor on a rejected response, at time [now].
    [triggerOn409Error()] is started and not awaited: its events come
    after the two of the interceptor. *)
Definition onRejected (now : Z) (status : option Z) (data : option ResponseData)
    (s : Store) (ls : gmap string string) : Rejection :=
  match isAccountMismatch status data with
  | None =>
      {| threw := true; events := []; asked := [];
         rej_store := s; rej_storage := ls; redirectToLogin := false |}
  | Some mismatch =>
      let field (f : ResponseData -> option string) (fallback : string) :=
        Some (default fallback (or_else (data ≫= f) None)) in
      let ev :=
        if mismatch then
          [accountMismatch
             {| accountEmail := field rd_accountEmail "Unknown account";
                accountId := field rd_accountId "Unknown ID";
                accountName := field rd_accountName "Unknown name";
                storedEmail := None; storedId := None;
                detail_error :=
                  errorOrMessage data
                    ("Cross-account access detected (" +:+ statusText status +:+ ")");
                source := "axios-interceptor";
                confirmed := false |};
           accountSwitchDetected
             {| switch_source := "axios-interceptor-409";
                errorCount := None;
                switch_error := errorOrMessage data "Account switch detected" |}]
        else [] in
      let '(ev409, ls1, asked409) :=
        if mismatch && bool_decide (status = Some 409) then
          let '(_, ls1, evs, probes) :=
            ImmediateValidation.triggerImmediateAccountValidation
              usersGetCurrentAccount parseUserInfo true now ls in
          (evs, ls1, probes)
        else ([], ls, []) in
      if bool_decide (status = Some 401) &&
         match data with Some d => rd_shouldReauth d | None => false end
      then
        let '(s1, ls2) := clearAuth s ls1 in
        {| threw := false; events := ev ++ ev409; asked := asked409;
           rej_store := s1; rej_storage := ls2; redirectToLogin := true |}
      else
        {| threw := false; events := ev ++ ev409; asked := asked409;
           rej_store := s; rej_storage := ls1; redirectToLogin := false |}
  end.

End Interceptors.

(** The body of a middleware rejection as the client reads it. *)
Definition ofServerBody (b : Server.Body) : ResponseData :=
  {| rd_shouldReauth := default false (Server.shouldReauth b);
     rd_error := match Server.error b with Some t => ErrText t | None => ErrAbsent end;
     rd_message := Server.message b;
     rd_error_summary := None;
     rd_accountEmail := None; rd_accountName := None; rd_accountId := None |}.

(** The body of a controller rejection as the client reads it. *)
Definition ofOpBody (b : ServerOps.OpBody) : ResponseData :=
  {| rd_shouldReauth := default false (ServerOps.op_shouldReauth b);
     rd_error := match ServerOps.op_error b with Some t => ErrText t | None => ErrAbsent end;
     rd_message := None;
     rd_error_summary := None;
     rd_accountEmail := None; rd_accountName := None; rd_accountId := None |}.

End AxiosConfig.

(** ** Client validators without a claim (client/src/utils/accountValidation) *)

Module StoredCredentials.
Import Js Client AccountValidation.

(** What [JSON.parse] does with a stored text: it throws, or gives
    [null] or a value that is no object, or the user record. *)
Inductive Parsed : Type :=
| ParseThrows
| ParsedNoObject
| ParsedUser (u : User).

Section Quick.

Variable usersGetCurrentAccount : string -> Result Account.
Variable filesListFolder : string -> Result unit.
Variable usersGetSpaceUsage : string -> Result unit.
(** [JSON.parse] of the stored user info, with empty fields for absent
    ones. *)
Variable jsonParse : string -> Parsed.

Definition nonEmpty (t : string) : option string :=
  if String.eqb t "" then None else Some t.

(** [validateStoredCredentials()]: no network call. *)
Definition validateStoredCredentials (ls : gmap string string) : ValidationResult :=
  let accessToken := ls !! "access_token" in
  let storedUserId := ls !! "user_id" in
  let storedUserInfo := ls !! "user_info" in
  let invalid (why : string) :=
    {| isValid := false; reason := None; error := Some why;
       shouldShowBanner := None; shouldReauth := Some true; sessionMismatch := None;
       accountId := None; accountEmail := None; accountName := None |} in
  if negb (truthy accessToken) || negb (truthy storedUserId) then
    invalid "Missing stored credentials"
  else if truthy storedUserInfo then
    match jsonParse (default "" storedUserInfo) with
    | ParsedUser u =>
        {| isValid := true; reason := None; error := None;
           shouldShowBanner := None; shouldReauth := None; sessionMismatch := None;
           accountId := storedUserId;
           accountEmail := nonEmpty (email u);
           accountName := nonEmpty (name u) |}
    | ParsedNoObject =>
        {| isValid := true; reason := None; error := None;
           shouldShowBanner := None; shouldReauth := None; sessionMismatch := None;
           accountId := storedUserId; accountEmail := None; accountName := None |}
    | ParseThrows => invalid "Invalid stored user info"
    end
  else
    {| isValid := true; reason := None; error := None;
       shouldShowBanner := None; shouldReauth := None; sessionMismatch := None;
       accountId := storedUserId; accountEmail := None; accountName := None |}.

(** [shouldLockUI()] *)
Definition shouldLockUI (ls : gmap string string) : bool :=
  negb (isValid (validateStoredCredentials ls)).

(** [forceReauth()] up to the page reload. *)
Definition forceReauth (ls : gmap string string) : gmap string string :=
  removeItems ["access_token"; "refresh_token"; "user_id"; "user_info";
               "token_expires_in"; "code_verifier"; "post_login_redirect"] ls.

(** [validateAccountWithSessionCheck()] *)
Definition validateAccountWithSessionCheck (ls : gmap string string)
  : ValidationResult * list ApiCall :=
  let '(sessionValidation, cs) :=
    validateSessionConsistency usersGetCurrentAccount filesListFolder usersGetSpaceUsage ls in
  if negb (isValid sessionValidation) then (sessionValidation, cs)
  else (sessionValidation, cs).

(** [preValidateApiCall()] *)
Definition preValidateApiCall (ls : gmap string string) : ValidationResult * list ApiCall :=
  let '(validation, cs) := validateAccountWithSessionCheck ls in
  if negb (isValid validation) then (validation, cs)
  else
    ({| isValid := true; reason := None; error := None;
        shouldShowBanner := None; shouldReauth := None; sessionMismatch := None;
        accountId := None; accountEmail := None; accountName := None |}, cs).

End Quick.

(** An [error.response] as [detectAccountSwitchFromError] reads it. *)
Record ErrorResponse : Type := mkErrorResponse {
  er_status : option Z;
  er_shouldReauth : bool;
  er_error_summary : option string
}.

(** [detectAccountSwitchFromError(error)]; [None] is an error without a
    [response]. *)
Definition detectAccountSwitchFromError (response : option ErrorResponse) : bool :=
  match response with
  | Some r =>
      if bool_decide (er_status r = Some 409) then true
      else if bool_decide (er_status r = Some 403) && er_shouldReauth r then true
      else match er_error_summary r with
           | Some t => includes "path/not_found" t
           | None => false
           end
  | None => false
  end.

(** What the wrapped [fetch] of this file sees: a response status, or a
    rejection with the error's [response], if any. *)
Inductive FetchResult : Type :=
| Responded (status : Z)
| Rejected (response : option ErrorResponse).

(** [wrapFetchWithAccountDetection()]: the handlers on the module
    counter [consecutiveErrors]; the counter afterwards and the number
    of [accountSwitchDetected] events dispatched. *)
Definition onFetch (consecutiveErrors : Z) (r : FetchResult) : Z * nat :=
  match r with
  | Responded st =>
      if st =? 409 then (consecutiveErrors + 1, 1%nat)
      else if (200 <=? st) && (st <=? 299) then (0, 0%nat)
      else if 400 <=? st then
        let n := consecutiveErrors + 1 in
        (n, if 2 <=? n then 1%nat else 0%nat)
      else (consecutiveErrors, 0%nat)
  | Rejected response =>
      (consecutiveErrors, if detectAccountSwitchFromError response then 1%nat else 0%nat)
  end.

Fixpoint onFetches (consecutiveErrors : Z) (rs : list FetchResult) : Z * nat :=
  match rs with
  | [] => (consecutiveErrors, 0%nat)
  | r :: rest =>
      let '(c1, n1) := onFetch consecutiveErrors r in
      let '(c2, n2) := onFetches c1 rest in
      (c2, (n1 + n2)%nat)
  end.

End StoredCredentials.

(** ** Upscale factors (client/src/utils/upscale.ts) *)

Module Upscale.

(** [imageData.width] and [imageData.height]; an absent dimension is
    [None].  Pixel counts are integers. *)
Record ImageData : Type := mkImageData {
  width : option Z;
  height : option Z
}.

Definition factorLimits : list (Z * Z * Z) :=
  [(2, 2000, 2000); (4, 1024, 1024); (6, 800, 800); (8, 600, 600)].

(** [calculateSafeUpscaleFactors(imageData)] *)
Definition calculateSafeUpscaleFactors (imageData : ImageData) : list Z :=
  let w := default 0 (width imageData) in
  let h := default 0 (height imageData) in
  if (w =? 0) || (h =? 0) then []
  else
    omap (fun limit : Z * Z * Z =>
            let '(factor, maxWidth, maxHeight) := limit in
            let inputWithinLimits := (w <=? maxWidth) && (h <=? maxHeight) in
            let outputWithinLimits := (w * factor <=? 4800) && (h * factor <=? 4800) in
            if inputWithinLimits && outputWithinLimits then Some factor else None)
         factorLimits.

Inductive WarningType : Type := dimension | filesize | general.

Inductive WarningCase : Type := UnknownDimensions | ExceedsMaximum | Fallback.

(** [generateUpscaleWarning(imageData)]: which of the three messages is
    built, and its type. *)
Definition generateUpscaleWarning (imageData : ImageData) : WarningCase * WarningType :=
  let w := default 0 (width imageData) in
  let h := default 0 (height imageData) in
  if (w =? 0) || (h =? 0) then (UnknownDimensions, general)
  else if (2000 <? w) || (2000 <? h) then (ExceedsMaximum, dimension)
  else (Fallback, dimension).

(** [isUpscaleSafe(imageData, factor)] *)
Definition isUpscaleSafe (imageData : ImageData) (factor : Z) : bool :=
  existsb (Z.eqb factor) (calculateSafeUpscaleFactors imageData).

(** [getRecommendedUpscaleFactor(imageData)] *)
Definition getRecommendedUpscaleFactor (imageData : ImageData) : option Z :=
  head (calculateSafeUpscaleFactors imageData).

End Upscale.

(** ** The other exits of the session (Layout, useAuth) *)

Module Exits.
Import Js Client.

(** [handleFixAccountSwitchWithCountdown()], the action of the account
    switch banner, up to the point where the page is left for [/login]. *)
Definition handleFixAccountSwitchWithCountdown (now : Z) (a : App) : App :=
  let s1 := setLastReauthorizationTime now (setRecentlyReauthorized true (store a)) in
  let '(s2, ls) := clearAllUserData s1 ∅ in
  {| store := s2; localStorage := ls; sessionStorage := ∅; pathname := pathname a |}.

(** [logout()] *)
Definition logout (a : App) : App :=
  let '(s1, ls) := clearAllUserData (store a) (localStorage a) in
  {| store := s1; localStorage := ls; sessionStorage := sessionStorage a;
     pathname := "/login" |}.

Section Flow.

Variable stringifyUser : User -> string.
Variable exchangeToken : string -> string -> string -> Result UseAuth.Exchange.

(** An account switch event, the banner's fix action that leaves for
    [/login], the login that leaves for the provider, and the callback
    on the return to [/auth]. *)
Definition reauthenticateAfterSwitch (d : SwitchDetail) (t1 t3 t4 : Z)
    (codeVerifier state code : string) (a : App) : App :=
  let a1 := Layout.handleAccountSwitchDetected d a in
  let a2 := pageLoad "/login" (handleFixAccountSwitchWithCountdown t1 a1) in
  let a3 := pageLoad "/auth" (UseAuth.handleLogin codeVerifier state a2) in
  UseAuth.handleOAuthCallback stringifyUser exchangeToken code state t3 t4 a3.

End Flow.

End Exits.

(** ** More scenarios *)

Module MoreScenarios.
Import Js Client.

(** A stored session of user [dbid:B] whose access token expired at
    [t = 1000] and whose refresh token is good. *)
Definition userB : UserStore.IUser :=
  {| UserStore.u_userId := "dbid:B"; UserStore.u_accessToken := "stale";
     UserStore.u_refreshToken := Some "rtB"; UserStore.u_expiresAt := 1000;
     UserStore.u_dropboxUserId := "dbid:B"; UserStore.u_email := "b@example.com";
     UserStore.u_name := "B"; UserStore.u_lastRefresh := None |}.

Definition dbB : UserStore.Db :=
  {| UserStore.users := <["dbid:B" := userB]> ∅; UserStore.reachable := true |}.

(** A new login of [dbid:B] that brings no refresh token. *)
Definition sessionDataB : UserStore.SessionData :=
  {| UserStore.sd_accessToken := "tokenB"; UserStore.sd_refreshToken := None;
     UserStore.sd_expiresAt := 5000; UserStore.sd_dropboxUserId := "dbid:B";
     UserStore.sd_email := "b@example.com"; UserStore.sd_name := "B";
     UserStore.sd_lastRefresh := None |}.

(** A request that names no user. *)
Definition anonymous : Server.Request :=
  {| Server.authorization := Some "Bearer tokenA"; Server.x_user_id := None;
     Server.path := "/process-image"; Server.user_agent := None |}.

(** The 403 of the middleware. *)
Definition mismatch403 : Server.Response :=
  {| Server.status := 403;
     Server.body :=
       {| Server.error := Some "Account mismatch detected";
          Server.message := Some "Token does not belong to the specified user";
          Server.shouldReauth := Some true;
          Server.blockExecution := None; Server.reason := None |} |}.

(** A provider error passed on as an object. *)
Definition providerError : AxiosConfig.ResponseData :=
  {| AxiosConfig.rd_shouldReauth := false;
     AxiosConfig.rd_error := AxiosConfig.ErrObject (Some "path/not_found/..");
     AxiosConfig.rd_message := None; AxiosConfig.rd_error_summary := None;
     AxiosConfig.rd_accountEmail := None; AxiosConfig.rd_accountName := None;
     AxiosConfig.rd_accountId := None |}.

(** The credentials of account [dbid:A], one minute after a
    re-authorization at [t = 1700000000000]. *)
Definition justReauthorized : gmap string string :=
  <["lastReauthorizationTime" := "1700000000000"]>
    (<["recentlyReauthorized" := "true"]> ClientScenarios.storedA).

Definition oneMinuteLater : Z := 1700000060000.

(** Back from the provider on [/auth]: the PKCE parameters of the login
    are in the session storage and file [id:F] is pending. *)
Definition returning : App :=
  {| store := initialStore;
     localStorage := <["pending_file_id" := "id:F"]> ∅;
     sessionStorage := UseAuth.storePKCEParams "verifier" "state-1" ∅;
     pathname := "/auth" |}.

Definition detectedSwitch : SwitchDetail :=
  {| switch_source := "fetch-interceptor"; errorCount := Some 2;
     switch_error := Some "Multiple cross-account 409 errors detected" |}.

End MoreScenarios.

(** * Results *)

(** ** Facts on the string primitives *)

Module JsFacts.
Import Js.

Lemma parse_digits_uint (u : uint) (acc : Z) :
  parse_digits acc (NilEmpty.string_of_uint u) = uint_value acc u.
Proof.
  revert acc. induction u; intros acc; simpl; try reflexivity;
    rewrite IHu; reflexivity.
Qed.

Lemma uint_value_pos (u : uint) (p : positive) :
  uint_value (Zpos p) u = Zpos (Pos.of_uint_acc u p).
Proof.
  revert p. induction u; intros p; simpl; try reflexivity;
    rewrite <- IHu; f_equal; lia.
Qed.

Lemma uint_value_zero (u : uint) :
  uint_value 0 u = Z.of_N (Pos.of_uint u).
Proof.
  induction u; simpl; try reflexivity; try exact IHu;
    apply uint_value_pos.
Qed.

Lemma starts_with_digit_uint (u : uint) :
  u <> Nil -> starts_with_digit (NilEmpty.string_of_uint u) = true.
Proof. destruct u; simpl; intros H; try reflexivity. congruence. Qed.

Lemma skip_ws_uint (u : uint) :
  skip_ws (NilEmpty.string_of_uint u) = NilEmpty.string_of_uint u.
Proof. destruct u; reflexivity. Qed.

Lemma strip_sign_uint (u : uint) :
  strip_sign (NilEmpty.string_of_uint u) = (false, NilEmpty.string_of_uint u).
Proof. destruct u; reflexivity. Qed.

Lemma to_uint_not_nil (p : positive) : Pos.to_uint p <> Nil.
Proof.
  intros H. pose proof (DecimalPos.Unsigned.of_to p) as E.
  rewrite H in E. discriminate E.
Qed.

Lemma parse_to_uint (p : positive) :
  parse_digits 0 (NilEmpty.string_of_uint (Pos.to_uint p)) = Zpos p.
Proof.
  rewrite parse_digits_uint, uint_value_zero, DecimalPos.Unsigned.of_to.
  reflexivity.
Qed.

(** Reading back a printed integer, as [parseInt(n.toString(), 10)]. *)
Lemma parseInt10_toString (z : Z) : parseInt10 (toString z) = Some z.
Proof.
  destruct z as [|p|p]; [reflexivity| |].
  - unfold parseInt10, toString.
    rewrite skip_ws_uint, strip_sign_uint.
    rewrite (starts_with_digit_uint _ (to_uint_not_nil p)).
    now rewrite parse_to_uint.
  - unfold parseInt10, toString. cbn [skip_ws is_space].
    change (is_space "-") with false. cbn [strip_sign].
    rewrite (starts_with_digit_uint _ (to_uint_not_nil p)).
    now rewrite parse_to_uint.
Qed.

(** *** Splitting *)

Lemma append_cons (c : ascii) (s t : string) : String c s +:+ t = String c (s +:+ t).
Proof. reflexivity. Qed.

Lemma append_nil_l (s : string) : "" +:+ s = s.
Proof. reflexivity. Qed.

Lemma append_nil_r (s : string) : s +:+ "" = s.
Proof. induction s as [|c s IH]; [reflexivity|now rewrite append_cons, IH]. Qed.

Lemma append_assoc (a b c : string) : (a +:+ b) +:+ c = a +:+ (b +:+ c).
Proof.
  induction a as [|x a IH]; [reflexivity|].
  now rewrite !append_cons, IH.
Qed.

Lemma rev_string_app (a b : string) : rev_string b a = rev_string "" a +:+ b.
Proof.
  revert b. induction a as [|x a IH]; intros b; simpl; [reflexivity|].
  rewrite (IH (String x b)), (IH (String x "")).
  rewrite append_assoc. reflexivity.
Qed.

Lemma rev_string_twice (acc s : string) :
  rev_string "" (rev_string acc s) = rev_string "" acc +:+ s.
Proof.
  revert acc. induction s as [|c s IH]; intros acc; simpl.
  - now rewrite append_nil_r.
  - rewrite IH. simpl. rewrite (rev_string_app acc (String c "")).
    rewrite append_assoc. reflexivity.
Qed.

(** A piece that does not hold the first character of the separator is
    read to its end. *)
Lemma split_go_no_sep (c : ascii) (sep' s cur : string) :
  no_char c s = true ->
  split_go (String c sep') O cur s = [rev_string "" cur +:+ s].
Proof.
  revert cur. induction s as [|x s IH]; intros cur H; simpl.
  - now rewrite append_nil_r.
  - simpl in H. apply andb_prop in H as [Hx Hs].
    destruct (Ascii.eqb_spec c x) as [->|Hne].
    + rewrite Ascii.eqb_refl in Hx. discriminate.
    + destruct (ascii_dec c x) as [E|_]; [contradiction|].
      rewrite (IH _ Hs). simpl.
      rewrite (rev_string_app cur (String x "")).
      rewrite append_assoc. reflexivity.
Qed.

Lemma prefix_nil (s : string) : String.prefix "" s = true.
Proof. destruct s; reflexivity. Qed.

Lemma split_bearer (tok : string) :
  no_char " " tok = true ->
  nth_error (split " " ("Bearer " +:+ tok)) 1 = Some tok.
Proof.
  intros H. unfold split. rewrite !append_cons, append_nil_l.
  simpl. rewrite prefix_nil, (split_go_no_sep " " "" tok "" H).
  reflexivity.
Qed.

Lemma split_process (f : string) :
  no_char "/" f = true ->
  nth_error (split "/process/" ("/process/" +:+ f)) 1 = Some f.
Proof.
  intros H. unfold split. rewrite !append_cons, append_nil_l.
  simpl. rewrite prefix_nil. simpl.
  rewrite (split_go_no_sep "/" "process/" f "" H).
  reflexivity.
Qed.

Lemma includes_process (f : string) : includes "/process/" ("/process/" +:+ f) = true.
Proof.
  rewrite !append_cons, append_nil_l. simpl. now rewrite prefix_nil.
Qed.

Lemma truthy_Some (x : string) : x <> "" -> truthy (Some x) = true.
Proof.
  intros H. unfold truthy. destruct (String.eqb_spec x ""); [contradiction|reflexivity].
Qed.

Lemma eqb_false (x y : string) : x <> y -> String.eqb x y = false.
Proof. intros H. now apply String.eqb_neq. Qed.

End JsFacts.

(** ** The server middleware *)

Module ServerFacts.
Import Js Server JsFacts.
Import ServerScenarios.

Lemma refreshCalls_app (l1 l2 : list Call) :
  refreshCalls (l1 ++ l2) = (refreshCalls l1 + refreshCalls l2)%nat.
Proof. unfold refreshCalls. now rewrite List.filter_app, List.length_app. Qed.

Ltac solve_refresh H :=
  simpl; rewrite ?refreshCalls_app, ?H; unfold refreshCalls; simpl; lia.

Section Facts.

Variable usersGetCurrentAccount : string -> Result Account.
Variable getUserSession : string -> option UserSession.
Variable refreshAccessTokenIfNeeded : string -> Result RefreshResult.
Variable updateTokens : string -> string -> option string -> Z -> Result unit.

Abbreviation run :=
  (ensureValidToken usersGetCurrentAccount getUserSession
     refreshAccessTokenIfNeeded updateTokens).

Lemma bearer_token_of (tok : string) :
  no_char " " tok = true ->
  bearer_token (Some ("Bearer " +:+ tok)) = Some tok.
Proof. intros H. unfold bearer_token. now apply split_bearer. Qed.

(** A request that presents a bearer token and claims a user reaches the probe. *)
Lemma ensureValidToken_probe (req : Request) (tok claimed : string) :
  authorization req = Some ("Bearer " +:+ tok) ->
  no_char " " tok = true -> tok <> "" ->
  x_user_id req = Some claimed -> claimed <> "" ->
  run req =
    match usersGetCurrentAccount tok with
    | Ok currentAccount =>
        if negb (String.eqb (account_id currentAccount) claimed) then
          reject 403 {| error := Some "Account mismatch detected";
                        message := Some "Token does not belong to the specified user";
                        shouldReauth := Some true;
                        blockExecution := None; reason := None |}
                 [ProbeAccount tok]
        else
          {| response := None; nextCalled := true;
             req_accessToken := Some tok;
             req_currentAccountId := Some (account_id currentAccount);
             calls := [ProbeAccount tok; Next] |}
    | Throw _ =>
        refresh_path getUserSession refreshAccessTokenIfNeeded updateTokens
          claimed [ProbeAccount tok]
    end.
Proof.
  intros Hauth Hsp Htok Huid Hclaimed. unfold ensureValidToken.
  rewrite Hauth, Huid, (bearer_token_of tok Hsp).
  now rewrite (eqb_false tok "" Htok), (eqb_false claimed "" Hclaimed).
Qed.

(** C1. A request that presents a bearer token whose probed account id
    differs from the account id claimed in the X-User-ID header is
    answered with HTTP 403 and shouldReauth=true by [ensureValidToken],
    and the route handler is not invoked ([next] is never called). *)
Theorem ensureValidToken_rejects_spoofed_claim
    (req : Request) (tok claimed : string) (actual : Account) :
  authorization req = Some ("Bearer " +:+ tok) ->
  no_char " " tok = true -> tok <> "" ->
  x_user_id req = Some claimed -> claimed <> "" ->
  usersGetCurrentAccount tok = Ok actual ->
  account_id actual <> claimed ->
  let out := ensureValidToken usersGetCurrentAccount getUserSession
               refreshAccessTokenIfNeeded updateTokens req in
  (status <$> response out) = Some 403 /\
  (response out ≫= fun r => shouldReauth (body r)) = Some true /\
  (response out ≫= fun r => error (body r)) = Some "Account mismatch detected" /\
  nextCalled out = false /\
  ~ In Next (calls out) /\
  calls out = [ProbeAccount tok].
Proof.
  intros Hauth Hsp Htok Huid Hclaimed Hprobe Hne out. subst out.
  rewrite (ensureValidToken_probe req tok claimed Hauth Hsp Htok Huid Hclaimed).
  rewrite Hprobe, (eqb_false _ _ Hne). simpl.
  repeat split; try reflexivity.
  intros [H|[]]. discriminate H.
Qed.

(** C2. When the probe of the presented token fails and the refresh with
    the stored refresh token of the claimed user succeeds (new token
    obtained and stored), the request goes on to the handler with
    [req.currentAccountId] set to the claimed X-User-ID; the only
    identity probe of the run is the failed one of the presented token,
    made before the refresh: the refreshed token is not probed. *)
Theorem ensureValidToken_refresh_trusts_claim
    (req : Request) (tok claimed rt : string) (e : Thrown)
    (session : UserSession) (r : RefreshResult) :
  authorization req = Some ("Bearer " +:+ tok) ->
  no_char " " tok = true -> tok <> "" ->
  x_user_id req = Some claimed -> claimed <> "" ->
  usersGetCurrentAccount tok = Throw e ->
  getUserSession claimed = Some session ->
  refreshToken session = Some rt -> rt <> "" ->
  refreshAccessTokenIfNeeded rt = Ok r ->
  updateTokens claimed (newAccessToken r) (newRefreshToken r) 14400 = Ok tt ->
  let out := ensureValidToken usersGetCurrentAccount getUserSession
               refreshAccessTokenIfNeeded updateTokens req in
  response out = None /\
  nextCalled out = true /\
  req_currentAccountId out = Some claimed /\
  req_accessToken out = Some (newAccessToken r) /\
  calls out =
    [ProbeAccount tok; GetUserSession claimed; RefreshAccessToken rt;
     UpdateTokens claimed (newAccessToken r) (newRefreshToken r) 14400;
     SetHeader "X-New-Access-Token" (newAccessToken r); Next] /\
  probes (calls out) = [ProbeAccount tok].
Proof.
  intros Hauth Hsp Htok Huid Hclaimed Hprobe Hsess Hrt Hrtne Hrefresh Hupd out. subst out.
  rewrite (ensureValidToken_probe req tok claimed Hauth Hsp Htok Huid Hclaimed).
  rewrite Hprobe. unfold refresh_path.
  rewrite Hsess, Hrt, (eqb_false rt "" Hrtne), Hrefresh, Hupd. simpl.
  repeat split; reflexivity.
Qed.

(** The account comparison is made on a valid token only: a 403 answer
    comes from a run whose single call is a successful probe. *)
Lemma mismatch_only_after_valid_probe (req : Request) :
  (status <$> response (run req)) = Some 403 ->
  exists tok actual,
    usersGetCurrentAccount tok = Ok actual /\
    calls (run req) = [ProbeAccount tok].
Proof.
  unfold ensureValidToken.
  destruct (bearer_token (authorization req)) as [tok|]; [|discriminate].
  destruct (x_user_id req) as [uid|];
    destruct (String.eqb tok ""); cbn [negb]; try discriminate.
  destruct (String.eqb uid ""); cbn [negb]; try discriminate.
  destruct (usersGetCurrentAccount tok) as [a|e] eqn:Hprobe.
  - destruct (negb (String.eqb (account_id a) uid)); [|discriminate].
    intros _. now exists tok, a.
  - unfold refresh_path.
    destruct (getUserSession uid) as [session|]; [|discriminate].
    destruct (refreshToken session) as [rt|]; [|discriminate].
    destruct (negb (String.eqb rt "")); [|discriminate].
    destruct (refreshAccessTokenIfNeeded rt) as [r|e']; [|discriminate].
    destruct (updateTokens uid (newAccessToken r) (newRefreshToken r) 14400);
      discriminate.
Qed.

(** Whatever the request, the refresh is attempted at most once. *)
Lemma refresh_path_calls (user : string) (done : list Call) :
  refreshCalls done = 0%nat ->
  (refreshCalls
     (calls (refresh_path getUserSession refreshAccessTokenIfNeeded updateTokens user done))
   <= 1)%nat.
Proof.
  intros Hdone. unfold refresh_path.
  destruct (getUserSession user) as [session|]; [|solve_refresh Hdone].
  destruct (refreshToken session) as [rt|]; [|solve_refresh Hdone].
  destruct (String.eqb rt ""); simpl; [solve_refresh Hdone|].
  destruct (refreshAccessTokenIfNeeded rt) as [r|e]; [|solve_refresh Hdone].
  destruct (updateTokens user (newAccessToken r) (newRefreshToken r) 14400);
    solve_refresh Hdone.
Qed.

Lemma ensureValidToken_refreshes_once (req : Request) :
  (refreshCalls (calls (run req)) <= 1)%nat.
Proof.
  unfold ensureValidToken.
  destruct (bearer_token (authorization req)) as [tok|]; [|cbv; lia].
  destruct (x_user_id req) as [uid|];
    destruct (String.eqb tok ""); simpl; try (cbv; lia).
  destruct (String.eqb uid ""); simpl; try (cbv; lia).
  destruct (usersGetCurrentAccount tok) as [a|e].
  - destruct (String.eqb (account_id a) uid); cbv; lia.
  - now apply refresh_path_calls.
Qed.

(** A refresh that fails with an [invalid_grant] error is answered at
    once with 401, shouldReauth=true and reason [refresh_token_expired]. *)
Lemma ensureValidToken_invalid_grant
    (req : Request) (tok claimed rt m : string) (e : Thrown) (session : UserSession) :
  authorization req = Some ("Bearer " +:+ tok) ->
  no_char " " tok = true -> tok <> "" ->
  x_user_id req = Some claimed -> claimed <> "" ->
  usersGetCurrentAccount tok = Throw e ->
  getUserSession claimed = Some session ->
  refreshToken session = Some rt -> rt <> "" ->
  refreshAccessTokenIfNeeded rt = Throw (JsError m) ->
  includes "invalid_grant" m = true ->
  response (run req) =
    Some {| status := 401;
            body := {| error := Some "Refresh token expired";
                       message := Some "Please log in again";
                       shouldReauth := Some true;
                       blockExecution := None;
                       reason := Some "refresh_token_expired" |} |} /\
  nextCalled (run req) = false /\
  refreshCalls (calls (run req)) = 1%nat.
Proof.
  intros Hauth Hsp Htok Huid Hclaimed Hprobe Hsess Hrt Hrtne Hrefresh Hm.
  rewrite (ensureValidToken_probe req tok claimed Hauth Hsp Htok Huid Hclaimed).
  rewrite Hprobe. unfold refresh_path.
  rewrite Hsess, Hrt, (eqb_false rt "" Hrtne), Hrefresh. simpl.
  unfold refresh_token_error. rewrite Hm. simpl. repeat split; reflexivity.
Qed.

(** The helper [validateAccountMiddleware] answers the same spoofed
    claim with 401: every failed validation carries shouldReauth=true. *)
Lemma validateAccountMiddleware_mismatch_status
    (req : Request) (header claimed : string) (actual : Account) :
  authorization req = Some header -> header <> "" ->
  remove_first "Bearer " header <> "" ->
  x_user_id req = Some claimed -> claimed <> "" ->
  usersGetCurrentAccount (remove_first "Bearer " header) = Ok actual ->
  account_id actual <> claimed ->
  (status <$> response (validateAccountMiddleware usersGetCurrentAccount req)) = Some 401 /\
  nextCalled (validateAccountMiddleware usersGetCurrentAccount req) = false.
Proof.
  intros Hauth Hh Htok Huid Hclaimed Hprobe Hne.
  unfold validateAccountMiddleware, validateAccountTokenMatchDetailed.
  rewrite Hauth, Huid, (eqb_false header "" Hh), (truthy_Some claimed Hclaimed). simpl.
  rewrite (eqb_false _ "" Htok), (eqb_false claimed "" Hclaimed), Hprobe. simpl.
  rewrite (eqb_false _ _ Hne). simpl. split; reflexivity.
Qed.

End Facts.

Lemma ensureValidToken_rejects_spoofed_claim_witness :
  (status <$> response (ensureValidToken probeA noSession noRefresh storeOk spoofed)) = Some 403 /\
  (response (ensureValidToken probeA noSession noRefresh storeOk spoofed)
     ≫= fun r => shouldReauth (body r)) = Some true /\
  (response (ensureValidToken probeA noSession noRefresh storeOk spoofed)
     ≫= fun r => error (body r)) = Some "Account mismatch detected" /\
  nextCalled (ensureValidToken probeA noSession noRefresh storeOk spoofed) = false /\
  ~ In Next (calls (ensureValidToken probeA noSession noRefresh storeOk spoofed)) /\
  calls (ensureValidToken probeA noSession noRefresh storeOk spoofed) = [ProbeAccount "tokenA"].
Proof.
  apply (ensureValidToken_rejects_spoofed_claim probeA noSession noRefresh storeOk
           spoofed "tokenA" "dbid:B" accountA);
    first [reflexivity | discriminate].
Defined.

Lemma ensureValidToken_refresh_trusts_claim_witness :
  response (ensureValidToken probeExpired sessionB refreshOk storeOk expired) = None /\
  nextCalled (ensureValidToken probeExpired sessionB refreshOk storeOk expired) = true /\
  req_currentAccountId (ensureValidToken probeExpired sessionB refreshOk storeOk expired)
    = Some "dbid:B" /\
  req_accessToken (ensureValidToken probeExpired sessionB refreshOk storeOk expired)
    = Some "fresh" /\
  calls (ensureValidToken probeExpired sessionB refreshOk storeOk expired) =
    [ProbeAccount "stale"; GetUserSession "dbid:B"; RefreshAccessToken "rtB";
     UpdateTokens "dbid:B" "fresh" (Some "rtB") 14400;
     SetHeader "X-New-Access-Token" "fresh"; Next] /\
  probes (calls (ensureValidToken probeExpired sessionB refreshOk storeOk expired))
    = [ProbeAccount "stale"].
Proof.
  apply (ensureValidToken_refresh_trusts_claim probeExpired sessionB refreshOk storeOk
           expired "stale" "dbid:B" "rtB" (JsError "expired_access_token")
           {| userId := "dbid:B"; refreshToken := Some "rtB" |}
           {| newAccessToken := "fresh"; newRefreshToken := Some "rtB" |});
    first [reflexivity | discriminate].
Defined.

End ServerFacts.

(** ** Token expiry bookkeeping of authApi *)

Module AuthApiFacts.
Import Js Client AuthApi JsFacts.

Lemma toString_nonempty (z : Z) : toString z <> "".
Proof.
  destruct z as [|p|p]; simpl; try discriminate.
  pose proof (to_uint_not_nil p) as H.
  destruct (Pos.to_uint p); simpl; congruence.
Qed.

Lemma stored_expiry (t0 : Z) (tok : string) (expiresIn : option Z) (ls : gmap string string) :
  storeTokenWithExpiration t0 tok expiresIn ls !! "token_expires_at"
  = Some (toString (t0 + (default 14400 expiresIn - 300) * 1000)).
Proof. unfold storeTokenWithExpiration. now rewrite lookup_insert_eq. Qed.

(** The token stored at [t0] with lifetime [expiresIn] seconds counts as
    expiring from ten minutes before its expiry on: the five minutes
    taken off when it is stored and the five minutes added when it is
    tested. *)
Lemma expiring_iff (now t0 expiresIn : Z) (tok : string) (ls : gmap string string) :
  isTokenExpiredOrExpiring now (storeTokenWithExpiration t0 tok (Some expiresIn) ls)
  = (t0 + expiresIn * 1000 - 10 * 60 * 1000 <=? now).
Proof.
  unfold isTokenExpiredOrExpiring. rewrite stored_expiry.
  rewrite (truthy_Some _ (toString_nonempty _)). simpl.
  rewrite parseInt10_toString.
  destruct (Z.leb_spec (t0 + (expiresIn - 300) * 1000) (now + 5 * 60 * 1000));
    destruct (Z.leb_spec (t0 + expiresIn * 1000 - 10 * 60 * 1000) now);
    try reflexivity; lia.
Qed.

(** C10. The code at a failing input: a token stored at
    [t0 = 1700000000000] with a lifetime of 14400 s is reported as
    expiring ten minutes before its expiry, at a time that is earlier
    than expiry minus five minutes, where the claimed equivalence gives
    false. *)
Theorem expiring_ten_minutes_before_expiry :
  let t0 := 1700000000000 in
  let expiresIn := 14400 in
  let now := t0 + expiresIn * 1000 - 10 * 60 * 1000 in
  isTokenExpiredOrExpiring now (storeTokenWithExpiration t0 "token" (Some expiresIn) ∅) = true /\
  (now >=? (t0 + expiresIn * 1000) - 5 * 60 * 1000) = false.
Proof. split; vm_compute; reflexivity. Qed.

End AuthApiFacts.

(** ** Grace period of the validation hook *)

Module AccountValidationHookFacts.
Import Js Client AccountValidationHook JsFacts.
Import ClientScenarios.

Section Facts.

Variable usersGetCurrentAccount : string -> Result Account.

Abbreviation validate := (validateBeforeOperation usersGetCurrentAccount).

(** With a token and a user in the store, [validateCurrentAccount] asks
    the provider once. *)
Lemma validateCurrentAccount_probes (s : Store) (tok : string) (user : User) :
  accessToken s = Some tok -> tok <> "" -> userInfo s = Some user ->
  snd (validateCurrentAccount usersGetCurrentAccount s) = [usersGetCurrentAccountCall tok].
Proof.
  intros Htok Hne Huser. unfold validateCurrentAccount.
  rewrite Htok, Huser, (eqb_false tok "" Hne).
  destruct (usersGetCurrentAccount tok) as [a|e]; [|reflexivity].
  destruct (negb (String.eqb (account_id a) (userId user))); reflexivity.
Qed.

Lemma run_probes (s : Store) :
  snd (let '(validation, probes) := validateCurrentAccount usersGetCurrentAccount s in
       if negb (isValid validation)
       then (false, showAccountMismatch validation s, probes)
       else (true, s, probes))
  = snd (validateCurrentAccount usersGetCurrentAccount s).
Proof.
  destruct (validateCurrentAccount usersGetCurrentAccount s) as [v ps].
  destruct (negb (isValid v)); reflexivity.
Qed.

(** C3. While re-authentication is marked and less than five minutes
    have passed since the recorded time, [validateBeforeOperation
    ('USER_OPERATION')] returns true, leaves the store as it is and makes
    no network call.  Once five minutes or more have passed it clears
    the flag and runs the account validation, which asks the provider
    for the current account of the held token. *)
Theorem validateBeforeOperation_grace_period (s : Store) (now : Z) :
  recentlyReauthorized s = true ->
  lastReauthorizationTime s <> 0 ->
  (now - lastReauthorizationTime s < 5 * 60 * 1000 ->
     validateBeforeOperation usersGetCurrentAccount USER_OPERATION now s = (true, s, [])) /\
  (5 * 60 * 1000 <= now - lastReauthorizationTime s ->
     snd (validateBeforeOperation usersGetCurrentAccount USER_OPERATION now s)
       = snd (validateCurrentAccount usersGetCurrentAccount (setRecentlyReauthorized false s)) /\
     forall tok user,
       accessToken s = Some tok -> tok <> "" -> userInfo s = Some user ->
       snd (validateBeforeOperation usersGetCurrentAccount USER_OPERATION now s) = [usersGetCurrentAccountCall tok]).
Proof.
  intros Hre Hlast. unfold validateBeforeOperation. rewrite Hre.
  assert (Hz : (lastReauthorizationTime s =? 0) = false) by now apply Z.eqb_neq.
  rewrite Hz. simpl. unfold GRACE_PERIOD. split.
  - intros Hlt.
    destruct (Z.ltb_spec (now - lastReauthorizationTime s) (5 * 60 * 1000));
      [reflexivity|lia].
  - intros Hge.
    destruct (Z.ltb_spec (now - lastReauthorizationTime s) (5 * 60 * 1000)); [lia|].
    rewrite run_probes. split; [reflexivity|].
    intros tok user Htok Hne Huser.
    now apply (validateCurrentAccount_probes _ tok user).
Qed.

(** The other operation types never look at the grace period. *)
Lemma validateBeforeOperation_ignores_grace (op : OperationType) (s : Store) (now : Z) :
  op <> USER_OPERATION ->
  snd (validate op now s) = snd (validateCurrentAccount usersGetCurrentAccount s).
Proof.
  intros Hop. destruct op; try congruence; unfold validateBeforeOperation;
    apply run_probes.
Qed.

End Facts.

Lemma validateBeforeOperation_grace_period_witness :
  validateBeforeOperation probeOwnA USER_OPERATION (1700000000000 + 299999) reauthenticated
    = (true, reauthenticated, []) /\
  snd (validateBeforeOperation probeOwnA USER_OPERATION (1700000000000 + 300000) reauthenticated)
    = [usersGetCurrentAccountCall "tokenA"].
Proof.
  assert (Hre : recentlyReauthorized reauthenticated = true) by reflexivity.
  assert (Hlast : lastReauthorizationTime reauthenticated <> 0) by discriminate.
  split.
  - destruct (validateBeforeOperation_grace_period probeOwnA reauthenticated
                (1700000000000 + 299999) Hre Hlast) as [Hin _].
    apply Hin. change (lastReauthorizationTime reauthenticated) with 1700000000000. lia.
  - destruct (validateBeforeOperation_grace_period probeOwnA reauthenticated
                (1700000000000 + 300000) Hre Hlast) as [_ Hout].
    assert (Hge : 5 * 60 * 1000 <= 1700000000000 + 300000 - lastReauthorizationTime reauthenticated).
    { change (lastReauthorizationTime reauthenticated) with 1700000000000. lia. }
    destruct (Hout Hge) as [_ Hprobe].
    apply (Hprobe "tokenA" {| userId := "dbid:A"; email := "a@example.com"; name := "A" |});
      [reflexivity|discriminate|reflexivity].
Defined.

End AccountValidationHookFacts.

(** ** The client validators *)

Module AccountValidationFacts.
Import Js Client AccountValidation JsFacts.
Import ClientScenarios.

Section Facts.

Variable usersGetCurrentAccount : string -> Result Account.
Variable filesListFolder : string -> Result unit.
Variable usersGetSpaceUsage : string -> Result unit.

Abbreviation identity := (validateCurrentAccount usersGetCurrentAccount).
Abbreviation consistency :=
  (validateSessionConsistency usersGetCurrentAccount filesListFolder usersGetSpaceUsage).

Lemma functional_failure_invalid (r e : string) (basic : ValidationResult) :
  isValid (functional_failure r e basic) = false /\
  sessionMismatch (functional_failure r e basic) = Some true.
Proof. split; reflexivity. Qed.

(** C4. When the identity check passes and the folder listing or the
    space usage call then fails with any error, the verdict of
    [validateSessionConsistency] is a mismatch: [isValid] is false and
    [sessionMismatch] is set. *)
Theorem validateSessionConsistency_fails_closed (ls : gmap string string) :
  isValid (fst (validateCurrentAccount usersGetCurrentAccount ls)) = true ->
  ((exists e, filesListFolder (default "" (ls !! "access_token")) = Throw e) \/
   (exists e, usersGetSpaceUsage (default "" (ls !! "access_token")) = Throw e)) ->
  isValid (fst (validateSessionConsistency usersGetCurrentAccount filesListFolder
          usersGetSpaceUsage ls)) = false /\
  sessionMismatch (fst (validateSessionConsistency usersGetCurrentAccount filesListFolder
          usersGetSpaceUsage ls)) = Some true.
Proof.
  intros Hid Hfail. unfold validateSessionConsistency.
  destruct (negb (truthy (ls !! "access_token")) || negb (truthy (ls !! "user_id"))) eqn:Hcred.
  - unfold validateCurrentAccount in Hid. rewrite Hcred in Hid. discriminate Hid.
  - destruct (identity ls) as [basic cs0] eqn:Hbasic. simpl in Hid. rewrite Hid. simpl.
    destruct (filesListFolder (default "" (ls !! "access_token"))) as [u|listError] eqn:Hlist.
    + destruct (usersGetSpaceUsage (default "" (ls !! "access_token"))) as [v|spaceError] eqn:Hspace.
      * destruct Hfail as [[e He]|[e He]]; discriminate He.
      * apply functional_failure_invalid.
    + destruct (isError listError && includes "401" (default "" (message listError)));
        apply functional_failure_invalid.
Qed.

(** With every probe passing, the verdict is valid. *)
Lemma validateSessionConsistency_passes (ls : gmap string string) :
  isValid (fst (identity ls)) = true ->
  filesListFolder (default "" (ls !! "access_token")) = Ok tt ->
  usersGetSpaceUsage (default "" (ls !! "access_token")) = Ok tt ->
  isValid (fst (consistency ls)) = true.
Proof.
  intros Hid Hlist Hspace. unfold validateSessionConsistency.
  destruct (negb (truthy (ls !! "access_token")) || negb (truthy (ls !! "user_id"))) eqn:Hcred.
  - unfold validateCurrentAccount in Hid. rewrite Hcred in Hid. discriminate Hid.
  - destruct (identity ls) as [basic cs0] eqn:Hbasic. simpl in Hid. rewrite Hid. simpl.
    now rewrite Hlist, Hspace.
Qed.

(** A failed identity probe, whatever the error, is reported as an
    invalid session that needs re-authentication. *)
Lemma validateCurrentAccount_probe_failure
    (ls : gmap string string) (tok uid : string) (e : Thrown) :
  ls !! "access_token" = Some tok -> tok <> "" ->
  ls !! "user_id" = Some uid -> uid <> "" ->
  usersGetCurrentAccount tok = Throw e ->
  identity ls =
    ({| isValid := false;
        reason := Some "Token validation failed";
        error := message e;
        shouldShowBanner := None;
        shouldReauth := Some true;
        sessionMismatch := None;
        accountId := None; accountEmail := None; accountName := None |},
     [usersGetCurrentAccountCall tok]).
Proof.
  intros Htok Hne Huid Hune Hprobe. unfold validateCurrentAccount.
  rewrite Htok, Huid, (truthy_Some tok Hne), (truthy_Some uid Hune). simpl.
  now rewrite Hprobe.
Qed.

End Facts.

Lemma validateSessionConsistency_fails_closed_witness :
  isValid (fst (validateSessionConsistency identityA listingRefused usageOk credentialsA)) = false /\
  sessionMismatch (fst (validateSessionConsistency identityA listingRefused usageOk credentialsA))
    = Some true.
Proof.
  apply (validateSessionConsistency_fails_closed identityA listingRefused usageOk credentialsA).
  - vm_compute. reflexivity.
  - left. eexists. reflexivity.
Defined.

End AccountValidationFacts.

(** ** The fetch interceptor *)

Module AccountSwitchDetectionFacts.
Import Js Client AccountSwitchDetection.
Import ClientScenarios.

Lemma onResponse_ok (c : Z) (r : FetchResponse) :
  ok r = true -> onResponse c r = (0, []).
Proof.
  intros Hok. unfold onResponse. unfold ok in Hok.
  apply andb_prop in Hok as [H1 H2].
  apply Z.leb_le in H1, H2.
  destruct (Z.eqb_spec (status r) 409) as [E|_]; [lia|].
  unfold ok.
  destruct (Z.leb_spec 200 (status r)); [|lia].
  destruct (Z.leb_spec (status r) 299); [|lia].
  reflexivity.
Qed.

Lemma onResponse_ambiguous (c : Z) (r : FetchResponse) :
  ambiguous4xx r = true -> onResponse c r = (c, []).
Proof.
  intros H. unfold ambiguous4xx in H.
  apply andb_prop in H as [H Hnot]. apply andb_prop in H as [H1 H2].
  apply Z.leb_le in H1, H2. unfold onResponse.
  destruct (Z.eqb_spec (status r) 409) as [E|_].
  - simpl in Hnot. apply negb_true_iff in Hnot. now rewrite Hnot.
  - unfold ok. destruct (Z.leb_spec (status r) 299); [lia|].
    now rewrite andb_false_r.
Qed.

(** C9. Any successful response sets the counter of the fetch
    interceptor back to zero; and for two 4xx responses without the
    resource-not-found signature, then a successful response, then one
    more such 4xx response, whatever the counter was before, the counter
    ends at zero, below the threshold of 2, and no event is dispatched. *)
Theorem counter_resets_on_success :
  (forall (c : Z) (r : FetchResponse), ok r = true -> fst (onResponse c r) = 0) /\
  (forall (c : Z) (r1 r2 r3 r4 : FetchResponse),
      ambiguous4xx r1 = true -> ambiguous4xx r2 = true ->
      ok r3 = true ->
      ambiguous4xx r4 = true ->
      onResponses c [r1; r2; r3; r4] = (0, [])).
Proof.
  split.
  - intros c r Hok. now rewrite onResponse_ok.
  - intros c r1 r2 r3 r4 H1 H2 H3 H4. simpl.
    rewrite (onResponse_ambiguous c r1 H1), (onResponse_ambiguous c r2 H2).
    rewrite (onResponse_ok c r3 H3), (onResponse_ambiguous 0 r4 H4).
    reflexivity.
Qed.

(** The responses the counter does count are the 409 responses with the
    [path/not_found] summary: the second of two in a row dispatches the
    event and resets the counter, and a success between two of them
    keeps the counter at one. *)
Lemma two_cross_account_errors_fire :
  onResponses 0 [crossAccount409; crossAccount409] =
    (0, [accountSwitchDetected
           {| switch_source := "fetch-interceptor";
              errorCount := Some 2;
              switch_error := Some "Multiple cross-account 409 errors detected" |}]).
Proof. reflexivity. Qed.

Lemma success_between_cross_account_errors :
  onResponses 0 [crossAccount409; success200; crossAccount409] = (1, []).
Proof. reflexivity. Qed.

Lemma counter_resets_on_success_witness :
  fst (onResponse 1 success200) = 0 /\
  onResponses 1 [badRequest400; badRequest400; success200; badRequest400] = (0, []).
Proof.
  destruct counter_resets_on_success as [Hreset Hrun]. split.
  - apply (Hreset 1 success200). reflexivity.
  - apply (Hrun 1 badRequest400 badRequest400 success200 badRequest400); reflexivity.
Defined.

End AccountSwitchDetectionFacts.

(** ** Probe failures in the detectors *)

Module ProbeFailureFacts.
Import Js Client JsFacts.
Import ClientScenarios.

Section Facts.

Variable usersGetCurrentAccount : string -> Result Account.
Variable parseUserInfo : string -> option User.

Abbreviation immediate :=
  (ImmediateValidation.triggerImmediateAccountValidation usersGetCurrentAccount parseUserInfo).
Abbreviation comprehensive :=
  (ComprehensiveCheck.triggerComprehensiveAccountCheck usersGetCurrentAccount parseUserInfo).

Lemma graceCheck_unmarked (now : Z) (ls : gmap string string) :
  ls !! "recentlyReauthorized" <> Some "true" ->
  ImmediateValidation.graceCheck now ls = Some ls.
Proof.
  intros H. unfold ImmediateValidation.graceCheck.
  rewrite bool_decide_eq_false_2 by exact H. reflexivity.
Qed.

Lemma immediate_probe_failure
    (ignoreGracePeriod : bool) (now : Z) (ls : gmap string string)
    (tok uid : string) (e : Thrown) :
  ignoreGracePeriod = true \/ ls !! "recentlyReauthorized" <> Some "true" ->
  ls !! "access_token" = Some tok -> tok <> "" ->
  ls !! "user_id" = Some uid -> uid <> "" ->
  usersGetCurrentAccount tok = Throw e ->
  immediate ignoreGracePeriod now ls =
    (Some false, ls,
     [accountMismatch
        {| accountEmail := Some "Validation failed";
           accountId := Some "unknown";
           accountName := None; storedEmail := None; storedId := None;
           detail_error :=
             Some (default "Immediate validation failed" (or_else (message e) None));
           source := "immediate-validation-error";
           confirmed := false |}],
     [tok]).
Proof.
  intros Hgrace Htok Hne Huid Hune Hprobe.
  unfold ImmediateValidation.triggerImmediateAccountValidation.
  assert (Hls : (if ignoreGracePeriod then Some ls
                 else ImmediateValidation.graceCheck now ls) = Some ls).
  { destruct Hgrace as [-> | Hg]; [reflexivity|].
    destruct ignoreGracePeriod; [reflexivity|now apply graceCheck_unmarked]. }
  rewrite Hls, Htok, Huid, (truthy_Some tok Hne), (truthy_Some uid Hune). simpl.
  now rewrite Hprobe.
Qed.

Lemma comprehensive_probe_failure
    (ls : gmap string string) (tok uid info : string) (e : Thrown) :
  ls !! "access_token" = Some tok -> tok <> "" ->
  ls !! "user_id" = Some uid -> uid <> "" ->
  ls !! "user_info" = Some info -> info <> "" ->
  usersGetCurrentAccount tok = Throw e ->
  exists d,
    comprehensive ls = (false, [accountMismatch d], [tok]) /\
    confirmed d = true /\ source d = "comprehensive-check".
Proof.
  intros Htok Hne Huid Hune Hinfo Hine Hprobe.
  unfold ComprehensiveCheck.triggerComprehensiveAccountCheck,
    ComprehensiveCheck.performComprehensiveAccountCheck.
  rewrite Htok, Huid, Hinfo, (truthy_Some tok Hne), (truthy_Some uid Hune),
    (truthy_Some info Hine). simpl.
  destruct (parseUserInfo info) as [u|]; rewrite Hprobe; simpl;
    eexists; repeat split; reflexivity.
Qed.

(** C5, as the code has it.  A probe that fails because the provider is
    unreachable is handled like every other probe failure: with
    credentials stored, [triggerImmediateAccountValidation] (when the
    grace period does not apply) and [triggerComprehensiveAccountCheck]
    dispatch the [accountMismatch] event, the second marked confirmed,
    and return false, and [validateCurrentAccount] reports an invalid
    session with shouldReauth=true.  The validators leave the browser
    storage, and so the stored credentials, as they are. *)
Theorem probe_failure_raises_mismatch
    (ignoreGracePeriod : bool) (now : Z) (ls : gmap string string)
    (tok uid info : string) (e : Thrown) :
  ignoreGracePeriod = true \/ ls !! "recentlyReauthorized" <> Some "true" ->
  ls !! "access_token" = Some tok -> tok <> "" ->
  ls !! "user_id" = Some uid -> uid <> "" ->
  ls !! "user_info" = Some info -> info <> "" ->
  usersGetCurrentAccount tok = Throw e ->
  (exists d,
      ImmediateValidation.triggerImmediateAccountValidation usersGetCurrentAccount
        parseUserInfo ignoreGracePeriod now ls = (Some false, ls, [accountMismatch d], [tok]) /\
      source d = "immediate-validation-error") /\
  (exists d,
      ComprehensiveCheck.triggerComprehensiveAccountCheck usersGetCurrentAccount
        parseUserInfo ls = (false, [accountMismatch d], [tok]) /\
      confirmed d = true /\ source d = "comprehensive-check") /\
  (AccountValidation.isValid
     (fst (AccountValidation.validateCurrentAccount usersGetCurrentAccount ls)) = false /\
   AccountValidation.shouldReauth
     (fst (AccountValidation.validateCurrentAccount usersGetCurrentAccount ls)) = Some true).
Proof.
  intros Hgrace Htok Hne Huid Hune Hinfo Hine Hprobe. split; [|split].
  - eexists. split.
    + now apply (immediate_probe_failure ignoreGracePeriod now ls tok uid e).
    + reflexivity.
  - now apply (comprehensive_probe_failure ls tok uid info e).
  - rewrite (AccountValidationFacts.validateCurrentAccount_probe_failure
               usersGetCurrentAccount ls tok uid e Htok Hne Huid Hune Hprobe).
    split; reflexivity.
Qed.

End Facts.

(** C5, as stated, fails: the unreachable provider makes the immediate
    validation dispatch the mismatch event. *)
Lemma unreachable_provider_raises_mismatch :
  ImmediateValidation.triggerImmediateAccountValidation unreachable parseNothing
    true 1700000000000 storedA
  = (Some false, storedA,
     [accountMismatch
        {| accountEmail := Some "Validation failed";
           accountId := Some "unknown";
           accountName := None; storedEmail := None; storedId := None;
           detail_error := Some "Failed to fetch";
           source := "immediate-validation-error";
           confirmed := false |}],
     ["tokenA"]).
Proof. vm_compute. reflexivity. Qed.

Lemma probe_failure_raises_mismatch_witness :
  (exists d,
      ImmediateValidation.triggerImmediateAccountValidation unreachable parseNothing
        true 1700000000000 storedA
      = (Some false, storedA, [accountMismatch d], ["tokenA"]) /\
      source d = "immediate-validation-error") /\
  (exists d,
      ComprehensiveCheck.triggerComprehensiveAccountCheck unreachable parseNothing storedA
      = (false, [accountMismatch d], ["tokenA"]) /\
      confirmed d = true /\ source d = "comprehensive-check") /\
  (AccountValidation.isValid
     (fst (AccountValidation.validateCurrentAccount unreachable storedA)) = false /\
   AccountValidation.shouldReauth
     (fst (AccountValidation.validateCurrentAccount unreachable storedA)) = Some true).
Proof.
  apply (probe_failure_raises_mismatch unreachable parseNothing true 1700000000000 storedA
           "tokenA" "dbid:A" "{}" networkError);
    first [now left | discriminate | vm_compute; reflexivity | reflexivity].
Defined.

End ProbeFailureFacts.

(** ** Intent preservation across re-authentication *)

Module RecoveryFacts.
Import Js Client Layout UseAuth Recovery JsFacts.
Import ClientScenarios.

Ltac lookups :=
  repeat first
    [ rewrite lookup_insert_eq
    | rewrite lookup_delete_eq
    | rewrite lookup_insert_ne by discriminate
    | rewrite lookup_delete_ne by discriminate ].

Lemma currentFileId_on_process_route (d : option string) (f : string) :
  f <> "" -> no_char "/" f = true ->
  d = None \/ d = Some f ->
  currentFileIdOf d ("/process/" +:+ f) = Some f.
Proof.
  intros Hne Hslash [-> | ->]; unfold currentFileIdOf, or_else.
  - change (truthy None) with false. cbn iota.
    now rewrite includes_process, split_process.
  - now rewrite (truthy_Some f Hne).
Qed.

Lemma retrieve_stored_pkce (codeVerifier state : string) (ss : gmap string string) :
  codeVerifier <> "" -> state <> "" ->
  retrievePKCEParams (storePKCEParams codeVerifier state ss) = Some (codeVerifier, state).
Proof.
  intros Hv Hs. unfold retrievePKCEParams, storePKCEParams. lookups.
  now rewrite (truthy_Some _ Hv), (truthy_Some _ Hs).
Qed.

(** The mismatch handler when the file in hand is known from the direct
    file id or from the route. *)
Lemma mismatch_with_file (d : MismatchDetail) (a : App) (f : string) :
  currentFileIdOf (directFileId (store a)) (pathname a) = Some f -> f <> "" ->
  savedIntent (store (handleAccountMismatch d a))
    = Some {| route := Some (pathname a); fileId := Some f; action := Some processing |} /\
  localStorage (handleAccountMismatch d a) = <["pending_file_id" := f]> (localStorage a) /\
  pathname (handleAccountMismatch d a) = pathname a /\
  directFileId (store (handleAccountMismatch d a)) = directFileId (store a) /\
  selectedImage (store (handleAccountMismatch d a)) = None /\
  showAccountMismatchBanner (store (handleAccountMismatch d a)) = true.
Proof.
  intros Hcur Hne. unfold handleAccountMismatch, handleAccountMismatchIn, render.
  cbn [r_directFileId r_selectedImage r_userInfo r_pathname]. rewrite Hcur.
  unfold or_else. rewrite (truthy_Some f Hne). cbn [orb].
  rewrite (truthy_Some f Hne). repeat split; reflexivity.
Qed.

(** The mismatch handler when neither the direct file id nor the route
    names a file. *)
Lemma mismatch_without_file (d : MismatchDetail) (a : App) :
  truthy (currentFileIdOf (directFileId (store a)) (pathname a)) = false ->
  hasSelectedImageOf (selectedImage (store a)) = false ->
  savedIntent (store (handleAccountMismatch d a))
    = Some {| route := None; fileId := None; action := Some selection |} /\
  localStorage (handleAccountMismatch d a) = localStorage a.
Proof.
  intros Hcur Hsel. unfold handleAccountMismatch, handleAccountMismatchIn, render.
  cbn [r_directFileId r_selectedImage r_userInfo r_pathname]. rewrite Hcur, Hsel.
  split; reflexivity.
Qed.

Lemma mismatch_frame (d : MismatchDetail) (a : App) :
  pathname (handleAccountMismatch d a) = pathname a /\
  directFileId (store (handleAccountMismatch d a)) = directFileId (store a) /\
  selectedImage (store (handleAccountMismatch d a)) = None /\
  showAccountMismatchBanner (store (handleAccountMismatch d a)) = true.
Proof.
  unfold handleAccountMismatch, handleAccountMismatchIn, render.
  cbn [r_directFileId r_selectedImage r_userInfo r_pathname].
  destruct (truthy (currentFileIdOf (directFileId (store a)) (pathname a))
            || hasSelectedImageOf (selectedImage (store a)));
    repeat split; reflexivity.
Qed.

Lemma fix_keeps_pending (t1 t2 : Z) (a : App) (f : string) :
  currentFileIdOf (directFileId (store a)) (pathname a) = Some f -> f <> "" ->
  localStorage (handleFixAccountMismatch t1 t2 a) !! "pending_file_id" = Some f.
Proof.
  intros Hcur Hne. unfold handleFixAccountMismatch. rewrite Hcur.
  unfold or_else. rewrite !(truthy_Some f Hne). cbn [orb].
  cbn [localStorage removeItems fold_right default]. now lookups.
Qed.

Section Facts.

Variable stringifyUser : User -> string.
Variable exchangeToken : string -> string -> string -> Result Exchange.

Abbreviation flow := (reauthenticate stringifyUser exchangeToken).

(** The callback after a page load, with the PKCE parameters of the
    login in place and a pending file id stored. *)
Lemma callback_restores_pending
    (code state codeVerifier f : string) (t3 t4 : Z) (ex : Exchange)
    (ls ss : gmap string string) :
  retrievePKCEParams ss = Some (codeVerifier, state) ->
  exchangeToken code state codeVerifier = Ok ex ->
  ls !! "pending_file_id" = Some f -> f <> "" ->
  let final := handleOAuthCallback stringifyUser exchangeToken code state t3 t4
                 {| store := initialStore; localStorage := ls;
                    sessionStorage := ss; pathname := "/auth" |} in
  pathname final = "/process/" +:+ f /\
  directFileId (store final) = Some f /\
  isAuthenticated (store final) = true /\
  savedIntent (store final) = None /\
  localStorage final !! "pending_file_id" = None.
Proof.
  intros Hpkce Hex Hpending Hne. unfold handleOAuthCallback.
  cbn [store localStorage sessionStorage pathname].
  rewrite Hpkce, String.eqb_refl. cbn [negb]. rewrite Hex.
  set (ls3 := (if truthy (ex_refreshToken ex) then _ else _) : gmap string string).
  assert (Hls3 : ls3 !! "pending_file_id" = Some f).
  { subst ls3. unfold AuthApi.storeTokenWithExpiration.
    destruct (truthy (ex_refreshToken ex)); lookups; exact Hpending. }
  lookups. rewrite Hls3, (truthy_Some f Hne).
  cbn [store localStorage sessionStorage pathname default].
  repeat split; try reflexivity. now lookups.
Qed.

(** C6. A user is on route [/process/F]; a mismatch event arrives, the
    fix action is taken and re-authentication succeeds.  The mismatch
    handler captures the intent for file [F]; after the callback the
    route is [/process/F] again, the store has no saved intent and the
    stored pending file id is gone. *)
Theorem intent_round_trip
    (f : string) (d : MismatchDetail) (t1 t2 t3 t4 : Z)
    (codeVerifier state code : string) (ex : Exchange) (a : App) :
  pathname a = "/process/" +:+ f ->
  f <> "" -> no_char "/" f = true ->
  directFileId (store a) = None \/ directFileId (store a) = Some f ->
  codeVerifier <> "" -> state <> "" ->
  exchangeToken code state codeVerifier = Ok ex ->
  savedIntent (store (handleAccountMismatch d a))
    = Some {| route := Some ("/process/" +:+ f); fileId := Some f;
              action := Some processing |} /\
  pathname (reauthenticate stringifyUser exchangeToken d t1 t2 t3 t4 codeVerifier state code a) = "/process/" +:+ f /\
  directFileId (store (reauthenticate stringifyUser exchangeToken d t1 t2 t3 t4 codeVerifier state code a)) = Some f /\
  isAuthenticated (store (reauthenticate stringifyUser exchangeToken d t1 t2 t3 t4 codeVerifier state code a)) = true /\
  savedIntent (store (reauthenticate stringifyUser exchangeToken d t1 t2 t3 t4 codeVerifier state code a)) = None /\
  localStorage (reauthenticate stringifyUser exchangeToken d t1 t2 t3 t4 codeVerifier state code a) !! "pending_file_id" = None.
Proof.
  intros Hpath Hne Hslash Hdirect Hv Hs Hex.
  pose proof (currentFileId_on_process_route _ f Hne Hslash Hdirect) as Hcur.
  rewrite <- Hpath in Hcur.
  destruct (mismatch_with_file d a f Hcur Hne) as (Hintent & _ & Hpath1 & Hdir1 & _).
  split; [now rewrite Hintent, Hpath|].
  assert (Hcur1 : currentFileIdOf (directFileId (store (handleAccountMismatch d a)))
                    (pathname (handleAccountMismatch d a)) = Some f)
    by now rewrite Hdir1, Hpath1.
  pose proof (fix_keeps_pending t1 t2 _ f Hcur1 Hne) as Hpending.
  unfold reauthenticate, handleLogin, pageLoad.
  cbn [store localStorage sessionStorage pathname directFileId initialStore].
  change (truthy None) with false. cbn iota.
  apply (callback_restores_pending code state codeVerifier f t3 t4 ex); try assumption.
  now apply retrieve_stored_pkce.
Qed.

End Facts.

Lemma intent_round_trip_witness :
  savedIntent (store (handleAccountMismatch confirmedMismatch processingF))
    = Some {| route := Some "/process/id:F"; fileId := Some "id:F";
              action := Some processing |} /\
  pathname (reauthenticate stringifyA exchangeB confirmedMismatch 10 11 20 21
              "verifier" "state" "code" processingF) = "/process/id:F" /\
  directFileId (store (reauthenticate stringifyA exchangeB confirmedMismatch 10 11 20 21
                         "verifier" "state" "code" processingF)) = Some "id:F" /\
  isAuthenticated (store (reauthenticate stringifyA exchangeB confirmedMismatch 10 11 20 21
                            "verifier" "state" "code" processingF)) = true /\
  savedIntent (store (reauthenticate stringifyA exchangeB confirmedMismatch 10 11 20 21
                        "verifier" "state" "code" processingF)) = None /\
  localStorage (reauthenticate stringifyA exchangeB confirmedMismatch 10 11 20 21
                  "verifier" "state" "code" processingF) !! "pending_file_id" = None.
Proof.
  apply (intent_round_trip stringifyA exchangeB "id:F" confirmedMismatch 10 11 20 21
           "verifier" "state" "code"
           {| ex_user := {| userId := "dbid:B"; email := "b@example.com"; name := "B" |};
              ex_accessToken := "tokenB"; ex_refreshToken := Some "refreshB" |}
           processingF);
    first [reflexivity | discriminate | now left].
Defined.

(** *** Repeated mismatch events *)

(** With a render between them, the second event runs the listener on
    the state the first has left. *)
Lemma twoMismatchEvents_rendered (d1 d2 : MismatchDetail) (a : App) :
  twoMismatchEvents true d1 d2 a = handleAccountMismatch d2 (handleAccountMismatch d1 a).
Proof. reflexivity. Qed.

(** In one task the second run reads what the first has read, and
    writes over what the first has written. *)
Lemma twoMismatchEvents_same_task (d1 d2 : MismatchDetail) (a : App) :
  twoMismatchEvents false d1 d2 a = handleAccountMismatch d2 a.
Proof.
  unfold twoMismatchEvents, handleAccountMismatch, handleAccountMismatchIn.
  destruct (truthy (currentFileIdOf (r_directFileId (render a)) (r_pathname (render a)))
            || hasSelectedImageOf (r_selectedImage (render a))); [|reflexivity].
  destruct (truthy (or_else (currentFileIdOf (r_directFileId (render a))
                               (r_pathname (render a)))
                      (id <$> r_selectedImage (render a)))); [|reflexivity].
  cbn [store localStorage sessionStorage pathname]. f_equal.
  apply insert_insert_eq.
Qed.

Lemma mismatch_same_intent (d1 d2 : MismatchDetail) (a : App) :
  savedIntent (store (handleAccountMismatch d2 a))
    = savedIntent (store (handleAccountMismatch d1 a)) /\
  localStorage (handleAccountMismatch d2 a) = localStorage (handleAccountMismatch d1 a).
Proof.
  unfold handleAccountMismatch, handleAccountMismatchIn.
  destruct (truthy (currentFileIdOf (r_directFileId (render a)) (r_pathname (render a)))
            || hasSelectedImageOf (r_selectedImage (render a))); split; reflexivity.
Qed.

(** C7, as the code has it.  The mismatch handler has no test for a
    mismatch already being handled: every event runs it in full, on the
    direct file id, the selected image, the user and the route of the
    last render.  After two events the banner flag is set, a single flag
    for a single banner.  When both events arrive in one task, the
    second run leaves the state that the second event alone would have
    left: the intent and the storage are those of the first run, the
    banner text is that of the second event.  When a render separates
    them, the second run sees the selected image cleared by the first:
    when the direct file id or a [/process/<id>] route names the file it
    captures the same intent as the first and the storage is the same;
    when they do not, it replaces the captured intent by the selection
    intent, while the pending file id that the first run stored
    stays. *)
Theorem repeated_mismatch_recaptures_intent (d1 d2 : MismatchDetail) (a : App) :
  (forall renderBetween,
      showAccountMismatchBanner (store (twoMismatchEvents renderBetween d1 d2 a)) = true) /\
  twoMismatchEvents false d1 d2 a = handleAccountMismatch d2 a /\
  savedIntent (store (twoMismatchEvents false d1 d2 a))
    = savedIntent (store (handleAccountMismatch d1 a)) /\
  localStorage (twoMismatchEvents false d1 d2 a) = localStorage (handleAccountMismatch d1 a) /\
  (forall f,
      currentFileIdOf (directFileId (store a)) (pathname a) = Some f -> f <> "" ->
      savedIntent (store (twoMismatchEvents true d1 d2 a))
        = savedIntent (store (handleAccountMismatch d1 a)) /\
      localStorage (twoMismatchEvents true d1 d2 a)
        = localStorage (handleAccountMismatch d1 a)) /\
  (truthy (currentFileIdOf (directFileId (store a)) (pathname a)) = false ->
      savedIntent (store (twoMismatchEvents true d1 d2 a))
        = Some {| route := None; fileId := None; action := Some selection |} /\
      localStorage (twoMismatchEvents true d1 d2 a)
        = localStorage (handleAccountMismatch d1 a)).
Proof.
  destruct (mismatch_frame d1 a) as (Hpath1 & Hdir1 & Hsel1 & _).
  destruct (mismatch_same_intent d1 d2 a) as (Hi & Hls).
  split; [|split; [|split; [|split; [|split]]]].
  - intros [|].
    + rewrite twoMismatchEvents_rendered. apply mismatch_frame.
    + rewrite twoMismatchEvents_same_task. apply mismatch_frame.
  - apply twoMismatchEvents_same_task.
  - rewrite twoMismatchEvents_same_task. exact Hi.
  - rewrite twoMismatchEvents_same_task. exact Hls.
  - intros f Hcur Hne. rewrite twoMismatchEvents_rendered.
    destruct (mismatch_with_file d1 a f Hcur Hne) as (Hi1 & Hls1 & _).
    assert (Hcur1 : currentFileIdOf (directFileId (store (handleAccountMismatch d1 a)))
                      (pathname (handleAccountMismatch d1 a)) = Some f)
      by now rewrite Hdir1, Hpath1.
    destruct (mismatch_with_file d2 _ f Hcur1 Hne) as (Hi2 & Hls2 & _).
    rewrite Hi2, Hi1, Hls2, Hls1, Hpath1. split; [reflexivity|].
    apply insert_insert_eq.
  - intros Hcur. rewrite twoMismatchEvents_rendered.
    apply mismatch_without_file.
    + now rewrite Hdir1, Hpath1.
    + now rewrite Hsel1.
Qed.

(** C7, as stated, fails.  An image is selected on [/process]; the
    interceptor's event is followed by the confirmed one of the
    immediate validation, which is dispatched after the provider has
    answered and so after a render: the second event is not a no-op, it
    replaces the intent captured by the first. *)
Lemma second_mismatch_overwrites_intent :
  savedIntent (store (handleAccountMismatch interceptedMismatch selectedF))
    = Some {| route := Some "/process"; fileId := Some "id:F"; action := Some processing |} /\
  savedIntent (store (twoMismatchEvents true interceptedMismatch confirmedMismatch selectedF))
    = Some {| route := None; fileId := None; action := Some selection |} /\
  twoMismatchEvents true interceptedMismatch confirmedMismatch selectedF
    <> handleAccountMismatch interceptedMismatch selectedF.
Proof.
  split; [reflexivity|]. split; [reflexivity|].
  intros H. apply (f_equal (fun x => savedIntent (store x))) in H.
  discriminate H.
Qed.

Lemma repeated_mismatch_recaptures_intent_witness :
  showAccountMismatchBanner
    (store (twoMismatchEvents true interceptedMismatch confirmedMismatch processingF)) = true /\
  twoMismatchEvents false interceptedMismatch missingCredentials selectedF
    = handleAccountMismatch missingCredentials selectedF /\
  savedIntent (store (twoMismatchEvents false interceptedMismatch missingCredentials selectedF))
    = Some {| route := Some "/process"; fileId := Some "id:F"; action := Some processing |} /\
  savedIntent (store (twoMismatchEvents true interceptedMismatch confirmedMismatch processingF))
    = savedIntent (store (handleAccountMismatch interceptedMismatch processingF)) /\
  savedIntent (store (twoMismatchEvents true interceptedMismatch confirmedMismatch selectedF))
    = Some {| route := None; fileId := None; action := Some selection |}.
Proof.
  destruct (repeated_mismatch_recaptures_intent interceptedMismatch confirmedMismatch processingF)
    as (Hbanner & _ & _ & _ & Hfile & _).
  destruct (repeated_mismatch_recaptures_intent interceptedMismatch confirmedMismatch selectedF)
    as (_ & _ & _ & _ & _ & Hnone).
  destruct (repeated_mismatch_recaptures_intent interceptedMismatch missingCredentials selectedF)
    as (_ & Hsame & Hkept & _).
  split; [apply Hbanner|]. split; [exact Hsame|]. split; [|split].
  - rewrite Hkept. reflexivity.
  - apply (Hfile "id:F"); [reflexivity|discriminate].
  - apply Hnone. reflexivity.
Defined.

End RecoveryFacts.

(** ** Retrying the refresh at start-up *)

Module RestoreFacts.
Import Js Client UseAuth JsFacts.
Import ClientScenarios.

Lemma refreshAttempts_app (l1 l2 : list InitStep) :
  refreshAttempts (l1 ++ l2) = (refreshAttempts l1 + refreshAttempts l2)%nat.
Proof. unfold refreshAttempts. now rewrite List.filter_app, List.length_app. Qed.

Lemma attempts_one (tr : list InitStep) (n : nat) :
  refreshAttempts (tr ++ [RefreshAttempt n]) = S (refreshAttempts tr).
Proof. rewrite refreshAttempts_app. unfold refreshAttempts at 2. simpl. lia. Qed.

Lemma attempts_health (tr : list InitStep) (n : nat) :
  refreshAttempts (tr ++ [RefreshAttempt n; HealthCheck]) = S (refreshAttempts tr).
Proof. rewrite refreshAttempts_app. unfold refreshAttempts at 2. simpl. lia. Qed.

Lemma attempts_wait (tr : list InitStep) (n : nat) (ms : Z) :
  refreshAttempts (tr ++ [RefreshAttempt n; Wait ms]) = S (refreshAttempts tr).
Proof. rewrite refreshAttempts_app. unfold refreshAttempts at 2. simpl. lia. Qed.

Lemma attempts_clear (tr : list InitStep) :
  refreshAttempts (tr ++ [ClearAuth]) = refreshAttempts tr.
Proof. rewrite refreshAttempts_app. unfold refreshAttempts at 2. simpl. lia. Qed.

Lemma refreshToken_failed (now : Z) (server : AuthApi.RefreshFetch) (ls : gmap string string) :
  failed server = true ->
  fst (AuthApi.refreshToken now server ls) = (None, ls).
Proof.
  intros H. unfold AuthApi.refreshToken.
  destruct (negb (truthy (ls !! "refresh_token")) || negb (truthy (ls !! "user_id")));
    [reflexivity|].
  destruct server; try reflexivity. discriminate H.
Qed.

Section Facts.

Variable attempt : nat -> Attempt.
Variable clock : nat -> Z.
Variable health : Health.
Variable validateToken : string -> bool.
Variable serverReachable : bool.
Variable parseUserInfo : string -> option (option User).

Abbreviation loop := (refreshLoop attempt clock health parseUserInfo).
Abbreviation restore :=
  (initializeFromStorage attempt clock health validateToken serverReachable parseUserInfo).

(** The loop makes at most [remaining] further attempts. *)
Lemma refreshLoop_bound (remaining n : nat) (info : option string)
    (ls : gmap string string) (trace : list InitStep) :
  (refreshAttempts (snd (loop remaining n info ls trace))
   <= refreshAttempts trace + remaining)%nat.
Proof.
  revert n ls trace. induction remaining as [|k IH]; intros n ls trace;
    cbn [refreshLoop]; [cbn [snd]; lia|].
  destruct (attempt (S n)) as [server|].
  - destruct (AuthApi.refreshToken (clock (S n)) server ls) as [[result ls1] b].
    destruct result as [t|].
    + cbn [snd]. rewrite attempts_one. lia.
    + etransitivity; [apply IH|]. rewrite attempts_one. lia.
  - destruct (Nat.eqb (S n) maxAttempts).
    + destruct health.
      * cbn [snd]. rewrite attempts_health. lia.
      * etransitivity; [apply IH|]. rewrite attempts_health. lia.
      * destruct (truthy info).
        -- destruct (parseUserInfo (default "" info)); cbn [snd];
             rewrite attempts_health; lia.
        -- etransitivity; [apply IH|]. rewrite attempts_health. lia.
    + etransitivity; [apply IH|]. rewrite attempts_wait. lia.
Qed.

Lemma loop_all_timeouts (info : option string) (ls : gmap string string) :
  (forall n, attempt n = TimedOut) ->
  loop maxAttempts 0 info ls [] =
    (match health with
     | HealthThrows =>
         if truthy info
         then match parseUserInfo (default "" info) with
              | Some _ => KeepCredentials
              | None => ParseThrew
              end
         else Exhausted
     | _ => Exhausted
     end,
     ls,
     [RefreshAttempt 1; Wait 1000; RefreshAttempt 2; Wait 2000; RefreshAttempt 3; HealthCheck]).
Proof.
  intros Hall. unfold maxAttempts. cbn [refreshLoop].
  rewrite !Hall. cbn [Nat.eqb]. unfold maxAttempts. cbn [Nat.eqb].
  destruct health; try reflexivity.
  destruct (truthy info); [|reflexivity].
  destruct (parseUserInfo (default "" info)); reflexivity.
Qed.

Lemma loop_all_failed (info : option string) (ls : gmap string string) :
  (forall n, exists server, attempt n = Resolved server /\ failed server = true) ->
  loop maxAttempts 0 info ls [] =
    (Exhausted, ls, [RefreshAttempt 1; RefreshAttempt 2; RefreshAttempt 3]).
Proof.
  intros Hall. unfold maxAttempts. cbn [refreshLoop].
  destruct (Hall 1%nat) as (s1 & -> & F1).
  pose proof (refreshToken_failed (clock 1) s1 ls F1) as E1.
  destruct (AuthApi.refreshToken (clock 1) s1 ls) as [[r1 l1] b1].
  simpl in E1. inversion E1; subst r1 l1.
  destruct (Hall 2%nat) as (s2 & -> & F2).
  pose proof (refreshToken_failed (clock 2) s2 ls F2) as E2.
  destruct (AuthApi.refreshToken (clock 2) s2 ls) as [[r2 l2] b2].
  simpl in E2. inversion E2; subst r2 l2.
  destruct (Hall 3%nat) as (s3 & -> & F3).
  pose proof (refreshToken_failed (clock 3) s3 ls F3) as E3.
  destruct (AuthApi.refreshToken (clock 3) s3 ls) as [[r3 l3] b3].
  simpl in E3. inversion E3; subst r3 l3.
  reflexivity.
Qed.

(** The restore of a session whose stored token is expiring. *)
Lemma restore_expiring (now : Z) (s : Store) (ls : gmap string string) :
  truthy (ls !! "access_token") = true ->
  truthy (ls !! "user_id") = true ->
  AuthApi.isTokenExpiredOrExpiring now ls = true ->
  (refreshAttempts (snd (restore now s ls)) <= 3)%nat.
Proof.
  intros Htok Huid Hexp. unfold initializeFromStorage.
  rewrite Htok, Huid, Hexp. cbn [andb].
  pose proof (refreshLoop_bound maxAttempts 0 (ls !! "user_info") ls []) as Hb.
  destruct (loop maxAttempts 0 (ls !! "user_info") ls []) as [[exit ls1] trace].
  cbn [snd] in Hb. unfold refreshAttempts at 2 in Hb. cbn in Hb.
  assert (Hc : forall (p : Store * gmap string string) (tr : list InitStep),
             (refreshAttempts
                (snd (let '(s1, ls2) := p in
                      (setIsCheckingAuth false s1, ls2, tr ++ [ClearAuth])))
              = refreshAttempts tr)%nat).
  { intros [s1 ls2] tr. cbn [snd]. apply attempts_clear. }
  destruct exit as [t| | |].
  - destruct (negb (String.eqb (AuthApi.tok_accessToken t) "") && truthy (ls !! "user_info")).
    + destruct (parseUserInfo (default "" (ls !! "user_info"))); [exact Hb|].
      rewrite Hc. exact Hb.
    + rewrite Hc. exact Hb.
  - rewrite Hc. exact Hb.
  - destruct (parseUserInfo (default "" (ls !! "user_info"))); [exact Hb|].
    rewrite Hc. exact Hb.
  - rewrite Hc. exact Hb.
Qed.

Lemma restore_all_timeouts (now : Z) (s : Store) (ls : gmap string string) :
  truthy (ls !! "access_token") = true ->
  truthy (ls !! "user_id") = true ->
  AuthApi.isTokenExpiredOrExpiring now ls = true ->
  (forall n, attempt n = TimedOut) ->
  snd (restore now s ls) =
    [RefreshAttempt 1; Wait 1000; RefreshAttempt 2; Wait 2000; RefreshAttempt 3; HealthCheck]
    ++ (if keepsSession health parseUserInfo (ls !! "user_info") then [] else [ClearAuth]) /\
  (keepsSession health parseUserInfo (ls !! "user_info") = true ->
   snd (fst (restore now s ls)) = ls).
Proof.
  intros Htok Huid Hexp Hall. unfold initializeFromStorage.
  rewrite Htok, Huid, Hexp. cbn [andb].
  rewrite (loop_all_timeouts _ ls Hall). unfold keepsSession, clearAuth.
  destruct health; cbn; try (split; [reflexivity|discriminate]).
  destruct (truthy (ls !! "user_info")); cbn; [|split; [reflexivity|discriminate]].
  destruct (parseUserInfo (default "" (ls !! "user_info"))); cbn;
    split; first [reflexivity | discriminate].
Qed.

Lemma restore_all_failed (now : Z) (s : Store) (ls : gmap string string) :
  truthy (ls !! "access_token") = true ->
  truthy (ls !! "user_id") = true ->
  AuthApi.isTokenExpiredOrExpiring now ls = true ->
  (forall n, exists server, attempt n = Resolved server /\ failed server = true) ->
  snd (restore now s ls) = [RefreshAttempt 1; RefreshAttempt 2; RefreshAttempt 3; ClearAuth].
Proof.
  intros Htok Huid Hexp Hall. unfold initializeFromStorage.
  rewrite Htok, Huid, Hexp. cbn [andb].
  rewrite (loop_all_failed _ ls Hall). reflexivity.
Qed.

End Facts.




End RestoreFacts.

(** ** The auth middleware on every request *)

Module MiddlewareFacts.
Import Js Server JsFacts.
Import ServerScenarios.

Lemma remove_first_bearer (tok : string) : remove_first "Bearer " ("Bearer " +:+ tok) = tok.
Proof.
  rewrite !append_cons, append_nil_l.
  destruct tok; reflexivity.
Qed.

Lemma probes_app (l1 l2 : list Call) : probes (l1 ++ l2) = probes l1 ++ probes l2.
Proof. unfold probes. apply List.filter_app. Qed.

Section Facts.

Variable usersGetCurrentAccount : string -> Result Account.
Variable getUserSession : string -> option UserSession.
Variable refreshAccessTokenIfNeeded : string -> Result RefreshResult.
Variable updateTokens : string -> string -> option string -> Z -> Result unit.

(** X1. Whatever the request and whatever the provider and the store
    answer, [ensureValidToken] does one of two things: it calls [next]
    without sending a response, with [req.currentAccountId] equal to the
    X-User-ID header and an access token attached; or it sends a 401 or
    a 403 (the latter always with shouldReauth=true), attaches nothing
    and does not call [next]. *)
Theorem ensureValidToken_outcome (req : Request) :
  let out := ensureValidToken usersGetCurrentAccount getUserSession
               refreshAccessTokenIfNeeded updateTokens req in
  (nextCalled out = true /\ response out = None /\
   req_currentAccountId out = x_user_id req /\
   is_Some (req_accessToken out) /\ In Next (calls out)) \/
  (nextCalled out = false /\ ~ In Next (calls out) /\
   req_accessToken out = None /\ req_currentAccountId out = None /\
   exists r, response out = Some r /\
     (status r = 401 \/ status r = 403 /\ shouldReauth (body r) = Some true)).
Proof.
  intros out. subst out. unfold ensureValidToken, refresh_path.
  repeat case_match; simplify_eq; cbn;
    repeat match goal with
           | H : negb _ = false |- _ => apply negb_false_iff in H
           | H : String.eqb _ _ = true |- _ => apply String.eqb_eq in H; subst
           end;
    first
      [ left; repeat split; eauto; tauto
      | right; split; [reflexivity|];
        split; [intros Hin; repeat (destruct Hin as [Hin|Hin]; [discriminate Hin|]); exact Hin|];
        split; [reflexivity|]; split; [reflexivity|];
        eexists; split; [reflexivity|]; cbn;
        first [left; reflexivity | right; split; reflexivity] ].
Qed.

(** The five bodies a rejection of [ensureValidToken] can carry. *)
Lemma rejection_shape (req : Request) (r : Response) :
  response (ensureValidToken usersGetCurrentAccount getUserSession
              refreshAccessTokenIfNeeded updateTokens req) = Some r ->
  (status r = 403 /\
   body r = {| error := Some "Account mismatch detected";
               message := Some "Token does not belong to the specified user";
               shouldReauth := Some true; blockExecution := None; reason := None |}) \/
  (status r = 401 /\
   (body r = no_field_body "No access token provided" \/
    body r = no_field_body "No user ID provided" \/
    body r = {| error := Some "Token expired and no refresh token available";
                message := None; shouldReauth := Some true;
                blockExecution := None; reason := None |} \/
    exists e, body r = refresh_failure_body e)).
Proof.
  unfold ensureValidToken, refresh_path. intros Hr.
  repeat case_match; simplify_eq; cbn in Hr; simplify_eq; cbn; eauto 10.
Qed.

(** X2. A request without a bearer token or without an X-User-ID header
    is answered 401 before any call is made: neither the provider nor
    the session store is contacted, and the body carries no shouldReauth
    flag. *)
Theorem ensureValidToken_missing_credentials (req : Request) :
  negb (truthy (bearer_token (authorization req))) || negb (truthy (x_user_id req)) = true ->
  let out := ensureValidToken usersGetCurrentAccount getUserSession
               refreshAccessTokenIfNeeded updateTokens req in
  (status <$> response out) = Some 401 /\
  (response out ≫= fun r => shouldReauth (body r)) = None /\
  nextCalled out = false /\
  calls out = [].
Proof.
  intros H out. subst out. unfold ensureValidToken.
  destruct (bearer_token (authorization req)) as [tok|];
    destruct (x_user_id req) as [uid|]; cbn in H |- *;
    try destruct (String.eqb tok ""); try destruct (String.eqb uid "");
    cbn in H |- *; try discriminate H; repeat split; reflexivity.
Qed.

(** X3. A run of [ensureValidToken] probes the provider at most once and
    asks for a refresh at most once; a refresh is asked for only after
    the probe of the presented token has failed, and a stored session is
    looked up only then. *)
Theorem ensureValidToken_call_budget (req : Request) :
  let out := ensureValidToken usersGetCurrentAccount getUserSession
               refreshAccessTokenIfNeeded updateTokens req in
  (length (probes (calls out)) <= 1)%nat /\
  (refreshCalls (calls out) <= 1)%nat /\
  (forall user, In (GetUserSession user) (calls out) ->
     exists tok e, head (calls out) = Some (ProbeAccount tok) /\
                   usersGetCurrentAccount tok = Throw e /\
                   x_user_id req = Some user).
Proof.
  intros out. subst out. unfold ensureValidToken, refresh_path.
  repeat case_match; simplify_eq; cbn;
    (split; [lia|split; [unfold refreshCalls; cbn; lia|]]);
    intros user Hin;
    repeat (destruct Hin as [Hin|Hin]; [try discriminate Hin|]); try contradiction;
    simplify_eq; eauto.
Qed.

(** X4. The X-New-Access-Token response header is set only on a run that
    goes on to the handler, and its value is the token attached to the
    request and the one written to the session store of the claimed
    user. *)
Theorem new_token_header_is_stored_token (req : Request) (name value : string) :
  let out := ensureValidToken usersGetCurrentAccount getUserSession
               refreshAccessTokenIfNeeded updateTokens req in
  In (SetHeader name value) (calls out) ->
  name = "X-New-Access-Token" /\
  nextCalled out = true /\
  req_accessToken out = Some value /\
  exists user refresh,
    x_user_id req = Some user /\
    In (UpdateTokens user value refresh 14400) (calls out) /\
    updateTokens user value refresh 14400 = Ok tt.
Proof.
  intros out. subst out. unfold ensureValidToken, refresh_path.
  repeat case_match; simplify_eq; cbn; intros Hin;
    repeat (destruct Hin as [Hin|Hin]; [try discriminate Hin|]); try contradiction.
  simplify_eq. repeat split; try reflexivity.
  eexists _, _. split; [reflexivity|]. split; [do 3 right; now left|].
  match goal with H : updateTokens _ _ _ _ = Ok ?u |- _ => destruct u; exact H end.
Qed.

(** X5. The boolean helper [validateAccountTokenMatch] agrees with the
    [isValid] field of [validateAccountTokenMatchDetailed] and makes the
    same provider calls. *)
Theorem validateAccountTokenMatch_agrees (accessToken claimedUserId : string) :
  ServerOps.validateAccountTokenMatch usersGetCurrentAccount accessToken claimedUserId =
  (isValid (fst (validateAccountTokenMatchDetailed usersGetCurrentAccount
                   accessToken claimedUserId)),
   snd (validateAccountTokenMatchDetailed usersGetCurrentAccount accessToken claimedUserId)).
Proof.
  unfold ServerOps.validateAccountTokenMatch, validateAccountTokenMatchDetailed.
  repeat case_match; reflexivity.
Qed.

(** Every failed detailed validation asks for a new login. *)
Lemma detailed_failure_reauth (accessToken claimedUserId : string) :
  let v := fst (validateAccountTokenMatchDetailed usersGetCurrentAccount
                  accessToken claimedUserId) in
  isValid v = false ->
  v_shouldReauth v = Some true /\ v_blockExecution v = Some true.
Proof.
  unfold validateAccountTokenMatchDetailed.
  repeat case_match; cbn; intros Hv; try discriminate Hv; split; reflexivity.
Qed.

(** X6. The pre-operation validation of the controllers never answers
    403: every rejection it sends is a 401 with shouldReauth=true and
    blockExecution=true, and it allows the operation exactly when it
    sends nothing; the same holds for [handleValidationFailure] on a
    failed detailed validation. *)
Theorem server_validation_rejects_with_401 (req : Request) (operationName : string) :
  let out := ServerOps.validateBeforeOperation usersGetCurrentAccount req operationName in
  match ServerOps.op_response out with
  | Some (st, b) =>
      st = 401 /\ ServerOps.op_shouldReauth b = Some true /\
      ServerOps.op_blockExecution b = Some true /\ ServerOps.allowed out = false
  | None => ServerOps.allowed out = true
  end /\
  forall accessToken claimedUserId context,
    let v := fst (validateAccountTokenMatchDetailed usersGetCurrentAccount
                    accessToken claimedUserId) in
    isValid v = false ->
    fst (ServerOps.handleValidationFailure v context) = 401.
Proof.
  intros out. split.
  - subst out. unfold ServerOps.validateBeforeOperation.
    destruct (negb (truthy (authorization req)) || negb (truthy (x_user_id req)));
      [cbn; auto|].
    pose proof (detailed_failure_reauth
                  (remove_first "Bearer " (default "" (authorization req)))
                  (default "" (x_user_id req))) as Hre.
    destruct (validateAccountTokenMatchDetailed usersGetCurrentAccount _ _) as [v cs].
    cbn in Hre. destruct (isValid v); cbn; [reflexivity|].
    destruct (Hre eq_refl) as [-> ->]. cbn. auto.
  - intros accessToken claimedUserId context v Hv.
    destruct (detailed_failure_reauth accessToken claimedUserId Hv) as [Hre _].
    unfold ServerOps.handleValidationFailure. cbn [fst]. subst v. now rewrite Hre.
Qed.

(** X7. A request whose presented token the provider refuses never
    reaches a guarded operation, even when the middleware has refreshed
    the token and called [next]: the controller validates the token of
    the request header again, so the request rescued by the middleware
    is answered 401 with shouldReauth=true by the controller. *)
Theorem guardedOperation_rejects_refused_token
    (req : Request) (tok operationName : string) (e : Thrown) :
  authorization req = Some ("Bearer " +:+ tok) ->
  no_char " " tok = true -> tok <> "" ->
  usersGetCurrentAccount tok = Throw e ->
  match fst (ServerOps.guardedOperation usersGetCurrentAccount getUserSession
               refreshAccessTokenIfNeeded updateTokens req operationName) with
  | ServerOps.ReachedOperation => False
  | ServerOps.RejectedByMiddleware r => status r = 401
  | ServerOps.RejectedByController st b =>
      st = 401 /\ ServerOps.op_shouldReauth b = Some true /\
      nextCalled (ensureValidToken usersGetCurrentAccount getUserSession
                    refreshAccessTokenIfNeeded updateTokens req) = true
  end.
Proof.
  intros Hauth Hsp Htok Hprobe. unfold ServerOps.guardedOperation.
  destruct (x_user_id req) as [uid|] eqn:Huid.
  2:{ unfold ensureValidToken. rewrite Hauth, Huid, (ServerFacts.bearer_token_of tok Hsp).
      rewrite (eqb_false tok "" Htok). reflexivity. }
  destruct (String.eqb_spec uid "") as [->|Hne].
  { unfold ensureValidToken. rewrite Hauth, Huid, (ServerFacts.bearer_token_of tok Hsp).
    rewrite (eqb_false tok "" Htok). reflexivity. }
  rewrite (ServerFacts.ensureValidToken_probe usersGetCurrentAccount getUserSession
             refreshAccessTokenIfNeeded updateTokens req tok uid Hauth Hsp Htok Huid Hne).
  rewrite Hprobe.
  assert (Hop : ServerOps.op_response
                  (ServerOps.validateBeforeOperation usersGetCurrentAccount req operationName)
                = Some (401, {| ServerOps.op_error := Some (default "Account validation failed"
                                                     (or_else (thrown_message e) None));
                                ServerOps.op_shouldReauth := Some true;
                                ServerOps.op_blockExecution := Some true;
                                ServerOps.operationBlocked := Some operationName;
                                ServerOps.op_context := None |})).
  { unfold ServerOps.validateBeforeOperation, validateAccountTokenMatchDetailed.
    rewrite Hauth, Huid. cbn [default from_option id].
    assert (Ht : truthy (Some ("Bearer " +:+ tok)) = true) by (now rewrite !append_cons).
    rewrite Ht, (truthy_Some uid Hne), remove_first_bearer.
    rewrite (eqb_false tok "" Htok), (eqb_false uid "" Hne), Hprobe. reflexivity. }
  unfold refresh_path.
  destruct (getUserSession uid) as [session|]; [|reflexivity].
  destruct (refreshToken session) as [rt|]; [|reflexivity].
  destruct (negb (String.eqb rt "")); [|reflexivity].
  destruct (refreshAccessTokenIfNeeded rt) as [r|e1]; [|reflexivity].
  destruct (updateTokens uid (newAccessToken r) (newRefreshToken r) 14400); [|reflexivity].
  cbv zeta. cbn [response calls nextCalled]. rewrite Hop. cbn. auto.
Qed.

End Facts.

Lemma ensureValidToken_missing_credentials_witness :
  let out := ensureValidToken probeA noSession noRefresh storeOk MoreScenarios.anonymous in
  (status <$> response out) = Some 401 /\
  (response out ≫= fun r => shouldReauth (body r)) = None /\
  nextCalled out = false /\
  calls out = [].
Proof.
  intros out.
  apply (ensureValidToken_missing_credentials probeA noSession noRefresh storeOk
           MoreScenarios.anonymous).
  reflexivity.
Defined.

Lemma new_token_header_is_stored_token_witness :
  let out := ensureValidToken probeExpired sessionB refreshOk storeOk expired in
  "X-New-Access-Token" = "X-New-Access-Token" /\
  nextCalled out = true /\
  req_accessToken out = Some "fresh" /\
  exists user refresh,
    x_user_id expired = Some user /\
    In (UpdateTokens user "fresh" refresh 14400) (calls out) /\
    storeOk user "fresh" refresh 14400 = Ok tt.
Proof.
  intros out.
  apply (new_token_header_is_stored_token probeExpired sessionB refreshOk storeOk
           expired "X-New-Access-Token" "fresh").
  vm_compute. do 4 right. now left.
Defined.

Lemma guardedOperation_rejects_refused_token_witness :
  match fst (ServerOps.guardedOperation probeExpired sessionB refreshOk storeOk
               expired "ImageProcessing") with
  | ServerOps.ReachedOperation => False
  | ServerOps.RejectedByMiddleware r => status r = 401
  | ServerOps.RejectedByController st b =>
      st = 401 /\ ServerOps.op_shouldReauth b = Some true /\
      nextCalled (ensureValidToken probeExpired sessionB refreshOk storeOk expired) = true
  end.
Proof.
  apply (guardedOperation_rejects_refused_token probeExpired sessionB refreshOk storeOk
           expired "stale" "ImageProcessing" (JsError "expired_access_token"));
    first [reflexivity | discriminate].
Defined.

End MiddlewareFacts.

(** ** The stored sessions *)

Module UserStoreFacts.
Import Js Server UserStore JsFacts.
Import MoreScenarios.

Lemma required_true (t : string) : t <> "" -> required t = true.
Proof. intros H. unfold required. now rewrite (eqb_false t "" H). Qed.

Lemma validates_updateTokens (now1 now2 : Z) (access : string) (refresh : option string)
    (expiresIn : option Z) (u : IUser) :
  validates u = true -> access <> "" ->
  validates (updateTokens now1 now2 access refresh expiresIn u) = true.
Proof.
  unfold validates. cbn. intros H Ha. rewrite (required_true access Ha).
  repeat (apply andb_prop in H as [H ?]).
  repeat (apply andb_true_intro; split); auto.
Qed.

Lemma keyed_dbB : keyed dbB.
Proof.
  intros k u. unfold dbB. cbn.
  destruct (decide (k = "dbid:B")) as [->|Hne].
  - rewrite lookup_insert_eq. intros [= <-]. reflexivity.
  - rewrite lookup_insert_ne by congruence. rewrite lookup_empty. discriminate.
Qed.

(** X8. [userService.updateTokens] without a new refresh token keeps the
    stored one, writes the new access token, and leaves a session that
    counts as valid up to and including [expiresIn] seconds after the
    update. *)
Theorem serviceUpdateTokens_keeps_refresh_token
    (now1 now2 expiresIn : Z) (db : Db) (user access : string)
    (refresh : option string) (u : IUser) :
  reachable db = true ->
  users db !! user = Some u -> u_userId u = user ->
  validates u = true -> access <> "" ->
  truthy refresh = false ->
  let res := serviceUpdateTokens now1 now2 db user access refresh (Some expiresIn) in
  exists u',
    fst res = Ok u' /\
    getUserSession (snd res) user = Some u' /\
    u_accessToken u' = access /\
    u_refreshToken u' = u_refreshToken u /\
    forall now, now <= now1 + expiresIn * 1000 ->
      isUserSessionValid now (snd res) user = true.
Proof.
  intros Hr Hu Hid Hv Ha Hrefresh res. subst res.
  unfold serviceUpdateTokens, findByUserId. rewrite Hr, Hu.
  unfold save. rewrite (validates_updateTokens _ _ _ _ _ _ Hv Ha).
  eexists. split; [reflexivity|]. cbn [fst snd].
  unfold getUserSession, isUserSessionValid, findByUserId. cbn [reachable users].
  cbn [updateTokens u_userId]. rewrite Hid, lookup_insert_eq, Hr.
  unfold updateTokens. cbn [u_accessToken u_refreshToken]. rewrite Hrefresh.
  repeat split. intros now Hnow. unfold isTokenExpired. cbn.
  destruct (Z.ltb_spec (now1 + expiresIn * 1000) now); [lia|reflexivity].
Qed.

(** X9. At a time [now], [cleanupExpiredSessions] keeps exactly the
    sessions that [isUserSessionValid] accepts; the sessions listed by
    [findActiveSessions] are among them and are untouched by the
    cleanup, and the two differ only on a session that expires at [now]
    itself, which is valid, kept, and not listed as active. *)
Theorem cleanup_keeps_valid_sessions (now : Z) (db : Db) (k : string) :
  reachable db = true ->
  (is_Some (users (cleanupExpiredSessions now db) !! k) <->
   isUserSessionValid now db k = true) /\
  (is_Some (findActiveSessions now db !! k) <->
   isUserSessionValid now db k = true /\
   (u_expiresAt <$> users db !! k) <> Some now) /\
  findActiveSessions now (cleanupExpiredSessions now db) = findActiveSessions now db.
Proof.
  intros Hr. unfold isUserSessionValid, findByUserId, isTokenExpired. rewrite Hr.
  split; [|split].
  - unfold cleanupExpiredSessions. cbn [users]. split.
    + intros [u Hu]. apply map_lookup_filter_Some in Hu as [Hu Hk]. cbn in Hk.
      rewrite Hu. destruct (Z.ltb_spec (u_expiresAt u) now); [lia|reflexivity].
    + destruct (users db !! k) as [u|] eqn:Hu; [|discriminate].
      intros Hv. exists u. apply map_lookup_filter_Some. split; [exact Hu|]. cbn.
      destruct (Z.ltb_spec (u_expiresAt u) now); [discriminate|lia].
  - unfold findActiveSessions. split.
    + intros [u Hu]. apply map_lookup_filter_Some in Hu as [Hu Hk]. cbn in Hk.
      rewrite Hu. cbn. split.
      * destruct (Z.ltb_spec (u_expiresAt u) now); [lia|reflexivity].
      * intros [= E]. lia.
    + destruct (users db !! k) as [u|] eqn:Hu; [|intros [? _]; discriminate].
      cbn. intros [Hv Hne]. exists u. apply map_lookup_filter_Some.
      split; [exact Hu|]. cbn.
      destruct (Z.ltb_spec (u_expiresAt u) now); [discriminate|].
      destruct (decide (u_expiresAt u = now)) as [E|E]; [|lia].
      exfalso. apply Hne. now rewrite E.
  - unfold findActiveSessions, cleanupExpiredSessions. cbn [users].
    apply map_eq. intros i. apply option_eq. intros u.
    rewrite !map_lookup_filter_Some. cbn. intuition lia.
Qed.

(** X10. [performSessionMaintenance] returns before the cleanup when no
    session is active: once every stored session has expired, it
    deletes none of them, although the cleanup it would have run deletes
    them all. *)
Theorem maintenance_skips_cleanup_when_all_expired (now1 now2 : Z) (db : Db) :
  (forall k u, users db !! k = Some u -> u_expiresAt u < now1) ->
  now1 <= now2 ->
  performSessionMaintenance now1 now2 db = db /\
  users (cleanupExpiredSessions now2 db) = ∅.
Proof.
  intros Hall Hle. split.
  - unfold performSessionMaintenance. destruct (reachable db); [|reflexivity].
    rewrite bool_decide_eq_true_2; [reflexivity|].
    unfold findActiveSessions. apply map_empty. intros k.
    apply map_lookup_filter_None. right. intros u Hu. cbn.
    specialize (Hall k u Hu). lia.
  - unfold cleanupExpiredSessions. cbn [users]. apply map_empty. intros k.
    apply map_lookup_filter_None. right. intros u Hu. cbn.
    specialize (Hall k u Hu). lia.
Qed.

(** X11. [userService.setUserSession] stores the session data under the
    user id and [getUserSession] reads it back, for a new user as for an
    existing one; unlike [updateTokens] it overwrites the stored refresh
    token with the one of the session data, also when that one is
    absent. *)
Theorem setUserSession_round_trip (now : Z) (db : Db) (user : string) (sd : SessionData) :
  reachable db = true -> keyed db ->
  user <> "" -> sd_accessToken sd <> "" -> sd_dropboxUserId sd <> "" ->
  sd_email sd <> "" -> sd_name sd <> "" ->
  let res := setUserSession now db user sd in
  exists u',
    fst res = Ok u' /\
    getUserSession (snd res) user = Some u' /\
    u_userId u' = user /\
    u_accessToken u' = sd_accessToken sd /\
    u_refreshToken u' = sd_refreshToken sd /\
    u_expiresAt u' = sd_expiresAt sd /\
    keyed (snd res).
Proof.
  intros Hr Hk Hu Ha Hd He Hn res. subst res.
  unfold setUserSession, findByUserId. rewrite Hr.
  assert (Hkeyed : forall u' : IUser, u_userId u' = user ->
            keyed {| users := <[user := u']> (users db); reachable := reachable db |}).
  { intros u' Hid k u. cbn. destruct (decide (k = user)) as [->|Hne].
    - rewrite lookup_insert_eq. now intros [= <-].
    - rewrite lookup_insert_ne by congruence. apply Hk. }
  destruct (users db !! user) as [existing|] eqn:Hex.
  - pose proof (Hk _ _ Hex) as Hid.
    unfold save, validates. cbn [u_userId u_accessToken u_dropboxUserId u_email u_name].
    rewrite Hid, !required_true by assumption. cbn [andb fst snd].
    eexists. split; [reflexivity|].
    unfold getUserSession, findByUserId. cbn [reachable users].
    rewrite Hr, lookup_insert_eq. repeat split; try assumption.
    apply Hkeyed. reflexivity.
  - unfold save, validates. cbn [u_userId u_accessToken u_dropboxUserId u_email u_name].
    rewrite !required_true by assumption. cbn [andb fst snd].
    eexists. split; [reflexivity|].
    unfold getUserSession, findByUserId. cbn [reachable users].
    rewrite Hr, lookup_insert_eq. repeat split.
    apply Hkeyed. reflexivity.
Qed.

Section Backed.

Variable usersGetCurrentAccount : string -> Result Account.
Variable refreshAccessTokenIfNeeded : string -> Result RefreshResult.

(** X12. The middleware on the stored sessions: when the presented token
    is refused and the refresh with the stored refresh token of the
    claimed user succeeds, the request goes on with the new token and
    the session read back from the store holds that token, expires four
    hours after the update, and keeps the old refresh token unless the
    provider has issued a new one. *)
Theorem refresh_is_persisted
    (now1 now2 : Z) (db : Db) (req : Request) (tok claimed rt : string)
    (e : Thrown) (u : IUser) (r : RefreshResult) :
  authorization req = Some ("Bearer " +:+ tok) ->
  no_char " " tok = true -> tok <> "" ->
  x_user_id req = Some claimed -> claimed <> "" ->
  usersGetCurrentAccount tok = Throw e ->
  reachable db = true ->
  users db !! claimed = Some u -> u_userId u = claimed -> validates u = true ->
  u_refreshToken u = Some rt -> rt <> "" ->
  refreshAccessTokenIfNeeded rt = Ok r -> newAccessToken r <> "" ->
  let res := StoredAuth.ensureValidTokenOn usersGetCurrentAccount
               refreshAccessTokenIfNeeded now1 now2 db req in
  nextCalled (fst res) = true /\
  req_accessToken (fst res) = Some (newAccessToken r) /\
  exists u',
    getUserSession (snd res) claimed = Some u' /\
    u_accessToken u' = newAccessToken r /\
    u_refreshToken u' = (if truthy (newRefreshToken r) then newRefreshToken r else Some rt) /\
    u_expiresAt u' = now1 + 14400 * 1000.
Proof.
  intros Hauth Hsp Htok Huid Hclaimed Hprobe Hr Hu Hid Hv Hrt Hrtne Hrefresh Hnew res.
  subst res. unfold StoredAuth.ensureValidTokenOn. cbv zeta.
  rewrite (ServerFacts.ensureValidToken_probe usersGetCurrentAccount (sessionOf db)
             refreshAccessTokenIfNeeded (StoredAuth.updateTokensOn now1 now2 db)
             req tok claimed Hauth Hsp Htok Huid Hclaimed).
  rewrite Hprobe. unfold refresh_path.
  assert (Hsess : sessionOf db claimed = Some {| userId := claimed; refreshToken := Some rt |}).
  { unfold sessionOf, getUserSession, findByUserId. rewrite Hr, Hu. cbn.
    now rewrite Hid, Hrt. }
  rewrite Hsess. cbn [refreshToken]. rewrite (eqb_false rt "" Hrtne). cbn [negb].
  rewrite Hrefresh.
  assert (Hsave : serviceUpdateTokens now1 now2 db claimed (newAccessToken r)
                    (newRefreshToken r) (Some 14400)
                  = save db (updateTokens now1 now2 (newAccessToken r) (newRefreshToken r)
                               (Some 14400) u)).
  { unfold serviceUpdateTokens, findByUserId. now rewrite Hr, Hu. }
  assert (Hupd : StoredAuth.updateTokensOn now1 now2 db claimed (newAccessToken r)
                   (newRefreshToken r) 14400 = Ok tt).
  { unfold StoredAuth.updateTokensOn. rewrite Hsave. unfold save.
    now rewrite (validates_updateTokens _ _ _ _ _ _ Hv Hnew). }
  rewrite Hupd. cbn [nextCalled req_accessToken calls fst snd].
  repeat split.
  unfold StoredAuth.written. cbn [fold_left app].
  rewrite Hsave. unfold save. rewrite (validates_updateTokens _ _ _ _ _ _ Hv Hnew).
  cbn [snd]. eexists. split.
  - unfold getUserSession, findByUserId. cbn [reachable users updateTokens u_userId].
    rewrite Hr, Hid, lookup_insert_eq. reflexivity.
  - cbn. rewrite Hrt. repeat split.
Qed.

End Backed.

Lemma serviceUpdateTokens_keeps_refresh_token_witness :
  let res := serviceUpdateTokens 2000 2001 dbB "dbid:B" "fresh" None (Some 14400) in
  exists u',
    fst res = Ok u' /\
    getUserSession (snd res) "dbid:B" = Some u' /\
    u_accessToken u' = "fresh" /\
    u_refreshToken u' = u_refreshToken userB /\
    forall now, now <= 2000 + 14400 * 1000 ->
      isUserSessionValid now (snd res) "dbid:B" = true.
Proof.
  intros res.
  apply (serviceUpdateTokens_keeps_refresh_token 2000 2001 14400 dbB "dbid:B" "fresh"
           None userB); first [reflexivity | discriminate].
Defined.

Lemma cleanup_keeps_valid_sessions_witness :
  (is_Some (users (cleanupExpiredSessions 1000 dbB) !! "dbid:B") <->
   isUserSessionValid 1000 dbB "dbid:B" = true) /\
  (is_Some (findActiveSessions 1000 dbB !! "dbid:B") <->
   isUserSessionValid 1000 dbB "dbid:B" = true /\
   (u_expiresAt <$> users dbB !! "dbid:B") <> Some 1000) /\
  findActiveSessions 1000 (cleanupExpiredSessions 1000 dbB) = findActiveSessions 1000 dbB.
Proof.
  apply (cleanup_keeps_valid_sessions 1000 dbB "dbid:B"). reflexivity.
Defined.

Lemma maintenance_skips_cleanup_when_all_expired_witness :
  performSessionMaintenance 2000 2001 dbB = dbB /\
  users (cleanupExpiredSessions 2001 dbB) = ∅.
Proof.
  apply (maintenance_skips_cleanup_when_all_expired 2000 2001 dbB); [|lia].
  intros k u. unfold dbB. cbn [users].
  destruct (decide (k = "dbid:B")) as [->|Hne].
  - rewrite lookup_insert_eq. intros [= <-]. cbn. lia.
  - rewrite lookup_insert_ne by congruence. rewrite lookup_empty. discriminate.
Defined.

Lemma setUserSession_round_trip_witness :
  let res := setUserSession 3000 dbB "dbid:B" sessionDataB in
  exists u',
    fst res = Ok u' /\
    getUserSession (snd res) "dbid:B" = Some u' /\
    u_userId u' = "dbid:B" /\
    u_accessToken u' = "tokenB" /\
    u_refreshToken u' = None /\
    u_expiresAt u' = 5000 /\
    keyed (snd res).
Proof.
  intros res.
  apply (setUserSession_round_trip 3000 dbB "dbid:B" sessionDataB);
    first [reflexivity | discriminate | exact keyed_dbB].
Defined.

Lemma refresh_is_persisted_witness :
  let res := StoredAuth.ensureValidTokenOn ServerScenarios.probeExpired
               ServerScenarios.refreshOk 2000 2001 dbB ServerScenarios.expired in
  nextCalled (fst res) = true /\
  req_accessToken (fst res) = Some "fresh" /\
  exists u',
    getUserSession (snd res) "dbid:B" = Some u' /\
    u_accessToken u' = "fresh" /\
    u_refreshToken u' = Some "rtB" /\
    u_expiresAt u' = 2000 + 14400 * 1000.
Proof.
  intros res.
  apply (refresh_is_persisted ServerScenarios.probeExpired ServerScenarios.refreshOk
           2000 2001 dbB ServerScenarios.expired "stale" "dbid:B" "rtB"
           (JsError "expired_access_token") userB
           {| newAccessToken := "fresh"; newRefreshToken := Some "rtB" |});
    first [reflexivity | discriminate].
Defined.

End UserStoreFacts.

(** ** The axios client against the server *)

Module AxiosFacts.
Import Js Client AxiosConfig JsFacts.

Lemma clearAuth_storage (s : Store) (ls : gmap string string) :
  snd (clearAuth s ls) !! "access_token" = None /\
  snd (clearAuth s ls) !! "refresh_token" = None /\
  snd (clearAuth s ls) !! "user_id" = None /\
  snd (clearAuth s ls) !! "user_info" = None.
Proof.
  unfold clearAuth, removeItems, auth_keys. cbn [snd fold_right].
  repeat split;
    repeat first [ rewrite lookup_delete_eq; reflexivity
                 | rewrite lookup_delete_ne by discriminate ].
Qed.

Lemma clearAuth_store (s : Store) (ls : gmap string string) :
  isAuthenticated (fst (clearAuth s ls)) = false /\
  accessToken (fst (clearAuth s ls)) = None.
Proof. split; reflexivity. Qed.

Section Facts.

Variable usersGetCurrentAccount : string -> Result Account.
Variable parseUserInfo : string -> option User.

(** X13. The Authorization header written by the request interceptor
    from a stored token without a space carries that token back to the
    server by both of the server's ways of reading it: the middleware's
    [split(' ')[1]] and the controllers' [replace('Bearer ', '')]; the
    X-User-ID header is the [userId] of the stored user info. *)
Theorem request_headers_round_trip
    (headers : option string * option string) (ls : gmap string string)
    (t info : string) (u : User) :
  ls !! "access_token" = Some t -> t <> "" -> no_char " " t = true ->
  ls !! "user_info" = Some info -> info <> "" ->
  parseUserInfo info = Some u -> userId u <> "" ->
  let sent := onRequest parseUserInfo headers ls in
  Server.bearer_token (fst sent) = Some t /\
  remove_first "Bearer " (default "" (fst sent)) = t /\
  snd sent = Some (userId u).
Proof.
  intros Ht Hne Hsp Hi Hine Hp Hu sent. subst sent. unfold onRequest.
  rewrite Ht, Hi, (truthy_Some t Hne), (truthy_Some info Hine).
  change (default "" (Some t)) with t. change (default "" (Some info)) with info.
  rewrite Hp, (eqb_false _ "" Hu). cbn [negb fst snd default from_option Datatypes.id].
  split; [|split]; [|apply MiddlewareFacts.remove_first_bearer|reflexivity].
  now apply ServerFacts.bearer_token_of.
Qed.

(** X14. A token announced by the server in X-New-Access-Token is stored
    by the response interceptor exactly as [storeTokenWithExpiration]
    stores a four-hour token: it becomes the access token of the store
    and of the storage, and counts as expiring from ten minutes before
    the four hours are over. *)
Theorem refreshed_token_is_stored (now : Z) (t : string) (s : Store) (ls : gmap string string) :
  t <> "" ->
  let res := onFulfilled now (Some t) s ls in
  accessToken (fst res) = Some t /\
  snd res = AuthApi.storeTokenWithExpiration now t None ls /\
  snd res !! "access_token" = Some t /\
  forall now', AuthApi.isTokenExpiredOrExpiring now' (snd res)
               = (now + 14400 * 1000 - 10 * 60 * 1000 <=? now').
Proof.
  intros Hne res. subst res. unfold onFulfilled. rewrite (truthy_Some t Hne).
  cbn [fst snd default from_option Datatypes.id].
  split; [reflexivity|]. split; [reflexivity|]. split.
  - rewrite lookup_insert_ne by discriminate. now rewrite lookup_insert_eq.
  - intros now'.
    change (<["token_expires_at" := toString (now + (14400 - 300) * 1000)]>
              (<["access_token" := t]> ls))
      with (AuthApi.storeTokenWithExpiration now t (Some 14400) ls).
    apply AuthApiFacts.expiring_iff.
Qed.

(** X15. A response whose [error] field is an object makes the rejected
    response interceptor throw while it computes [isAccountMismatch],
    unless the status is 409 or a 401 with shouldReauth: no event is
    dispatched and nothing is cleared, so the test of
    [error.error_summary] for [path/not_found] is never reached. *)
Theorem object_error_throws
    (now : Z) (status : option Z) (data : ResponseData) (summary : option string)
    (s : Store) (ls : gmap string string) :
  rd_error data = ErrObject summary ->
  status <> Some 409 ->
  (status = Some 401 -> rd_shouldReauth data = false) ->
  let rej := onRejected usersGetCurrentAccount parseUserInfo now status (Some data) s ls in
  isAccountMismatch status (Some data) = None /\
  threw rej = true /\ events rej = [] /\
  rej_store rej = s /\ rej_storage rej = ls /\ redirectToLogin rej = false.
Proof.
  intros He H409 H401 rej.
  assert (Hm : isAccountMismatch status (Some data) = None).
  { unfold isAccountMismatch. rewrite He.
    rewrite (bool_decide_eq_false_2 _ H409).
    destruct (decide (status = Some 401)) as [E|E].
    - now rewrite (H401 E), andb_false_r.
    - now rewrite (bool_decide_eq_false_2 _ E). }
  subst rej. unfold onRejected. rewrite Hm. repeat split; reflexivity.
Qed.

(** X16. What the client does with a rejection of [ensureValidToken]:
    the interceptor never throws on it; a rejection with
    shouldReauth=true dispatches the two events, and clears the
    credentials and leaves for the login page exactly when the status is
    401, a 403 leaving the stored credentials in place; a 401 without
    the flag (missing token or user id) dispatches nothing and clears
    nothing. *)
Theorem middleware_rejection_on_client
    (getUserSession : string -> option Server.UserSession)
    (refreshAccessTokenIfNeeded : string -> Server.Result Server.RefreshResult)
    (updateTokens : string -> string -> option string -> Z -> Server.Result unit)
    (probe : string -> Server.Result Server.Account)
    (req : Server.Request) (r : Server.Response)
    (now : Z) (s : Store) (ls : gmap string string) :
  Server.response (Server.ensureValidToken probe getUserSession
                     refreshAccessTokenIfNeeded updateTokens req) = Some r ->
  let rej := onRejected usersGetCurrentAccount parseUserInfo now
               (Some (Server.status r)) (Some (ofServerBody (Server.body r))) s ls in
  threw rej = false /\ asked rej = [] /\
  match Server.shouldReauth (Server.body r) with
  | Some true =>
      length (events rej) = 2%nat /\
      (Server.status r = 401 ->
         redirectToLogin rej = true /\
         rej_storage rej !! "access_token" = None /\
         rej_storage rej !! "refresh_token" = None /\
         isAuthenticated (rej_store rej) = false) /\
      (Server.status r = 403 ->
         redirectToLogin rej = false /\ rej_storage rej = ls /\ rej_store rej = s)
  | _ =>
      events rej = [] /\ redirectToLogin rej = false /\
      rej_storage rej = ls /\ rej_store rej = s
  end.
Proof.
  intros Hr rej. subst rej.
  destruct (MiddlewareFacts.rejection_shape _ _ _ _ _ _ Hr) as [[Hst Hb]|[Hst Hb]];
    destruct r as [st b]; cbn [Server.status Server.body] in *; subst st;
    [ subst b
    | destruct Hb as [-> | [-> | [-> | [e ->]]]];
      try (destruct e as [m|]; unfold Server.refresh_failure_body;
           [destruct (Server.refresh_token_error m)|]) ];
    unfold onRejected, isAccountMismatch, ofServerBody, Server.no_field_body;
    cbn [default from_option Datatypes.id Server.shouldReauth Server.error Server.message
         rd_shouldReauth rd_error rd_message rd_error_summary mbind option_bind];
    repeat match goal with
           | |- context [bool_decide (Some ?a = Some ?b)] =>
               first [ rewrite (bool_decide_eq_true_2 (Some a = Some b)) by reflexivity
                     | rewrite (bool_decide_eq_false_2 (Some a = Some b)) by discriminate ]
           end;
    cbn; repeat split; intros; try discriminate; try reflexivity;
    repeat split; try reflexivity;
    repeat first [ rewrite lookup_delete_eq; reflexivity
                 | rewrite lookup_delete_ne by discriminate ].
Qed.

(** X17. A 409 makes the interceptor run the immediate validation while
    ignoring the grace period: with credentials stored, the provider is
    asked even right after a re-authorization, where the same validation
    started without that flag returns at once; the interceptor's own two
    events come first, and nothing is cleared. *)
Theorem conflict_ignores_grace_period
    (now : Z) (data : option ResponseData) (s : Store) (ls : gmap string string)
    (tok user : string) :
  ls !! "access_token" = Some tok -> tok <> "" ->
  ls !! "user_id" = Some user -> user <> "" ->
  ImmediateValidation.graceCheck now ls = None ->
  let rej := onRejected usersGetCurrentAccount parseUserInfo now (Some 409) data s ls in
  let direct := ImmediateValidation.triggerImmediateAccountValidation
                  usersGetCurrentAccount parseUserInfo false now ls in
  direct = (Some true, ls, [], []) /\
  asked rej = [tok] /\
  (exists d sd rest, events rej = accountMismatch d :: accountSwitchDetected sd :: rest /\
                     source d = "axios-interceptor") /\
  redirectToLogin rej = false /\ rej_store rej = s /\ rej_storage rej = ls.
Proof.
  intros Ht Htne Hu Hune Hgrace rej direct. subst rej direct. split.
  - unfold ImmediateValidation.triggerImmediateAccountValidation. now rewrite Hgrace.
  - assert (Hm : isAccountMismatch (Some 409) data = Some true).
    { unfold isAccountMismatch.
      rewrite (bool_decide_eq_false_2 (Some 409 = Some 401)) by discriminate.
      cbn [andb]. now rewrite (bool_decide_eq_true_2 (Some 409 = Some 409)). }
    unfold onRejected. rewrite Hm.
    rewrite (bool_decide_eq_true_2 (Some 409 = Some 409)) by reflexivity.
    rewrite (bool_decide_eq_false_2 (Some 409 = Some 401)) by discriminate.
    cbn [andb]. unfold ImmediateValidation.triggerImmediateAccountValidation.
    rewrite Ht, Hu, (truthy_Some tok Htne), (truthy_Some user Hune).
    change (default "" (Some tok)) with tok. change (default "" (Some user)) with user.
    cbn [negb orb].
    destruct (usersGetCurrentAccount tok) as [a|e];
      [destruct (negb (String.eqb (account_id a) user))|];
      cbn; repeat split; eauto.
Qed.

(** X18. The end of a request rescued by the middleware: the presented
    token is refused, the refresh succeeds and the new token is written
    to the session store, the controller answers 401 all the same, and
    the client clears its credentials and leaves for the login page
    without having stored the new token. *)
Theorem rescued_request_logs_the_user_out
    (getUserSession : string -> option Server.UserSession)
    (refreshAccessTokenIfNeeded : string -> Server.Result Server.RefreshResult)
    (updateTokens : string -> string -> option string -> Z -> Server.Result unit)
    (probe : string -> Server.Result Server.Account)
    (req : Server.Request) (tok claimed rt operationName : string) (e : Server.Thrown)
    (session : Server.UserSession) (r : Server.RefreshResult)
    (now : Z) (s : Store) (ls : gmap string string) :
  Server.authorization req = Some ("Bearer " +:+ tok) ->
  no_char " " tok = true -> tok <> "" ->
  Server.x_user_id req = Some claimed -> claimed <> "" ->
  probe tok = Server.Throw e ->
  getUserSession claimed = Some session ->
  Server.refreshToken session = Some rt -> rt <> "" ->
  refreshAccessTokenIfNeeded rt = Server.Ok r ->
  updateTokens claimed (Server.newAccessToken r) (Server.newRefreshToken r) 14400
    = Server.Ok tt ->
  let served := ServerOps.guardedOperation probe getUserSession
                  refreshAccessTokenIfNeeded updateTokens req operationName in
  In (Server.UpdateTokens claimed (Server.newAccessToken r) (Server.newRefreshToken r) 14400)
     (snd served) /\
  exists b,
    fst served = ServerOps.RejectedByController 401 b /\
    let rej := onRejected usersGetCurrentAccount parseUserInfo now
                 (Some 401) (Some (ofOpBody b)) s ls in
    redirectToLogin rej = true /\
    rej_storage rej !! "access_token" = None /\
    rej_storage rej !! "refresh_token" = None /\
    isAuthenticated (rej_store rej) = false /\
    length (events rej) = 2%nat.
Proof.
  intros Hauth Hsp Htok Huid Hclaimed Hprobe Hsess Hrt Hrtne Hrefresh Hupd served.
  subst served. unfold ServerOps.guardedOperation.
  rewrite (ServerFacts.ensureValidToken_probe probe getUserSession
             refreshAccessTokenIfNeeded updateTokens req tok claimed
             Hauth Hsp Htok Huid Hclaimed).
  rewrite Hprobe. unfold Server.refresh_path.
  rewrite Hsess, Hrt, (eqb_false rt "" Hrtne), Hrefresh, Hupd.
  cbv zeta. cbn [negb Server.response Server.calls].
  unfold ServerOps.validateBeforeOperation, Server.validateAccountTokenMatchDetailed.
  rewrite Hauth, Huid.
  change (default "" (Some ("Bearer " +:+ tok))) with ("Bearer " +:+ tok).
  change (default "" (Some claimed)) with claimed.
  assert (Ht : truthy (Some ("Bearer " +:+ tok)) = true) by (now rewrite !append_cons).
  rewrite Ht, (truthy_Some claimed Hclaimed), MiddlewareFacts.remove_first_bearer.
  rewrite (eqb_false tok "" Htok), (eqb_false claimed "" Hclaimed), Hprobe.
  cbn [negb orb Server.isValid ServerOps.op_response ServerOps.op_calls
       Server.v_shouldReauth default from_option Datatypes.id fst snd app].
  split; [do 3 right; now left|].
  eexists. split; [reflexivity|].
  unfold onRejected, isAccountMismatch, ofOpBody.
  cbn [ServerOps.op_shouldReauth default from_option Datatypes.id rd_shouldReauth].
  rewrite (bool_decide_eq_true_2 (Some 401 = Some 401)) by reflexivity.
  rewrite (bool_decide_eq_false_2 (Some 401 = Some 409)) by discriminate.
  cbn [andb].
  destruct (clearAuth_storage s ls) as (Ha & Hb & _).
  destruct (clearAuth s ls) as [s1 ls1] eqn:Hc.
  cbn. repeat split; try assumption.
  change s1 with (fst (s1, ls1)). rewrite <- Hc. reflexivity.
Qed.

End Facts.

Lemma request_headers_round_trip_witness :
  let sent := onRequest ClientScenarios.parseA (None, None) ClientScenarios.storedA in
  Server.bearer_token (fst sent) = Some "tokenA" /\
  remove_first "Bearer " (default "" (fst sent)) = "tokenA" /\
  snd sent = Some "dbid:A".
Proof.
  intros sent.
  apply (request_headers_round_trip ClientScenarios.parseA (None, None)
           ClientScenarios.storedA "tokenA" "{}" ClientScenarios.userA);
    first [reflexivity | discriminate].
Defined.

Lemma refreshed_token_is_stored_witness :
  let res := onFulfilled 1700000000000 (Some "fresh") initialStore ∅ in
  accessToken (fst res) = Some "fresh" /\
  snd res = AuthApi.storeTokenWithExpiration 1700000000000 "fresh" None ∅ /\
  snd res !! "access_token" = Some "fresh" /\
  forall now', AuthApi.isTokenExpiredOrExpiring now' (snd res)
               = (1700000000000 + 14400 * 1000 - 10 * 60 * 1000 <=? now').
Proof.
  intros res.
  apply (refreshed_token_is_stored 1700000000000 "fresh" initialStore ∅).
  discriminate.
Defined.

Lemma object_error_throws_witness :
  let rej := onRejected ClientScenarios.unreachable ClientScenarios.parseNothing
               1700000000000 (Some 400) (Some MoreScenarios.providerError)
               initialStore ClientScenarios.storedA in
  isAccountMismatch (Some 400) (Some MoreScenarios.providerError) = None /\
  threw rej = true /\ events rej = [] /\
  rej_store rej = initialStore /\ rej_storage rej = ClientScenarios.storedA /\
  redirectToLogin rej = false.
Proof.
  intros rej.
  apply (object_error_throws ClientScenarios.unreachable ClientScenarios.parseNothing
           1700000000000 (Some 400) MoreScenarios.providerError (Some "path/not_found/..")
           initialStore ClientScenarios.storedA);
    first [reflexivity | discriminate].
Defined.

Lemma middleware_rejection_on_client_witness :
  let rej := onRejected ClientScenarios.unreachable ClientScenarios.parseNothing
               1700000000000 (Some 403)
               (Some (ofServerBody (Server.body MoreScenarios.mismatch403)))
               initialStore ClientScenarios.storedA in
  threw rej = false /\ asked rej = [] /\
  length (events rej) = 2%nat /\
  ((403 : Z) = 401 ->
     redirectToLogin rej = true /\
     rej_storage rej !! "access_token" = None /\
     rej_storage rej !! "refresh_token" = None /\
     isAuthenticated (rej_store rej) = false) /\
  ((403 : Z) = 403 ->
     redirectToLogin rej = false /\ rej_storage rej = ClientScenarios.storedA /\
     rej_store rej = initialStore).
Proof.
  intros rej.
  apply (middleware_rejection_on_client ClientScenarios.unreachable
           ClientScenarios.parseNothing
           ServerScenarios.noSession ServerScenarios.noRefresh ServerScenarios.storeOk
           ServerScenarios.probeA ServerScenarios.spoofed MoreScenarios.mismatch403
           1700000000000 initialStore ClientScenarios.storedA).
  reflexivity.
Defined.

Lemma conflict_ignores_grace_period_witness :
  let rej := onRejected ClientScenarios.probeOwnA ClientScenarios.parseA
               MoreScenarios.oneMinuteLater (Some 409) None
               initialStore MoreScenarios.justReauthorized in
  let direct := ImmediateValidation.triggerImmediateAccountValidation
                  ClientScenarios.probeOwnA ClientScenarios.parseA false
                  MoreScenarios.oneMinuteLater MoreScenarios.justReauthorized in
  direct = (Some true, MoreScenarios.justReauthorized, [], []) /\
  asked rej = ["tokenA"] /\
  (exists d sd rest, events rej = accountMismatch d :: accountSwitchDetected sd :: rest /\
                     source d = "axios-interceptor") /\
  redirectToLogin rej = false /\ rej_store rej = initialStore /\
  rej_storage rej = MoreScenarios.justReauthorized.
Proof.
  intros rej direct.
  apply (conflict_ignores_grace_period ClientScenarios.probeOwnA ClientScenarios.parseA
           MoreScenarios.oneMinuteLater None initialStore MoreScenarios.justReauthorized
           "tokenA" "dbid:A");
    first [reflexivity | discriminate].
Defined.

Lemma rescued_request_logs_the_user_out_witness :
  let served := ServerOps.guardedOperation ServerScenarios.probeExpired
                  ServerScenarios.sessionB ServerScenarios.refreshOk
                  ServerScenarios.storeOk ServerScenarios.expired "ImageProcessing" in
  In (Server.UpdateTokens "dbid:B" "fresh" (Some "rtB") 14400) (snd served) /\
  exists b,
    fst served = ServerOps.RejectedByController 401 b /\
    let rej := onRejected ClientScenarios.unreachable ClientScenarios.parseNothing
                 1700000000000 (Some 401) (Some (ofOpBody b))
                 initialStore ClientScenarios.storedA in
    redirectToLogin rej = true /\
    rej_storage rej !! "access_token" = None /\
    rej_storage rej !! "refresh_token" = None /\
    isAuthenticated (rej_store rej) = false /\
    length (events rej) = 2%nat.
Proof.
  intros served.
  apply (rescued_request_logs_the_user_out ClientScenarios.unreachable
           ClientScenarios.parseNothing
           ServerScenarios.sessionB ServerScenarios.refreshOk ServerScenarios.storeOk
           ServerScenarios.probeExpired ServerScenarios.expired
           "stale" "dbid:B" "rtB" "ImageProcessing"
           (Server.JsError "expired_access_token")
           {| Server.userId := "dbid:B"; Server.refreshToken := Some "rtB" |}
           {| Server.newAccessToken := "fresh"; Server.newRefreshToken := Some "rtB" |}
           1700000000000 initialStore ClientScenarios.storedA);
    first [reflexivity | discriminate].
Defined.

End AxiosFacts.

(** ** Login, callback and session restore *)

Module LoginFacts.
Import Js Client UseAuth Layout JsFacts.

Ltac lookups := RecoveryFacts.lookups.

Lemma removeItems_empty (keys : list string) : removeItems keys ∅ = ∅.
Proof.
  induction keys as [|k keys IH]; [reflexivity|].
  cbn [removeItems fold_right]. fold (removeItems keys ∅). rewrite IH.
  apply delete_empty.
Qed.

(** Reading back a printed integer, as [parseInt(n.toString())]. *)
Lemma parseInt_toString (z : Z) : parseInt (toString z) = Some z.
Proof.
  rewrite <- (parseInt10_toString z).
  destruct z as [|p|p]; [reflexivity| |]; unfold toString.
  - destruct (Pos.to_uint p) as [|u|u|u|u|u|u|u|u|u|u]; try reflexivity;
      destruct u; reflexivity.
  - destruct (Pos.to_uint p) as [|u|u|u|u|u|u|u|u|u|u]; try reflexivity;
      destruct u; reflexivity.
Qed.

(** X19. The PKCE parameters stored at login are read back at the
    callback, are gone once cleared, and clearing restores every other
    key of the session storage; an empty verifier or state is read back
    as no parameters at all. *)
Theorem pkce_round_trip (codeVerifier state : string) (ss : gmap string string) :
  (codeVerifier <> "" -> state <> "" ->
   retrievePKCEParams (storePKCEParams codeVerifier state ss) = Some (codeVerifier, state)) /\
  (codeVerifier = "" \/ state = "" ->
   retrievePKCEParams (storePKCEParams codeVerifier state ss) = None) /\
  retrievePKCEParams (clearPKCEParams (storePKCEParams codeVerifier state ss)) = None /\
  (forall k, k <> "pkce_code_verifier" -> k <> "pkce_state" ->
     clearPKCEParams (storePKCEParams codeVerifier state ss) !! k = ss !! k).
Proof.
  split; [|split; [|split]].
  - apply RecoveryFacts.retrieve_stored_pkce.
  - intros [-> | ->]; unfold retrievePKCEParams, storePKCEParams; lookups;
      [reflexivity|]. cbn. now rewrite orb_true_r.
  - unfold retrievePKCEParams, clearPKCEParams. lookups. reflexivity.
  - intros k Hv Hs. unfold clearPKCEParams, storePKCEParams.
    rewrite !lookup_delete_ne, !lookup_insert_ne by congruence. reflexivity.
Qed.

Section Facts.

Variable stringifyUser : User -> string.
Variable exchangeToken : string -> string -> string -> Result Exchange.

(** X20. A callback whose [state] is not the one stored at login, or
    that finds no stored PKCE parameters, never authenticates: the
    session is cleared, the PKCE parameters are removed and the route is
    [/login]; the token exchange is not consulted, the outcome being the
    same for every exchange. *)
Theorem callback_rejects_foreign_state (code state : string) (now1 now2 : Z) (a : App) :
  (forall codeVerifier pkceState,
     retrievePKCEParams (sessionStorage a) = Some (codeVerifier, pkceState) ->
     pkceState <> state) ->
  let final := handleOAuthCallback stringifyUser exchangeToken code state now1 now2 a in
  isAuthenticated (store final) = false /\
  accessToken (store final) = None /\
  localStorage final !! "access_token" = None /\
  localStorage final !! "refresh_token" = None /\
  retrievePKCEParams (sessionStorage final) = None /\
  pathname final = "/login" /\
  forall exchange' : string -> string -> string -> Result Exchange,
    handleOAuthCallback stringifyUser exchange' code state now1 now2 a = final.
Proof.
  intros Hstate final.
  assert (Hfail : forall why, let f := callbackFailed why a in
            isAuthenticated (store f) = false /\ accessToken (store f) = None /\
            localStorage f !! "access_token" = None /\
            localStorage f !! "refresh_token" = None /\
            retrievePKCEParams (sessionStorage f) = None /\ pathname f = "/login").
  { intros why f. subst f. unfold callbackFailed, clearAuth, removeItems, auth_keys.
    cbn [store localStorage sessionStorage pathname fold_right].
    repeat split; try reflexivity; try (now lookups).
    unfold retrievePKCEParams, clearPKCEParams. lookups. reflexivity. }
  subst final. unfold handleOAuthCallback.
  destruct (retrievePKCEParams (sessionStorage a)) as [[codeVerifier pkceState]|] eqn:Hp.
  - specialize (Hstate _ _ eq_refl).
    assert (Hne : state <> pkceState) by congruence.
    rewrite (eqb_false _ _ Hne). cbn [negb].
    destruct (Hfail "Invalid state parameter") as (H1 & H2 & H3 & H4 & H5 & H6).
    repeat split; assumption.
  - destruct (Hfail "PKCE parameters not found") as (H1 & H2 & H3 & H4 & H5 & H6).
    repeat split; assumption.
Qed.

(** X21. A successful callback stores the session: the store is
    authenticated with the exchanged token, the storage holds the token,
    the user id and the re-authorization marks, the PKCE parameters are
    removed, and the route is chosen by the stored file ids, a pending
    file id taking precedence over the login's direct file id, which
    then stays stored. *)
Theorem callback_stores_session
    (code state codeVerifier : string) (now1 now2 : Z) (ex : Exchange) (a : App) :
  retrievePKCEParams (sessionStorage a) = Some (codeVerifier, state) ->
  exchangeToken code state codeVerifier = Ok ex ->
  let final := handleOAuthCallback stringifyUser exchangeToken code state now1 now2 a in
  isAuthenticated (store final) = true /\
  accessToken (store final) = Some (ex_accessToken ex) /\
  recentlyReauthorized (store final) = true /\
  lastReauthorizationTime (store final) = now2 /\
  localStorage final !! "access_token" = Some (ex_accessToken ex) /\
  localStorage final !! "user_id" = Some (userId (ex_user ex)) /\
  localStorage final !! "recentlyReauthorized" = Some "true" /\
  localStorage final !! "lastReauthorizationTime" = Some (toString now2) /\
  retrievePKCEParams (sessionStorage final) = None /\
  pathname final =
    (if truthy (localStorage a !! "pending_file_id")
     then "/process/" +:+ default "" (localStorage a !! "pending_file_id")
     else if truthy (localStorage a !! "direct_file_id_oauth")
          then "/process/" +:+ default "" (localStorage a !! "direct_file_id_oauth")
          else "/select") /\
  (truthy (localStorage a !! "pending_file_id") = true ->
   localStorage final !! "pending_file_id" = None /\
   localStorage final !! "direct_file_id_oauth" = localStorage a !! "direct_file_id_oauth").
Proof.
  intros Hpkce Hex final. subst final. unfold handleOAuthCallback.
  rewrite Hpkce, String.eqb_refl. cbn [negb]. rewrite Hex.
  set (ls3 := (if truthy (ex_refreshToken ex) then _ else _) : gmap string string).
  assert (Hframe : forall k, k <> "access_token" -> k <> "token_expires_at" ->
                     k <> "user_id" -> k <> "user_info" -> k <> "refresh_token" ->
                     ls3 !! k = localStorage a !! k).
  { intros k H1 H2 H3 H4 H5. subst ls3. unfold AuthApi.storeTokenWithExpiration.
    destruct (truthy (ex_refreshToken ex));
      rewrite !lookup_insert_ne by congruence; reflexivity. }
  assert (Htok : ls3 !! "access_token" = Some (ex_accessToken ex) /\
                 ls3 !! "user_id" = Some (userId (ex_user ex))).
  { subst ls3. unfold AuthApi.storeTokenWithExpiration.
    destruct (truthy (ex_refreshToken ex)); lookups; split; reflexivity. }
  destruct Htok as [Htok Huid].
  lookups. rewrite !Hframe by discriminate.
  assert (Hclear : retrievePKCEParams (clearPKCEParams (sessionStorage a)) = None).
  { unfold retrievePKCEParams, clearPKCEParams. lookups. reflexivity. }
  destruct (truthy (localStorage a !! "pending_file_id")) eqn:Hpend;
    [|destruct (truthy (localStorage a !! "direct_file_id_oauth")) eqn:Hdir];
    cbn [store localStorage sessionStorage pathname];
    repeat split; try reflexivity; try exact Hclear; try discriminate;
    lookups; try rewrite Hframe by discriminate; auto.
Qed.

(** What a successful callback leaves in the storage. *)
Lemma callback_marks
    (code state codeVerifier : string) (now1 now2 : Z) (ex : Exchange) (a : App) :
  retrievePKCEParams (sessionStorage a) = Some (codeVerifier, state) ->
  exchangeToken code state codeVerifier = Ok ex ->
  let final := handleOAuthCallback stringifyUser exchangeToken code state now1 now2 a in
  localStorage final !! "access_token" = Some (ex_accessToken ex) /\
  localStorage final !! "user_id" = Some (userId (ex_user ex)) /\
  localStorage final !! "recentlyReauthorized" = Some "true" /\
  localStorage final !! "lastReauthorizationTime" = Some (toString now2).
Proof.
  intros Hpkce Hex final. subst final. unfold handleOAuthCallback.
  rewrite Hpkce, String.eqb_refl. cbn [negb]. rewrite Hex.
  set (ls3 := (if truthy (ex_refreshToken ex) then _ else _) : gmap string string).
  assert (Htok : ls3 !! "access_token" = Some (ex_accessToken ex) /\
                 ls3 !! "user_id" = Some (userId (ex_user ex))).
  { subst ls3. unfold AuthApi.storeTokenWithExpiration.
    destruct (truthy (ex_refreshToken ex)); lookups; split; reflexivity. }
  destruct Htok as [Htok Huid].
  lookups.
  destruct (truthy (ls3 !! "pending_file_id"));
    [|destruct (truthy (ls3 !! "direct_file_id_oauth"))];
    cbn [localStorage]; lookups; auto.
Qed.

Section Immediate.

Variable usersGetCurrentAccount : string -> Result Account.
Variable parseUserInfo : string -> option User.

(** X22. After a successful callback at clock reading [now2], the
    immediate validation started without the ignore flag returns true at
    once, without asking the provider, as long as less than five minutes
    have passed; from five minutes on it removes the two
    re-authorization marks from the storage and asks the provider about
    the stored token. *)
Theorem immediate_validation_after_callback
    (code state codeVerifier : string) (now1 now2 now : Z) (ex : Exchange) (a : App) :
  retrievePKCEParams (sessionStorage a) = Some (codeVerifier, state) ->
  exchangeToken code state codeVerifier = Ok ex ->
  ex_accessToken ex <> "" -> userId (ex_user ex) <> "" ->
  let final := handleOAuthCallback stringifyUser exchangeToken code state now1 now2 a in
  let res := ImmediateValidation.triggerImmediateAccountValidation
               usersGetCurrentAccount parseUserInfo false now (localStorage final) in
  (now - now2 < 5 * 60 * 1000 ->
   res = (Some true, localStorage final, [], [])) /\
  (5 * 60 * 1000 <= now - now2 ->
   snd res = [ex_accessToken ex] /\
   snd (fst (fst res)) =
     delete "lastReauthorizationTime" (delete "recentlyReauthorized" (localStorage final))).
Proof.
  intros Hpkce Hex Htok Huid final res.
  destruct (callback_marks code state codeVerifier now1 now2 ex a Hpkce Hex)
    as (Hat & Hui & Hre & Hlast).
  fold final in Hat, Hui, Hre, Hlast.
  subst res. unfold ImmediateValidation.triggerImmediateAccountValidation,
    ImmediateValidation.graceCheck, ImmediateValidation.GRACE_PERIOD.
  rewrite Hre, Hlast, (truthy_Some _ (AuthApiFacts.toString_nonempty now2)).
  rewrite bool_decide_eq_true_2 by reflexivity. cbn [andb].
  change (default "" (Some (toString now2))) with (toString now2).
  rewrite parseInt_toString.
  split; intros Hnow.
  - destruct (Z.ltb_spec (now - now2) (5 * 60 * 1000)); [reflexivity|lia].
  - destruct (Z.ltb_spec (now - now2) (5 * 60 * 1000)); [lia|].
    rewrite !lookup_delete_ne by discriminate.
    rewrite Hat, Hui, (truthy_Some _ Htok), (truthy_Some _ Huid).
    change (default "" (Some (ex_accessToken ex))) with (ex_accessToken ex).
    cbn [negb orb].
    destruct (usersGetCurrentAccount (ex_accessToken ex)) as [acc|e];
      [destruct (negb (String.eqb (account_id acc) _))|]; split; reflexivity.
Qed.

End Immediate.

(** X27. The account switch banner's fix action, unlike the mismatch
    banner's, keeps nothing across the re-login: the two storages are
    emptied, the re-authorization marks it has just set are reset, and
    after the login and a successful callback the user is on [/select]
    with no direct file id and no pending file id, whatever was in hand
    when the switch was detected. *)
Theorem switch_fix_forgets_the_file
    (d : SwitchDetail) (t1 t3 t4 : Z) (codeVerifier state code : string)
    (ex : Exchange) (a : App) :
  codeVerifier <> "" -> state <> "" ->
  exchangeToken code state codeVerifier = Ok ex ->
  let fixed := Exits.handleFixAccountSwitchWithCountdown t1
                 (handleAccountSwitchDetected d a) in
  let final := Exits.reauthenticateAfterSwitch stringifyUser exchangeToken
                 d t1 t3 t4 codeVerifier state code a in
  localStorage fixed = ∅ /\ sessionStorage fixed = ∅ /\
  recentlyReauthorized (store fixed) = false /\
  lastReauthorizationTime (store fixed) = 0 /\
  isAuthenticated (store final) = true /\
  pathname final = "/select" /\
  directFileId (store final) = None /\
  localStorage final !! "pending_file_id" = None.
Proof.
  intros Hv Hs Hex fixed final.
  assert (Hfix : localStorage fixed = ∅).
  { subst fixed. unfold Exits.handleFixAccountSwitchWithCountdown, clearAllUserData.
    cbn [localStorage]. apply removeItems_empty. }
  split; [exact Hfix|]. split; [reflexivity|]. split; [reflexivity|].
  split; [reflexivity|].
  subst final. unfold Exits.reauthenticateAfterSwitch, handleLogin, pageLoad.
  cbn [store localStorage sessionStorage pathname directFileId initialStore].
  change (truthy None) with false. cbn iota. fold fixed. rewrite Hfix.
  unfold handleOAuthCallback. cbn [store localStorage sessionStorage pathname].
  change (sessionStorage fixed) with (∅ : gmap string string).
  rewrite (RecoveryFacts.retrieve_stored_pkce codeVerifier state ∅ Hv Hs).
  rewrite String.eqb_refl. cbn [negb]. rewrite Hex.
  set (ls3 := (if truthy (ex_refreshToken ex) then _ else _) : gmap string string).
  assert (Hframe : forall k, k <> "access_token" -> k <> "token_expires_at" ->
                     k <> "user_id" -> k <> "user_info" -> k <> "refresh_token" ->
                     ls3 !! k = None).
  { intros k H1 H2 H3 H4 H5. subst ls3. unfold AuthApi.storeTokenWithExpiration.
    destruct (truthy (ex_refreshToken ex));
      rewrite !lookup_insert_ne by congruence; apply lookup_empty. }
  lookups. rewrite !Hframe by discriminate.
  change (truthy None) with false. cbn iota.
  cbn [store localStorage sessionStorage pathname].
  repeat split. lookups. apply Hframe; discriminate.
Qed.

End Facts.

Lemma callback_rejects_foreign_state_witness :
  let final := handleOAuthCallback ClientScenarios.stringifyA ClientScenarios.exchangeB
                 "code" "state-2" 1700000000000 1700000000001 MoreScenarios.returning in
  isAuthenticated (store final) = false /\
  accessToken (store final) = None /\
  localStorage final !! "access_token" = None /\
  localStorage final !! "refresh_token" = None /\
  retrievePKCEParams (sessionStorage final) = None /\
  pathname final = "/login" /\
  forall exchange' : string -> string -> string -> Result Exchange,
    handleOAuthCallback ClientScenarios.stringifyA exchange'
      "code" "state-2" 1700000000000 1700000000001 MoreScenarios.returning = final.
Proof.
  intros final.
  apply (callback_rejects_foreign_state ClientScenarios.stringifyA ClientScenarios.exchangeB
           "code" "state-2" 1700000000000 1700000000001 MoreScenarios.returning).
  intros codeVerifier pkceState H. vm_compute in H. injection H as _ <-. discriminate.
Defined.

Lemma callback_stores_session_witness :
  let final := handleOAuthCallback ClientScenarios.stringifyA ClientScenarios.exchangeB
                 "code" "state-1" 1700000000000 1700000000001 MoreScenarios.returning in
  isAuthenticated (store final) = true /\
  accessToken (store final) = Some "tokenB" /\
  recentlyReauthorized (store final) = true /\
  lastReauthorizationTime (store final) = 1700000000001 /\
  localStorage final !! "access_token" = Some "tokenB" /\
  localStorage final !! "user_id" = Some "dbid:B" /\
  localStorage final !! "recentlyReauthorized" = Some "true" /\
  localStorage final !! "lastReauthorizationTime" = Some (toString 1700000000001) /\
  retrievePKCEParams (sessionStorage final) = None /\
  pathname final =
    (if truthy (localStorage MoreScenarios.returning !! "pending_file_id")
     then "/process/" +:+ default "" (localStorage MoreScenarios.returning !! "pending_file_id")
     else if truthy (localStorage MoreScenarios.returning !! "direct_file_id_oauth")
          then "/process/" +:+
               default "" (localStorage MoreScenarios.returning !! "direct_file_id_oauth")
          else "/select") /\
  (truthy (localStorage MoreScenarios.returning !! "pending_file_id") = true ->
   localStorage final !! "pending_file_id" = None /\
   localStorage final !! "direct_file_id_oauth"
     = localStorage MoreScenarios.returning !! "direct_file_id_oauth").
Proof.
  intros final.
  apply (callback_stores_session ClientScenarios.stringifyA ClientScenarios.exchangeB
           "code" "state-1" "verifier" 1700000000000 1700000000001
           {| ex_user := {| userId := "dbid:B"; email := "b@example.com"; name := "B" |};
              ex_accessToken := "tokenB"; ex_refreshToken := Some "refreshB" |}
           MoreScenarios.returning); reflexivity.
Defined.

Lemma immediate_validation_after_callback_witness :
  let final := handleOAuthCallback ClientScenarios.stringifyA ClientScenarios.exchangeB
                 "code" "state-1" 1700000000000 1700000000001 MoreScenarios.returning in
  let res := ImmediateValidation.triggerImmediateAccountValidation
               ClientScenarios.unreachable ClientScenarios.parseNothing false
               1700000060000 (localStorage final) in
  (1700000060000 - 1700000000001 < 5 * 60 * 1000 ->
   res = (Some true, localStorage final, [], [])) /\
  (5 * 60 * 1000 <= 1700000060000 - 1700000000001 ->
   snd res = ["tokenB"] /\
   snd (fst (fst res)) =
     delete "lastReauthorizationTime" (delete "recentlyReauthorized" (localStorage final))).
Proof.
  intros final res.
  apply (immediate_validation_after_callback ClientScenarios.stringifyA
           ClientScenarios.exchangeB ClientScenarios.unreachable ClientScenarios.parseNothing
           "code" "state-1" "verifier" 1700000000000 1700000000001 1700000060000
           {| ex_user := {| userId := "dbid:B"; email := "b@example.com"; name := "B" |};
              ex_accessToken := "tokenB"; ex_refreshToken := Some "refreshB" |}
           MoreScenarios.returning); first [reflexivity | discriminate].
Defined.

Lemma switch_fix_forgets_the_file_witness :
  let fixed := Exits.handleFixAccountSwitchWithCountdown 1700000000000
                 (handleAccountSwitchDetected MoreScenarios.detectedSwitch
                    ClientScenarios.processingF) in
  let final := Exits.reauthenticateAfterSwitch ClientScenarios.stringifyA
                 ClientScenarios.exchangeB MoreScenarios.detectedSwitch
                 1700000000000 1700000000001 1700000000002 "verifier" "state-1" "code"
                 ClientScenarios.processingF in
  localStorage fixed = ∅ /\ sessionStorage fixed = ∅ /\
  recentlyReauthorized (store fixed) = false /\
  lastReauthorizationTime (store fixed) = 0 /\
  isAuthenticated (store final) = true /\
  pathname final = "/select" /\
  directFileId (store final) = None /\
  localStorage final !! "pending_file_id" = None.
Proof.
  intros fixed final.
  apply (switch_fix_forgets_the_file ClientScenarios.stringifyA ClientScenarios.exchangeB
           MoreScenarios.detectedSwitch 1700000000000 1700000000001 1700000000002
           "verifier" "state-1" "code"
           {| ex_user := {| userId := "dbid:B"; email := "b@example.com"; name := "B" |};
              ex_accessToken := "tokenB"; ex_refreshToken := Some "refreshB" |}
           ClientScenarios.processingF); first [reflexivity | discriminate].
Defined.

End LoginFacts.

(** ** The client validators *)

Module ValidatorFacts.
Import Js Client JsFacts.

Lemma truthy_inv (o : option string) :
  truthy o = true -> exists t, o = Some t /\ t <> "".
Proof.
  destruct o as [t|]; [|discriminate]. cbn.
  destruct (String.eqb_spec t ""); [discriminate|]. eauto.
Qed.

Lemma removeItems_lookup (keys : list string) (ls : gmap string string) (k : string) :
  removeItems keys ls !! k = if bool_decide (k ∈ keys) then None else ls !! k.
Proof.
  induction keys as [|x keys IH]; [reflexivity|].
  cbn [removeItems fold_right]. fold (removeItems keys ls).
  destruct (decide (k = x)) as [->|Hne].
  - rewrite lookup_delete_eq, bool_decide_eq_true_2; [reflexivity|left].
  - rewrite lookup_delete_ne, IH by congruence.
    destruct (decide (k ∈ keys)) as [Hin|Hnin].
    + rewrite !bool_decide_eq_true_2; [reflexivity|now right|exact Hin].
    + rewrite !bool_decide_eq_false_2; [reflexivity| |exact Hnin].
      intros Hin. apply elem_of_cons in Hin as [?|?]; contradiction.
Qed.

Section Facts.

Variable usersGetCurrentAccount : string -> Result Account.
Variable filesListFolder : string -> Result unit.
Variable usersGetSpaceUsage : string -> Result unit.
Variable parseUserInfo : string -> option User.
Variable jsonParse : string -> StoredCredentials.Parsed.

(** X23. The startup check passes exactly when the three stored items
    are present and the provider names the stored user id for the stored
    token, whether or not the stored user info can be parsed; it asks
    the provider at most once and not at all when an item is missing;
    and every failure, a missing item included, dispatches one
    [accountMismatch] event marked as confirmed. *)
Theorem comprehensive_check_verdict (ls : gmap string string) :
  let res := ComprehensiveCheck.triggerComprehensiveAccountCheck
               usersGetCurrentAccount parseUserInfo ls in
  let complete := truthy (ls !! "access_token") && truthy (ls !! "user_id") &&
                  truthy (ls !! "user_info") in
  (fst (fst res) = true <->
     complete = true /\
     exists a, usersGetCurrentAccount (default "" (ls !! "access_token")) = Ok a /\
               account_id a = default "" (ls !! "user_id")) /\
  (fst (fst res) = true -> snd (fst res) = []) /\
  (fst (fst res) = false ->
     exists d, snd (fst res) = [accountMismatch d] /\
               confirmed d = true /\ source d = "comprehensive-check") /\
  snd res = (if complete then [default "" (ls !! "access_token")] else []).
Proof.
  intros res complete. subst res complete.
  unfold ComprehensiveCheck.triggerComprehensiveAccountCheck,
    ComprehensiveCheck.performComprehensiveAccountCheck.
  destruct (truthy (ls !! "access_token")), (truthy (ls !! "user_id")),
    (truthy (ls !! "user_info")); cbn [negb app andb];
    try (cbn; repeat split; try discriminate; try (intros [? _]; discriminate);
         eexists; repeat split; fail).
  destruct (parseUserInfo (default "" (ls !! "user_info"))) as [u|];
    (destruct (usersGetCurrentAccount (default "" (ls !! "access_token"))) as [a|e];
     [destruct (String.eqb_spec (account_id a) (default "" (ls !! "user_id"))) as [E|E]|]);
    cbn; repeat split; try discriminate; eauto;
    try (intros (_ & a' & Ha & Hid); congruence);
    try (intros; eexists; repeat split; fail).
Qed.

(** X24. The validation hook never touches the credentials of the
    store.  A false verdict always raises the mismatch banner, also when
    it comes from missing credentials without any call to the provider;
    a true verdict leaves the banner and its text as they were; at most
    one call is made. *)
Theorem hook_failure_shows_banner
    (op : AccountValidationHook.OperationType) (now : Z) (s : Store) :
  let res := AccountValidationHook.validateBeforeOperation usersGetCurrentAccount op now s in
  (fst (fst res) = false -> showAccountMismatchBanner (snd (fst res)) = true) /\
  (fst (fst res) = true ->
     showAccountMismatchBanner (snd (fst res)) = showAccountMismatchBanner s /\
     accountMismatchInfo (snd (fst res)) = accountMismatchInfo s) /\
  accessToken (snd (fst res)) = accessToken s /\
  userInfo (snd (fst res)) = userInfo s /\
  isAuthenticated (snd (fst res)) = isAuthenticated s /\
  (length (snd res) <= 1)%nat.
Proof.
  intros res. subst res.
  assert (Hrun : forall s1 : Store,
            accessToken s1 = accessToken s -> userInfo s1 = userInfo s ->
            isAuthenticated s1 = isAuthenticated s ->
            showAccountMismatchBanner s1 = showAccountMismatchBanner s ->
            accountMismatchInfo s1 = accountMismatchInfo s ->
            let res := (let '(validation, probes) :=
                          AccountValidationHook.validateCurrentAccount
                            usersGetCurrentAccount s1 in
                        if negb (AccountValidationHook.isValid validation)
                        then (false, AccountValidationHook.showAccountMismatch validation s1,
                              probes)
                        else (true, s1, probes)) in
            (fst (fst res) = false -> showAccountMismatchBanner (snd (fst res)) = true) /\
            (fst (fst res) = true ->
               showAccountMismatchBanner (snd (fst res)) = showAccountMismatchBanner s /\
               accountMismatchInfo (snd (fst res)) = accountMismatchInfo s) /\
            accessToken (snd (fst res)) = accessToken s /\
            userInfo (snd (fst res)) = userInfo s /\
            isAuthenticated (snd (fst res)) = isAuthenticated s /\
            (length (snd res) <= 1)%nat).
  { intros s1 H1 H2 H3 H4 H5. unfold AccountValidationHook.validateCurrentAccount.
    repeat case_match; cbn; repeat split; auto; try discriminate; try congruence;
      simplify_eq; cbn; lia. }
  unfold AccountValidationHook.validateBeforeOperation.
  destruct op; try (apply Hrun; reflexivity).
  destruct (recentlyReauthorized s && negb (lastReauthorizationTime s =? 0));
    [|apply Hrun; reflexivity].
  destruct (now - lastReauthorizationTime s <? AccountValidationHook.GRACE_PERIOD).
  - cbn. repeat split; auto; try discriminate.
  - apply Hrun; reflexivity.
Qed.

(** X25. The session consistency check passes exactly when the stored
    token and user id are present, the provider names that user id for
    the token, and both the folder listing and the space usage succeed;
    its calls are a prefix of identity, listing, usage, all with the
    stored token.  [preValidateApiCall] gives the same verdict with the
    same calls, and on success returns no account fields. *)
Theorem session_consistency_verdict (ls : gmap string string) :
  let res := AccountValidation.validateSessionConsistency
               usersGetCurrentAccount filesListFolder usersGetSpaceUsage ls in
  let pre := StoredCredentials.preValidateApiCall
               usersGetCurrentAccount filesListFolder usersGetSpaceUsage ls in
  let tok := default "" (ls !! "access_token") in
  (AccountValidation.isValid (fst res) = true <->
     truthy (ls !! "access_token") = true /\ truthy (ls !! "user_id") = true /\
     (exists a, usersGetCurrentAccount tok = Ok a /\
                account_id a = default "" (ls !! "user_id")) /\
     (exists x, filesListFolder tok = Ok x) /\
     (exists y, usersGetSpaceUsage tok = Ok y)) /\
  snd res `prefix_of`
    [AccountValidation.usersGetCurrentAccountCall tok;
     AccountValidation.filesListFolderCall tok;
     AccountValidation.usersGetSpaceUsageCall tok] /\
  AccountValidation.isValid (fst pre) = AccountValidation.isValid (fst res) /\
  snd pre = snd res /\
  (AccountValidation.isValid (fst pre) = true ->
   AccountValidation.accountId (fst pre) = None /\
   AccountValidation.accountEmail (fst pre) = None).
Proof.
  intros res pre tok. subst res pre tok.
  unfold StoredCredentials.preValidateApiCall,
    StoredCredentials.validateAccountWithSessionCheck,
    AccountValidation.validateSessionConsistency,
    AccountValidation.validateCurrentAccount.
  destruct (truthy (ls !! "access_token")), (truthy (ls !! "user_id"));
    cbn [negb orb];
    [ destruct (usersGetCurrentAccount (default "" (ls !! "access_token"))) as [a|e];
      [destruct (String.eqb_spec (account_id a) (default "" (ls !! "user_id"))) as [E|E];
       [destruct (filesListFolder (default "" (ls !! "access_token"))) as [x|e1];
        [destruct (usersGetSpaceUsage (default "" (ls !! "access_token"))) as [y|e2]
        |destruct (isError e1 && includes "401" (default "" (message e1)))]|]|]
    | | | ];
    cbn; repeat split;
    first [ discriminate
          | reflexivity
          | intros (H1 & H2 & (a' & Ha & Hid) & (x' & Hx) & (y' & Hy));
            first [discriminate H1 | discriminate H2 | congruence]
          | eexists; reflexivity
          | eexists [_]; reflexivity
          | eexists [_; _]; reflexivity
          | eexists [_; _; _]; reflexivity
          | eauto 8 ].
Qed.

(** X28. Every way of dropping the session locks the interface: after
    [clearAuth], [clearAllUserData] or [forceReauth] the quick check of
    the stored credentials fails.  [forceReauth] removes the key
    [token_expires_in], which nothing writes, and so leaves the stored
    expiry time in place, which the other two remove. *)
Theorem credential_removal_locks_ui (s : Store) (ls : gmap string string) :
  StoredCredentials.shouldLockUI jsonParse (snd (clearAuth s ls)) = true /\
  StoredCredentials.shouldLockUI jsonParse (snd (clearAllUserData s ls)) = true /\
  StoredCredentials.shouldLockUI jsonParse (StoredCredentials.forceReauth ls) = true /\
  StoredCredentials.forceReauth ls !! "token_expires_at" = ls !! "token_expires_at" /\
  snd (clearAuth s ls) !! "token_expires_at" = None /\
  snd (clearAllUserData s ls) !! "token_expires_at" = None.
Proof.
  unfold StoredCredentials.shouldLockUI, StoredCredentials.validateStoredCredentials,
    StoredCredentials.forceReauth, clearAuth, clearAllUserData.
  cbn [snd]. rewrite !removeItems_lookup.
  repeat split; reflexivity.
Qed.

End Facts.

End ValidatorFacts.

(** ** The second fetch wrapper and the upscale limits *)

Module UtilityFacts.
Import Js Client StoredCredentials.

(** X30. The fetch wrapper of utils/accountValidation counts every
    response with a status of 400 or more and is reset by a 2xx response
    only, not by dispatching: a 409 dispatches at once, and once one
    error has been counted every further error response dispatches an
    [accountSwitchDetected] event, so a run of [n] error responses
    dispatches [n] events and leaves the counter [n] higher.  A
    rejected fetch leaves the counter as it is, and a failure without a
    response dispatches nothing. *)
Theorem fetch_wrapper_counts_every_error (c : Z) (rs : list FetchResult) :
  1 <= c ->
  Forall (fun r => exists st, r = Responded st /\ 400 <= st) rs ->
  onFetches c rs = (c + Z.of_nat (length rs), length rs) /\
  (forall st, 200 <= st <= 299 -> onFetch c (Responded st) = (0, 0%nat)) /\
  onFetch 0 (Responded 409) = (1, 1%nat) /\
  (forall st, 400 <= st -> st <> 409 -> onFetch 0 (Responded st) = (1, 0%nat)) /\
  (forall response, fst (onFetch c (Rejected response)) = c) /\
  onFetch c (Rejected None) = (c, 0%nat).
Proof.
  intros Hc Hall. split; [|split; [|split; [|split; [|split; [reflexivity|reflexivity]]]]].
  - revert c Hc. induction Hall as [|r rs (st & -> & Hst) _ IH]; intros c Hc.
    + cbn. f_equal. lia.
    + cbn [onFetches length].
      assert (H1 : onFetch c (Responded st) = (c + 1, 1%nat)).
      { unfold onFetch. destruct (Z.eqb_spec st 409); [reflexivity|].
        destruct (Z.leb_spec 200 st); destruct (Z.leb_spec st 299); cbn [andb]; try lia.
        destruct (Z.leb_spec 400 st); [|lia].
        destruct (Z.leb_spec 2 (c + 1)); [reflexivity|lia]. }
      rewrite H1, (IH (c + 1)) by lia. f_equal. lia.
  - intros st Hst. unfold onFetch. destruct (Z.eqb_spec st 409); [lia|].
    destruct (Z.leb_spec 200 st); destruct (Z.leb_spec st 299); cbn [andb]; try lia.
    reflexivity.
  - reflexivity.
  - intros st Hst Hne. unfold onFetch. destruct (Z.eqb_spec st 409); [contradiction|].
    destruct (Z.leb_spec 200 st); destruct (Z.leb_spec st 299); cbn [andb]; try lia.
    destruct (Z.leb_spec 400 st); [reflexivity|lia].
Qed.

Lemma fetch_wrapper_counts_every_error_witness :
  onFetches 1 [Responded 404; Responded 500]
    = (1 + Z.of_nat (length [Responded 404; Responded 500]),
       length [Responded 404; Responded 500]) /\
  (forall st, 200 <= st <= 299 -> onFetch 1 (Responded st) = (0, 0%nat)) /\
  onFetch 0 (Responded 409) = (1, 1%nat) /\
  (forall st, 400 <= st -> st <> 409 -> onFetch 0 (Responded st) = (1, 0%nat)) /\
  (forall response, fst (onFetch 1 (Rejected response)) = 1) /\
  onFetch 1 (Rejected None) = (1, 0%nat).
Proof.
  apply (fetch_wrapper_counts_every_error 1 [Responded 404; Responded 500]); [lia|].
  repeat constructor; eexists; (split; [reflexivity|lia]).
Defined.

Import Upscale.

(** X29. The safe upscale factors depend on the larger side only: all of
    2, 4, 6, 8 up to 600 pixels, then 2, 4, 6 up to 800, then 2, 4 up to
    1024, then 2 up to 2000, and none beyond or when a side is unknown;
    the 4800-pixel output limit never removes a factor.  So the
    recommended factor is 2 whenever there is one, and the warning's
    fallback message is not the one built when no factor is safe. *)
Theorem safe_factors_by_larger_side (imageData : ImageData) :
  let w := default 0 (width imageData) in
  let h := default 0 (height imageData) in
  calculateSafeUpscaleFactors imageData =
    (if (w =? 0) || (h =? 0) then []
     else if Z.max w h <=? 600 then [2; 4; 6; 8]
     else if Z.max w h <=? 800 then [2; 4; 6]
     else if Z.max w h <=? 1024 then [2; 4]
     else if Z.max w h <=? 2000 then [2]
     else []) /\
  (getRecommendedUpscaleFactor imageData = None \/
   getRecommendedUpscaleFactor imageData = Some 2) /\
  (calculateSafeUpscaleFactors imageData = [] ->
   fst (generateUpscaleWarning imageData) <> Fallback).
Proof.
  intros w h.
  assert (Hf : calculateSafeUpscaleFactors imageData =
    (if (w =? 0) || (h =? 0) then []
     else if Z.max w h <=? 600 then [2; 4; 6; 8]
     else if Z.max w h <=? 800 then [2; 4; 6]
     else if Z.max w h <=? 1024 then [2; 4]
     else if Z.max w h <=? 2000 then [2]
     else [])).
  { unfold calculateSafeUpscaleFactors. fold w h.
    destruct ((w =? 0) || (h =? 0)); [reflexivity|].
    unfold factorLimits. cbn [omap list_omap].
    repeat match goal with
           | |- context [?a <=? ?b] =>
               destruct (Z.leb_spec a b); try (exfalso; lia)
           end; reflexivity. }
  split; [exact Hf|]. split.
  - unfold getRecommendedUpscaleFactor. rewrite Hf.
    repeat match goal with |- context [if ?c then _ else _] => destruct c end;
      cbn; auto.
  - rewrite Hf. unfold generateUpscaleWarning. fold w h.
    destruct ((w =? 0) || (h =? 0)); [discriminate|].
    repeat match goal with
           | |- context [?a <=? ?b] => destruct (Z.leb_spec a b); try discriminate
           end.
    intros _.
    destruct (Z.ltb_spec 2000 w); destruct (Z.ltb_spec 2000 h); cbn; try discriminate.
    lia.
Qed.

End UtilityFacts.

(** ** The session restore on every input *)

Module RestoreInvariant.
Import Js Client UseAuth JsFacts.

Lemma sessionCleared_app (l1 l2 : list InitStep) :
  sessionCleared (l1 ++ l2) = sessionCleared l1 || sessionCleared l2.
Proof. unfold sessionCleared. apply existsb_app. Qed.

Lemma refreshToken_stored (now : Z) (server : AuthApi.RefreshFetch)
    (ls ls1 : gmap string string) (t : AuthApi.Tokens) (sent : bool) :
  AuthApi.refreshToken now server ls = (Some t, ls1, sent) ->
  ls1 !! "access_token" = Some (AuthApi.tok_accessToken t).
Proof.
  unfold AuthApi.refreshToken.
  destruct (negb (truthy (ls !! "refresh_token")) || negb (truthy (ls !! "user_id")));
    [discriminate|].
  destruct server as [m|st txt|m|tok rt e]; try discriminate.
  intros [= <- <- _]. cbn [AuthApi.tok_accessToken].
  destruct (truthy rt); RecoveryFacts.lookups; reflexivity.
Qed.

Section Facts.

Variable attempt : nat -> Attempt.
Variable clock : nat -> Z.
Variable health : Health.
Variable validateToken : string -> bool.
Variable serverReachable : bool.
Variable parseUserInfo : string -> option (option User).

(** The retry loop clears nothing, and when it ends with tokens the new
    access token is the stored one. *)
Lemma refreshLoop_exit (remaining n : nat) (info : option string)
    (ls : gmap string string) (trace : list InitStep) :
  sessionCleared trace = false ->
  sessionCleared (snd (refreshLoop attempt clock health parseUserInfo
                         remaining n info ls trace)) = false /\
  forall t, fst (fst (refreshLoop attempt clock health parseUserInfo
                        remaining n info ls trace)) = Refreshed t ->
    snd (fst (refreshLoop attempt clock health parseUserInfo
                remaining n info ls trace)) !! "access_token"
    = Some (AuthApi.tok_accessToken t).
Proof.
  revert n ls trace. induction remaining as [|k IH]; intros n ls trace Htr;
    cbn [refreshLoop]; [cbn; split; [exact Htr|discriminate]|].
  assert (H1 : forall l, sessionCleared l = false -> sessionCleared (trace ++ l) = false).
  { intros l Hl. now rewrite sessionCleared_app, Htr, Hl. }
  destruct (attempt (S n)) as [server|].
  - destruct (AuthApi.refreshToken (clock (S n)) server ls) as [[result ls1] b] eqn:Hr.
    destruct result as [t|].
    + cbn [fst snd]. split; [now apply H1|].
      intros t' [= <-]. eapply refreshToken_stored; exact Hr.
    + apply IH. now apply H1.
  - destruct (Nat.eqb (S n) maxAttempts).
    + destruct health.
      * cbn [fst snd]. split; [now apply H1|discriminate].
      * apply IH. now apply H1.
      * destruct (truthy info).
        -- destruct (parseUserInfo (default "" info)); cbn [fst snd];
             (split; [now apply H1|discriminate]).
        -- apply IH. now apply H1.
    + apply IH. now apply H1.
Qed.

Lemma restore_outcome (now : Z) (s : Store) (ls : gmap string string) :
  let res := initializeFromStorage attempt clock health validateToken serverReachable
               parseUserInfo now s ls in
  let s' := fst (fst res) in
  let ls' := snd (fst res) in
  isCheckingAuth s' = false /\
  (sessionCleared (snd res) = true ->
     isAuthenticated s' = false /\ accessToken s' = None /\
     ls' !! "access_token" = None /\ ls' !! "refresh_token" = None) /\
  (isAuthenticated s = false -> isAuthenticated s' = true ->
     accessToken s' = ls' !! "access_token" /\
     parseUserInfo (default "" (ls !! "user_info")) = Some (userInfo s') /\
     sessionCleared (snd res) = false).
Proof.
  intros res s' ls'. subst s' ls' res.
  unfold initializeFromStorage.
  assert (Hc : forall (ls1 : gmap string string) (tr : list InitStep)
                      (p : option (option User)),
            let res := (let '(s1, ls2) := clearAuth s ls1 in
                        (setIsCheckingAuth false s1, ls2, tr ++ [ClearAuth])) in
            isCheckingAuth (fst (fst res)) = false /\
            (sessionCleared (snd res) = true ->
               isAuthenticated (fst (fst res)) = false /\
               accessToken (fst (fst res)) = None /\
               snd (fst res) !! "access_token" = None /\
               snd (fst res) !! "refresh_token" = None) /\
            (isAuthenticated s = false -> isAuthenticated (fst (fst res)) = true ->
               accessToken (fst (fst res)) = snd (fst res) !! "access_token" /\
               p = Some (userInfo (fst (fst res))) /\
               sessionCleared (snd res) = false)).
  { intros ls1 tr p. unfold clearAuth, removeItems, auth_keys. cbn.
    repeat split; try discriminate; RecoveryFacts.lookups; reflexivity. }
  destruct (truthy (ls !! "access_token")) eqn:Htok; cbn [andb];
    [destruct (truthy (ls !! "user_id")) eqn:Huid|]; cbn [andb].
  3:{ cbn. repeat split; try discriminate; congruence. }
  2:{ cbn. repeat split; try discriminate; congruence. }
  destruct (ValidatorFacts.truthy_inv _ Htok) as (tok & Ht & Htne).
  rewrite Ht. change (default "" (Some tok)) with tok.
  destruct (AuthApi.isTokenExpiredOrExpiring now ls).
  - destruct (refreshLoop_exit maxAttempts 0 (ls !! "user_info") ls [] eq_refl)
      as [Hnc Hstored].
    destruct (refreshLoop attempt clock health parseUserInfo maxAttempts 0
                (ls !! "user_info") ls []) as [[exit ls1] trace].
    cbn [fst snd] in Hnc, Hstored.
    destruct exit as [t| | |].
    + specialize (Hstored t eq_refl).
      destruct (negb (String.eqb (AuthApi.tok_accessToken t) "") && truthy (ls !! "user_info"));
        [destruct (parseUserInfo (default "" (ls !! "user_info"))) as [u|]|].
      * cbn -[sessionCleared]. rewrite Hstored, Hnc. repeat split; eauto; discriminate.
      * exact (Hc ls1 trace _).
      * exact (Hc ls1 trace _).
    + exact (Hc ls1 trace _).
    + destruct (parseUserInfo (default "" (ls !! "user_info"))) as [u|].
      * cbn -[sessionCleared]. rewrite Hnc. repeat split; try discriminate.
      * exact (Hc ls1 trace _).
    + exact (Hc ls1 trace _).
  - destruct (validateToken tok && truthy (ls !! "user_info")).
    + destruct (parseUserInfo (default "" (ls !! "user_info"))) as [u|].
      * cbn. rewrite Ht. repeat split; eauto; discriminate.
      * exact (Hc ls [ValidateToken] _).
    + destruct serverReachable.
      * exact (Hc ls [ValidateToken; ReachabilityCheck] _).
      * destruct (truthy (ls !! "user_info"));
          [destruct (parseUserInfo (default "" (ls !! "user_info"))) as [u|]|].
        -- cbn. repeat split; try discriminate.
        -- exact (Hc ls [ValidateToken; ReachabilityCheck] _).
        -- cbn. repeat split; try discriminate; congruence.
Qed.

(** X26. Whatever the stored data and whatever the network does, the
    session restore ends with [isCheckingAuth] false.  A restore that
    clears the session leaves no token in the store or the storage.  A
    restore that authenticates a store that was not authenticated leaves
    the access token of the store equal to the stored one, clears
    nothing, and sets as user exactly what the stored user info parses
    to, which is no user at all when that text is [null]: a session with
    a good token and the user info [null] is restored as authenticated
    without a user.  Without a stored token or user id nothing is asked
    and nothing is changed. *)
Theorem restore_invariant (now : Z) (s : Store) (ls : gmap string string) :
  let res := initializeFromStorage attempt clock health validateToken serverReachable
               parseUserInfo now s ls in
  let s' := fst (fst res) in
  let ls' := snd (fst res) in
  isCheckingAuth s' = false /\
  (sessionCleared (snd res) = true ->
     isAuthenticated s' = false /\ accessToken s' = None /\
     ls' !! "access_token" = None /\ ls' !! "refresh_token" = None) /\
  (isAuthenticated s = false -> isAuthenticated s' = true ->
     accessToken s' = ls' !! "access_token" /\
     parseUserInfo (default "" (ls !! "user_info")) = Some (userInfo s') /\
     sessionCleared (snd res) = false) /\
  (truthy (ls !! "access_token") && truthy (ls !! "user_id") = false ->
     snd res = [] /\ ls' = ls) /\
  (truthy (ls !! "access_token") = true -> truthy (ls !! "user_id") = true ->
   truthy (ls !! "user_info") = true ->
   AuthApi.isTokenExpiredOrExpiring now ls = false ->
   validateToken (default "" (ls !! "access_token")) = true ->
   parseUserInfo (default "" (ls !! "user_info")) = Some None ->
   isAuthenticated s' = true /\ userInfo s' = None /\
   accessToken s' = ls !! "access_token" /\ ls' = ls).
Proof.
  intros res s' ls'. subst s' ls' res.
  destruct (restore_outcome now s ls) as (A & B & C).
  split; [exact A|]. split; [exact B|]. split; [exact C|]. split.
  - intros Hnone. unfold initializeFromStorage. rewrite Hnone. split; reflexivity.
  - intros Htok Huid Hinfo Hexp Hvalid Hnull. unfold initializeFromStorage.
    destruct (ValidatorFacts.truthy_inv _ Htok) as (tok & Ht & _).
    rewrite Htok, Huid, Hexp, Hvalid, Hinfo, Hnull, Ht. cbn. repeat split.
Qed.

End Facts.

Lemma restore_invariant_witness :
  let res := initializeFromStorage ClientScenarios.alwaysTimedOut ClientScenarios.wallClock
               HealthOk (fun _ => true) true ClientScenarios.jsonNull
               1700000000000 initialStore ClientScenarios.nullInfoA in
  isAuthenticated (fst (fst res)) = true /\ userInfo (fst (fst res)) = None /\
  accessToken (fst (fst res)) = ClientScenarios.nullInfoA !! "access_token" /\
  snd (fst res) = ClientScenarios.nullInfoA.
Proof.
  intros res.
  destruct (restore_invariant ClientScenarios.alwaysTimedOut ClientScenarios.wallClock
              HealthOk (fun _ => true) true ClientScenarios.jsonNull
              1700000000000 initialStore ClientScenarios.nullInfoA)
    as (_ & _ & _ & _ & Hnull).
  apply Hnull; vm_compute; reflexivity.
Defined.

End RestoreInvariant.
